(** * Farning-Bot: input parsers, authorization policy and course workflows

  A shallow embedding of [main.py].  Python [str] values are lists of
  Unicode code points, Python [int]s are [Z], a Python [set] of ints is a
  [gset Z], and the coroutines that talk to Discord are trees of API
  calls that an arbitrary platform answers. *)

From Stdlib Require Import ZArith NArith Ascii String Lia.
From stdpp Require Import base tactics option list gmap sets pretty.

Local Open Scope Z_scope.

(** ** Python strings *)

Module PyStr.

(** A [str] is a sequence of code points. *)
Abbreviation str := (list N).

(** String literals of the source, written as ASCII text. *)
Definition py (s : string) : str := N_of_ascii <$> list_ascii_of_string s.

(** [str(n)] for an integer. *)
Definition str_of_int (n : Z) : str := py (pretty n).

(** [str.isspace] for one code point (CPython's [_PyUnicode_IsWhitespace]);
    it is also what [str.strip()], [str.split()] and the regex class
    [\s] use. *)
Definition isspace (c : N) : bool :=
  ((9 <=? c) && (c <=? 13) || (28 <=? c) && (c <=? 32)
   || (c =? 133) || (c =? 160) || (c =? 5760)
   || (8192 <=? c) && (c <=? 8202)
   || (c =? 8232) || (c =? 8233) || (c =? 8239) || (c =? 8287)
   || (c =? 12288))%N.

Fixpoint dropwhile (p : N -> bool) (s : str) : str :=
  match s with
  | [] => []
  | c :: t => if p c then dropwhile p t else s
  end.

Fixpoint takewhile (p : N -> bool) (s : str) : str :=
  match s with
  | [] => []
  | c :: t => if p c then c :: takewhile p t else []
  end.

Definition lstrip (s : str) : str := dropwhile isspace s.
Definition rstrip (s : str) : str := rev (dropwhile isspace (rev s)).
(** [s.strip()] *)
Definition strip (s : str) : str := rstrip (lstrip s).

(** [s.split()]: the maximal runs of non-whitespace; [cur] is the run
    being read. *)
Fixpoint split_ws_from (cur : str) (s : str) : list str :=
  match s with
  | [] => match cur with [] => [] | _ => [cur] end
  | c :: t =>
      if isspace c
      then match cur with [] => split_ws_from [] t | _ => cur :: split_ws_from [] t end
      else split_ws_from (cur ++ [c]) t
  end.
Definition split_ws (s : str) : list str := split_ws_from [] s.

(** [sep.join(parts)] *)
Fixpoint join (sep : str) (parts : list str) : str :=
  match parts with
  | [] => []
  | [p] => p
  | p :: rest => p ++ sep ++ join sep rest
  end.

(** [s.replace(" ", "-")], a one-character replacement. *)
Definition replace_char (old new : N) (s : str) : str :=
  (fun c => if (c =? old)%N then new else c) <$> s.

(** [re.split(pattern, s)] for a pattern that is one character class
    repeated ([[...]+]): the pieces between maximal runs of delimiters,
    with the empty pieces Python keeps at both ends. *)
Fixpoint re_split_from (delim : N -> bool) (cur : str) (in_run : bool) (s : str)
  : list str :=
  match s with
  | [] => [cur]
  | c :: t =>
      if delim c
      then if in_run then re_split_from delim [] true t
           else cur :: re_split_from delim [] true t
      else re_split_from delim (cur ++ [c]) false t
  end.
Definition re_split (delim : N -> bool) (s : str) : list str :=
  re_split_from delim [] false s.

(** The tables of the Unicode database that the source reaches through
    [str.lower], [str.casefold], [str.isdigit], [int] and the regex class
    [\d].  The two laws record how they act on ASCII. *)
Class PyUnicode := {
  (** [s.lower()] *)
  str_lower : str -> str;
  (** [s.casefold()] *)
  str_casefold : str -> str;
  (** decimal value of a code point of category Nd ([\d], [int]) *)
  ch_decimal : N -> option Z;
  (** [str.isdigit] for one code point *)
  ch_isdigit : N -> bool;
  decimal_ascii : forall c, (c < 128)%N ->
    ch_decimal c = if ((48 <=? c) && (c <=? 57))%N then Some (Z.of_N c - 48) else None;
  isdigit_ascii : forall c, (c < 128)%N ->
    ch_isdigit c = ((48 <=? c) && (c <=? 57))%N;
}.

Section Digits.
Context {U : PyUnicode}.

(** [\d] *)
Definition is_decimal (c : N) : bool :=
    match ch_decimal c with Some _ => true | None => false end.

(** [s.isdigit()] *)
Definition isdigit (s : str) : bool :=
    match s with [] => false | _ => forallb ch_isdigit s end.

Fixpoint int_from (acc : Z) (s : str) : option Z :=
    match s with
    | [] => Some acc
    | c :: t =>
        match ch_decimal c with
        | Some d => int_from (10 * acc + d) t
        | None => None
        end
    end.

(** [sys.int_info.default_max_str_digits]: the most digits that [int]
    converts from a text in base 10. *)
Definition MAX_STR_DIGITS : Z := 4300.

(** The conversion of a run of digits: CPython refuses a run of more
    than [MAX_STR_DIGITS] digits, leading zeros included, with
    [ValueError]. *)
Definition int_digits (digits : str) : option Z :=
    if MAX_STR_DIGITS <? Z.of_nat (length digits) then None else int_from 0 digits.

(** [int(s)] on a string without sign, blanks or underscores: the
    base-10 value of its decimal digits, [None] where Python raises
    [ValueError]: on the empty string, on a character without decimal
    value, and on more than 4300 digits. *)
Definition int10 (s : str) : option Z :=
    match s with [] => None | _ => int_digits s end.
End Digits.

(** The tables on U+0000..U+00FF (Basic Latin and Latin-1 Supplement);
    code points above are left as they are and are no digits. *)
Definition latin1_lower (c : N) : N :=
  (if (65 <=? c) && (c <=? 90) || (192 <=? c) && (c <=? 222) && negb (c =? 215)
   then c + 32 else c)%N.

Definition latin1_casefold (c : N) : str :=
  (if c =? 223 then [115; 115] else if c =? 181 then [956] else [latin1_lower c])%N.

Definition latin1_decimal (c : N) : option Z :=
  if ((48 <=? c) && (c <=? 57))%N then Some (Z.of_N c - 48) else None.

(** The superscripts U+00B2, U+00B3 and U+00B9 are digits for
    [str.isdigit] but have no decimal value. *)
Definition latin1_isdigit (c : N) : bool :=
  (if c <? 128 then (48 <=? c) && (c <=? 57)
   else (c =? 178) || (c =? 179) || (c =? 185))%N.

#[export] Instance Latin1 : PyUnicode := {|
  str_lower s := latin1_lower <$> s;
  str_casefold s := s ≫= latin1_casefold;
  ch_decimal := latin1_decimal;
  ch_isdigit := latin1_isdigit;
  decimal_ascii c _ := eq_refl;
  isdigit_ascii c (Hc : (c ?= 128)%N = Lt) :=
    @eq_ind_r comparison Lt
             (fun o => (if match o with Lt => true | _ => false end
                        then ((48 <=? c) && (c <=? 57))%N
                        else ((c =? 178) || (c =? 179) || (c =? 185))%N)
                       = ((48 <=? c) && (c <=? 57))%N) eq_refl (c ?= 128)%N Hc;
|}.

End PyStr.
Export PyStr.

(** ** Exceptions and results *)

(** The exceptions the source raises or meets.  [Forbidden] and [NotFound]
    are Discord's subclasses of [HTTPException]; the constructor
    [HTTPException] stands for every other instance of that class.
    [TypeError] is what a call with arguments that the callee does not
    take raises, [KeyError] what a dictionary raises for a missing key. *)
Inductive exn :=
| ValueError (msg : str)
| RuntimeError (msg : str)
| CheckFailure (msg : str)
| Forbidden
| NotFound
| HTTPException
| TypeError (msg : str)
| KeyError (key : str).

Inductive result (A : Type) :=
| Ok (a : A)
| Raise (e : exn).
Arguments Ok {A} a.
Arguments Raise {A} e.

Definition result_bind {A B} (r : result A) (f : A -> result B) : result B :=
  match r with Ok a => f a | Raise e => Raise e end.

(** ** Input parsers *)

Section Parsers.
Context {U : PyUnicode}.

(** [_normalize_course_name] *)
Definition _normalize_course_name (name : str) : str :=
  join (py " ") (split_ws (strip name)).

(** The class [[a-z0-9-]]. *)
Definition slug_class (c : N) : bool :=
  ((97 <=? c) && (c <=? 122) || (48 <=? c) && (c <=? 57) || (c =? 45))%N.

(** [re.sub(r"[^...]", repl, s)] for a negated class and a one-character
    replacement: every character outside [keep] becomes [repl]. *)
Definition re_sub_outside (keep : N -> bool) (repl : N) (s : str) : str :=
  (fun c => if keep c then c else repl) <$> s.

(** [_slugify] *)
Definition _slugify (name : str) : str :=
  let slug := replace_char 32 45 (str_lower (strip name)) in
  match take 90 (re_sub_outside slug_class 45 slug) with
  | [] => py "kurs"
  | cut => cut
  end.

(** [TIME_MULTIPLIERS] *)
Definition TIME_MULTIPLIERS : gmap str Z :=
  {[ py "s" := 1; py "m" := 60; py "h" := 3600; py "d" := 86400 ]}.

(** The class [[smhd]]. *)
Definition unit_class (c : N) : bool :=
  ((c =? 115) || (c =? 109) || (c =? 104) || (c =? 100))%N.

(** [re.fullmatch(r"(\d+)([smhd])?", s)]: groups 1 and 2 of the match.
    No unit letter is a decimal digit, so the greedy run of digits is the
    only way to match. *)
Definition fullmatch_duration (s : str) : option (str * option str) :=
  match takewhile is_decimal s, dropwhile is_decimal s with
  | [], _ => None
  | digits, [] => Some (digits, None)
  | digits, [c] => if unit_class c then Some (digits, Some [c]) else None
  | _, _ => None
  end.

(** [int(s)], raising [ValueError] as Python does, with the message
    about the limit when the digits the text begins with are more than
    4300, and the one about the literal otherwise. *)
Definition int_or_raise (s : str) : result Z :=
  match int10 s with
  | Some n => Ok n
  | None =>
      let digits := Z.of_nat (length (takewhile is_decimal s)) in
      Raise (ValueError
               (if MAX_STR_DIGITS <? digits
                then py "Exceeds the limit (4300 digits) for integer string conversion: value has "
                     ++ str_of_int digits
                     ++ py " digits; use sys.set_int_max_str_digits() to increase the limit"
                else py "invalid literal for int() with base 10: '" ++ s ++ py "'"))
  end.

(** [_parse_duration]: [None] is returned when the text does not match;
    [int] and the subscript of [TIME_MULTIPLIERS] raise. *)
Definition _parse_duration (duration : str) : result (option Z) :=
  let cleaned := str_lower (strip duration) in
  match fullmatch_duration cleaned with
  | None => Ok None
  | Some (group1, group2) =>
      result_bind (int_or_raise group1) (fun value =>
      let unit := match group2 with Some u => u | None => py "m" end in
      match TIME_MULTIPLIERS !! unit with
      | Some multiplier => Ok (Some (value * multiplier))
      | None => Raise (KeyError unit)
      end)
  end.

(** One attempt of [MENTION_PATTERN], [<@!?(\d+)>], at the head of [s]:
    group 1 and the length of the match. *)
Definition match_mention (s : str) : option (str * nat) :=
  match s with
  | lt :: at_ :: t =>
      if ((lt =? 60) && (at_ =? 64))%N then
        let '(bang, t') :=
          match t with
          | c :: u => if (c =? 33)%N then (1%nat, u) else (0%nat, t)
          | [] => (0%nat, t)
          end in
        match takewhile is_decimal t', dropwhile is_decimal t' with
        | d :: ds, gt :: _ =>
            if (gt =? 62)%N then Some (d :: ds, (2 + bang + length (d :: ds) + 1)%nat)
            else None
        | _, _ => None
        end
      else None
  | _ => None
  end.

(** [MENTION_PATTERN.finditer(raw)]: group 1 of the non-overlapping
    matches, left to right; [skip] characters of the last match are still
    to be passed over. *)
Fixpoint finditer_mention (skip : nat) (s : str) : list str :=
  match s with
  | [] => []
  | _ :: t =>
      match skip with
      | S k => finditer_mention k t
      | O =>
          match match_mention s with
          | Some (group1, len) => group1 :: finditer_mention (len - 1) t
          | None => finditer_mention 0 t
          end
      end
  end.

(** The set comprehension over the mention matches. *)
Fixpoint mention_ids (groups : list str) : result (gset Z) :=
  match groups with
  | [] => Ok ∅
  | g :: rest =>
      result_bind (int_or_raise g) (fun n =>
      result_bind (mention_ids rest) (fun ids => Ok ({[ n ]} ∪ ids)))
  end.

(** The class [[,\s]]. *)
Definition comma_or_space (c : N) : bool := (c =? 44)%N || isspace c.

(** The loop over the chunks. *)
Fixpoint add_chunks (ids : gset Z) (chunks : list str) : result (gset Z) :=
  match chunks with
  | [] => Ok ids
  | chunk :: rest =>
      if isdigit chunk
      then result_bind (int_or_raise chunk) (fun n => add_chunks (ids ∪ {[ n ]}) rest)
      else add_chunks ids rest
  end.

(** [_extract_member_ids]; the result is the set [ids], whose listing
    order Python leaves open. *)
Definition _extract_member_ids (raw : str) : result (gset Z) :=
  result_bind (mention_ids (finditer_mention 0 raw)) (fun ids =>
  add_chunks ids (re_split comma_or_space raw)).

(** [discord.Color]: a wrapped RGB integer. *)
Inductive Color := MkColor (value : Z).

(** [discord.Color.blurple()] *)
Definition blurple : Color := MkColor 0x5865F2.

(** Value of one character of the class [[0-9a-f]]. *)
Definition hex_value (c : N) : option Z :=
  if ((48 <=? c) && (c <=? 57))%N then Some (Z.of_N c - 48)
  else if ((97 <=? c) && (c <=? 102))%N then Some (Z.of_N c - 87)
  else None.

Definition is_hex (c : N) : bool :=
  match hex_value c with Some _ => true | None => false end.

(** [re.fullmatch(r"[0-9a-f]{6}", s)] *)
Definition fullmatch_hex6 (s : str) : bool :=
  (length s =? 6)%nat && forallb is_hex s.

(** [int(s, 16)] on lower-case hexadecimal digits. *)
Fixpoint int16_from (acc : Z) (s : str) : option Z :=
  match s with
  | [] => Some acc
  | c :: t =>
      match hex_value c with
      | Some d => int16_from (16 * acc + d) t
      | None => None
      end
  end.

(** [if cleaned.startswith("#"): cleaned = cleaned[1:]] *)
Definition drop_hash (cleaned : str) : str :=
  match cleaned with
  | c :: t => if (c =? 35)%N then t else cleaned
  | [] => cleaned
  end.

(** [_parse_embed_color] *)
Definition _parse_embed_color (raw : option str) : result Color :=
  match raw with
  | None | Some [] => Ok blurple
  | Some raw =>
      let cleaned := str_lower (strip raw) in
      let cleaned := drop_hash cleaned in
      if negb ((length cleaned =? 3)%nat || (length cleaned =? 6)%nat)
      then Raise (ValueError (py "Hexfarbe muss 3 oder 6 Zeichen lang sein."))
      else
        let cleaned := if (length cleaned =? 3)%nat
                       then cleaned ≫= (fun ch => [ch; ch])
                       else cleaned in
        if negb (fullmatch_hex6 cleaned)
        then Raise (ValueError (py "Hexfarbe enthaelt ungueltige Zeichen."))
        else match int16_from 0 cleaned with
             | Some v => Ok (MkColor v)
             | None => Raise (ValueError (py "invalid literal for int() with base 16"))
             end
  end.

End Parsers.

(** ** Discord objects, as far as the source reads them *)

(** [member.guild_permissions]: the three flags the checks look at. *)
Record Permissions := {
  administrator : bool;
  manage_guild : bool;
  moderate_members : bool;
}.

Record Role := {
  role_id : Z;
  role_name : str;
}.

Record Member := {
  member_id : Z;
  (** [str(member)] *)
  member_str : str;
  display_name : str;
  guild_permissions : Permissions;
  roles : list Role;
}.

(** [interaction.user] is a [discord.Member] inside a guild and a plain
    [discord.User] elsewhere. *)
Inductive User :=
| PlainUser (uid : Z) (name : str)
| GuildMember (m : Member).

Inductive ChannelKind := CategoryChannel | TextChannel | OtherChannel.

Record Channel := {
  channel_id : Z;
  channel_name : str;
  channel_kind : ChannelKind;
}.

(** [discord.PermissionOverwrite]: [None] leaves a permission unset. *)
Record PermissionOverwrite := {
  view_channel : option bool;
  manage_messages : option bool;
}.

(** The cached view of the guild that the handlers read without a
    request. *)
Record Guild := {
  guild_roles : list Role;
  default_role : Role;
  guild_channels : list Channel;
  guild_members : list Member;
}.

Record Interaction := {
  user : User;
  guild : option Guild;
}.

Definition user_id (u : User) : Z :=
  match u with PlainUser uid _ => uid | GuildMember m => member_id m end.

Definition user_str (u : User) : str :=
  match u with PlainUser _ name => name | GuildMember m => member_str m end.

(** [member.mention], [role.mention], [channel.mention] *)
Definition member_mention (m : Member) : str :=
  py "<@" ++ str_of_int (member_id m) ++ py ">".
Definition role_mention (r : Role) : str :=
  py "<@&" ++ str_of_int (role_id r) ++ py ">".
Definition channel_mention (c : Channel) : str :=
  py "<#" ++ str_of_int (channel_id c) ++ py ">".

(** [guild.get_role], [guild.get_channel], [guild.get_member]: cache
    lookups by id. *)
Definition get_role (g : Guild) (rid : Z) : option Role :=
  find (fun r => role_id r =? rid) (guild_roles g).
Definition get_channel (g : Guild) (cid : Z) : option Channel :=
  find (fun c => channel_id c =? cid) (guild_channels g).
Definition get_member (g : Guild) (mid : Z) : option Member :=
  find (fun m => member_id m =? mid) (guild_members g).

(** [role in member.roles]: Discord objects compare by id. *)
Definition role_in (role : Role) (rs : list Role) : bool :=
  existsb (fun r => role_id r =? role_id role) rs.

(** [overwrites[role] = value] on a dict keyed by roles. *)
Fixpoint dict_set (d : list (Role * PermissionOverwrite)) (role : Role)
  (value : PermissionOverwrite) : list (Role * PermissionOverwrite) :=
  match d with
  | [] => [(role, value)]
  | (r, v) :: rest =>
      if role_id r =? role_id role then (r, value) :: rest
      else (r, v) :: dict_set rest role value
  end.

(** [_format_reason] *)
Definition _format_reason (interaction : Interaction) (reason : option str) : str :=
  let base := py "Aktion von " ++ user_str (user interaction) ++ py " ("
              ++ str_of_int (user_id (user interaction)) ++ py ")" in
  match reason with
  | Some (c :: t) => base ++ py ": " ++ c :: t
  | _ => base
  end.

(** [_member_has_role] *)
Definition _member_has_role (member : Member) (rid : Z) : bool :=
  negb (rid =? 0) && existsb (fun role => role_id role =? rid) (roles member).

(** ** Authorization policy *)

(** What a check reads from the caller, in the order it reads it. *)
Inductive probe :=
| ReadAdministrator
| ReadManageGuild
| ReadModerateMembers
| ScanRoles (rid : Z).

(** A computation together with the reads it made. *)
Definition Obs (A : Type) : Type := list probe * A.

Definition obs_ret {A} (a : A) : Obs A := ([], a).

Definition obs_bind {A B} (m : Obs A) (f : A -> Obs B) : Obs B :=
  let '(t, a) := m in let '(t', b) := f a in (t ++ t', b).

Definition look (p : probe) (b : bool) : Obs bool := ([p], b).

(** Python's short-circuit [a or b]. *)
Definition obs_or (a b : Obs bool) : Obs bool :=
  obs_bind a (fun x => if x then obs_ret true else b).

(** [_member_has_role], with the scan of [member.roles] recorded;
    [bool(role_id) and ...] scans nothing for the id 0. *)
Definition has_role_obs (member : Member) (rid : Z) : Obs bool :=
  if rid =? 0 then obs_ret false
  else look (ScanRoles rid) (existsb (fun role => role_id role =? rid) (roles member)).

(** [_member_has_any_role]: [any] stops at the first role found, and the
    generator skips the id 0. *)
Fixpoint has_any_role_obs (member : Member) (role_ids : list Z) : Obs bool :=
  match role_ids with
  | [] => obs_ret false
  | rid :: rest =>
      if rid =? 0 then has_any_role_obs member rest
      else obs_or (has_role_obs member rid) (has_any_role_obs member rest)
  end.

(** ** Requests to Discord *)

(** The awaited requests: the replies to the interaction and the calls on
    the guild and its members. *)
Inductive call :=
| send_message (content : str)
| defer
| followup_send (content : str)
| create_role (name : str) (mentionable : bool) (reason : str)
| create_text_channel (name : str) (category : Channel)
    (overwrites : list (Role * PermissionOverwrite)) (reason : str)
| fetch_member (mid : Z)
| add_roles (member : Member) (role : Role) (reason : str)
| remove_roles (member : Member) (role : Role) (reason : str)
| member_timeout (member : Member) (seconds : Z) (reason : str).

(** What a request returns when it does not raise. *)
Definition resp (c : call) : Type :=
  match c with
  | create_role _ _ _ => Role
  | create_text_channel _ _ _ _ => Channel
  | fetch_member _ => Member
  | _ => unit
  end.

(** A coroutine: it returns, raises, awaits a request and goes on with
    its outcome (a value or the exception raised at the [await]), or
    writes a line to the log. *)
Inductive prog (A : Type) :=
| Return (a : A)
| Throw (e : exn)
| Await (c : call) (k : result (resp c) -> prog A)
| Log (line : str) (k : prog A).
Arguments Return {A} a.
Arguments Throw {A} e.
Arguments Await {A} c k.
Arguments Log {A} line k.

Fixpoint bind {A B} (p : prog A) (f : A -> prog B) : prog B :=
  match p with
  | Return a => f a
  | Throw e => Throw e
  | Await c k => Await c (fun r => bind (k r) f)
  | Log line k => Log line (bind k f)
  end.

(** [await c] outside any [try]: an exception propagates. *)
Definition await (c : call) : prog (resp c) :=
  Await c (fun r => match r with Ok x => Return x | Raise e => Throw e end).

(** A request whose value is not used, as the last statement. *)
Definition finish (c : call) : prog unit :=
  bind (await c) (fun _ => Return tt).

(** Requests that change the guild. *)
Definition mutating (c : call) : bool :=
  match c with
  | create_role _ _ _ | create_text_channel _ _ _ _
  | add_roles _ _ _ | remove_roles _ _ _ | member_timeout _ _ _ => true
  | _ => false
  end.

(** Replies to the caller. *)
Definition is_reply (c : call) : bool :=
  match c with
  | send_message _ | followup_send _ => true
  | _ => false
  end.

(** What an observer of one run sees: each request with the exception it
    raised, if any, and each log line. *)
Inductive event :=
| Called (c : call) (raised : option exn)
| Logged (line : str).

Definition raised_of {A} (r : result A) : option exn :=
  match r with Ok _ => None | Raise e => Some e end.

Section Run.
(** The platform: any state and any way of answering requests. *)
Context {W : Type} (platform : W -> forall c : call, result (resp c) * W).

Fixpoint run {A} (p : prog A) (w : W) : list event * result A * W :=
  match p with
  | Return a => ([], Ok a, w)
  | Throw e => ([], Raise e, w)
  | Await c k =>
      let '(r, w1) := platform w c in
      let '(tr, out, w2) := run (k r) w1 in
      (Called c (raised_of r) :: tr, out, w2)
  | Log line k =>
      let '(tr, out, w1) := run k w in
      (Logged line :: tr, out, w1)
  end.

Definition trace {A} (p : prog A) (w : W) : list event := (run p w).1.1.
Definition outcome {A} (p : prog A) (w : W) : result A := (run p w).1.2.
End Run.

(** The requests of a trace, in order. *)
Definition calls (tr : list event) : list call :=
  omap (fun ev => match ev with Called c _ => Some c | Logged _ => None end) tr.

(** The requests of a trace that did not raise. *)
Definition completed (tr : list event) : list call :=
  omap (fun ev => match ev with Called c None => Some c | _ => None end) tr.

Section Bot.
Context {U : PyUnicode}.
(** Configuration, read from the environment when the module loads. *)
Context (KURS_CATEGORY_ID MODERATOR_ROLE_ID TEACHER_ROLE_ID : Z).

(** [MAX_TIMEOUT_SECONDS] *)
Definition MAX_TIMEOUT_SECONDS : Z := 60 * 60 * 24 * 28.

(** The predicate of [_require_moderator]. *)
Definition _require_moderator (interaction : Interaction) : Obs (result bool) :=
  let denied := Raise (CheckFailure (py "Dir fehlen die Moderationsrechte.")) in
  match user interaction with
  | GuildMember user =>
      let perms := guild_permissions user in
      obs_bind (obs_or (look ReadAdministrator (administrator perms))
               (obs_or (look ReadManageGuild (manage_guild perms))
                       (look ReadModerateMembers (moderate_members perms))))
        (fun blanket =>
           if blanket then obs_ret (Ok true)
           else obs_bind (has_role_obs user MODERATOR_ROLE_ID) (fun held =>
                if held then obs_ret (Ok true) else obs_ret denied))
  | PlainUser _ _ => obs_ret denied
  end.

(** The predicate of [_require_course_staff]. *)
Definition _require_course_staff (interaction : Interaction) : Obs (result bool) :=
  let denied :=
    Raise (CheckFailure (py "Nur Moderator:innen oder Lehrer:innen duerfen das tun.")) in
  match user interaction with
  | GuildMember user =>
      let perms := guild_permissions user in
      obs_bind (obs_or (look ReadAdministrator (administrator perms))
                       (look ReadManageGuild (manage_guild perms)))
        (fun blanket =>
           if blanket then obs_ret (Ok true)
           else obs_bind (has_any_role_obs user [MODERATOR_ROLE_ID; TEACHER_ROLE_ID])
                  (fun held => if held then obs_ret (Ok true) else obs_ret denied))
  | PlainUser _ _ => obs_ret denied
  end.

(** [_fetch_course_role]; the coroutine awaits nothing, it searches the
    cached [guild.roles] with [discord.utils.find]. *)
Definition _fetch_course_role (g : Guild) (kurs_name : str) : option Role :=
  let name := str_casefold (_normalize_course_name kurs_name) in
  find (fun r => bool_decide (str_casefold (role_name r) = name)) (guild_roles g).

(** [_get_course_category] *)
Definition _get_course_category (g : Guild) : result Channel :=
  if KURS_CATEGORY_ID =? 0
  then Raise (RuntimeError (py "Bitte KURS_CATEGORY_ID konfigurieren."))
  else match get_channel g KURS_CATEGORY_ID with
       | Some category =>
           match channel_kind category with
           | CategoryChannel => Ok category
           | _ => Raise (RuntimeError (py "Die angegebene KURS_CATEGORY_ID ist keine Kategorie."))
           end
       | None => Raise (RuntimeError (py "Die angegebene KURS_CATEGORY_ID ist keine Kategorie."))
       end.

(** ** Command handlers *)

(** Each handler is the body of its command: the framework calls it once
    the check named in the decorator has passed. *)

(** How a call hands the duration to [member.timeout]: as the
    positional argument or under a keyword. *)
Inductive timeout_argument :=
| positional (seconds : Z)
| keyword (name : str) (seconds : Z).

(** [member.timeout(...)] as discord.py declares it,
    [async def timeout(self, until, /, *, reason=None)]: the duration is
    positional-only, and a call that passes it under a keyword is refused
    with [TypeError] when it is made, before there is a coroutine to
    await and so before any request. *)
Definition Member_timeout (member : Member) (until : timeout_argument) (reason : str)
  : result call :=
  match until with
  | positional seconds => Ok (member_timeout member seconds reason)
  | keyword name _ =>
      Raise (TypeError (py "Member.timeout() got an unexpected keyword argument '"
                        ++ name ++ py "'"))
  end.

(** [timeout]; the call [member.timeout(duration=..., reason=...)] and
    its [await] are inside the [try], whose only clause is
    [except discord.Forbidden]. *)
Definition timeout (interaction : Interaction) (member : Member) (dauer : str)
  (reason : option str) : prog unit :=
  match _parse_duration dauer with
  | Raise e => Throw e
  | Ok None | Ok (Some 0) =>
      finish (send_message (py "Bitte verwende ein gueltiges Format (z.B. 30m, 2h, 1d)."))
  | Ok (Some seconds) =>
      if MAX_TIMEOUT_SECONDS <? seconds
      then finish (send_message (py "Timeouts sind maximal 28 Tage lang moeglich."))
      else
        let except e :=
          match e with
          | Forbidden =>
              finish (send_message (py "Ich habe keine Berechtigung fuer dieses Mitglied."))
          | _ => Throw e
          end in
        match Member_timeout member (keyword (py "duration") seconds)
                (_format_reason interaction reason) with
        | Raise e => except e
        | Ok request =>
            Await request (fun r =>
              match r with
              | Ok _ =>
                  finish (send_message (member_mention member ++ py " wurde fuer "
                                        ++ dauer ++ py " stummgeschaltet."))
              | Raise e => except e
              end)
        end
  end.

(** The overwrites that [create_kurs] builds for the new channel. *)
Definition kurs_overwrites (g : Guild) (kurs_role : Role)
  : list (Role * PermissionOverwrite) :=
  let staff := {| view_channel := Some true; manage_messages := Some true |} in
  let overwrites :=
    dict_set (dict_set [] (default_role g)
                {| view_channel := Some false; manage_messages := None |})
      kurs_role {| view_channel := Some true; manage_messages := None |} in
  let overwrites :=
    match get_role g MODERATOR_ROLE_ID with
    | Some mod_role => dict_set overwrites mod_role staff
    | None => overwrites
    end in
  match get_role g TEACHER_ROLE_ID with
  | Some teacher_role => dict_set overwrites teacher_role staff
  | None => overwrites
  end.

(** [create_kurs] *)
Definition create_kurs (interaction : Interaction) (name : str) (reason : option str)
  : prog unit :=
  match guild interaction with
  | None => finish (send_message (py "Dieser Befehl funktioniert nur auf Servern."))
  | Some g =>
      let kurs_name := _normalize_course_name name in
      match kurs_name with
      | [] => finish (send_message (py "Bitte gib einen Kursnamen an."))
      | _ =>
          bind (await defer) (fun _ =>
          match _fetch_course_role g kurs_name with
          | Some existing_role =>
              finish (followup_send (py "Es existiert bereits eine Kursrolle mit diesem Namen."))
          | None =>
              match _get_course_category g with
              | Raise (RuntimeError msg) => finish (followup_send msg)
              | Raise e => Throw e
              | Ok category =>
                  bind (await (create_role kurs_name true (_format_reason interaction reason)))
                    (fun kurs_role =>
                  bind (await (create_text_channel (_slugify kurs_name) category
                                 (kurs_overwrites g kurs_role)
                                 (_format_reason interaction reason)))
                    (fun channel =>
                  finish (followup_send
                            (py "Kurs **" ++ kurs_name ++ py "** erstellt." ++ [10%N]
                             ++ py "Rolle: " ++ role_mention kurs_role ++ [10%N]
                             ++ py "Kanal: " ++ channel_mention channel))))
              end
          end)
      end
  end.

(** The loop of [_resolve_members]. *)
Fixpoint resolve_loop (g : Guild) (ids : list Z) (resolved : list Member)
  : prog (list Member) :=
  match ids with
  | [] => Return resolved
  | mid :: rest =>
      match get_member g mid with
      | Some member => resolve_loop g rest (resolved ++ [member])
      | None =>
          Await (fetch_member mid) (fun r =>
            match r with
            | Ok member => resolve_loop g rest (resolved ++ [member])
            | Raise NotFound =>
                Log (py "Mitglied " ++ str_of_int mid ++ py " nicht gefunden")
                  (resolve_loop g rest resolved)
            | Raise e => Throw e
            end)
      end
  end.

(** [_resolve_members]; [elements] stands for the order in which Python
    lists the set. *)
Definition _resolve_members (g : Guild) (members_input : str) : prog (list Member) :=
  match _extract_member_ids members_input with
  | Raise e => Throw e
  | Ok ids => resolve_loop g (elements ids) []
  end.

(** The loop of [add_member] over the resolved members. *)
Fixpoint add_loop (interaction : Interaction) (kurs_role : Role) (reason : option str)
  (resolved : list Member) (updated : list str) : prog (list str) :=
  match resolved with
  | [] => Return updated
  | member :: rest =>
      if role_in kurs_role (roles member)
      then add_loop interaction kurs_role reason rest updated
      else
        Await (add_roles member kurs_role (_format_reason interaction reason)) (fun r =>
          match r with
          | Ok _ =>
              add_loop interaction kurs_role reason rest (updated ++ [display_name member])
          | Raise Forbidden =>
              Log (py "Rolle konnte nicht an " ++ member_str member
                   ++ py " vergeben werden (fehlende Berechtigung)")
                (add_loop interaction kurs_role reason rest updated)
          | Raise e => Throw e
          end)
  end.

(** The closing report of [add_member]: [if updated: ... else: ...]. *)
Definition add_report_text (updated : list str) : str :=
  match updated with
  | [] => py "Niemand wurde hinzugefuegt (hatten evtl. schon die Rolle)."
  | _ => str_of_int (Z.of_nat (length updated)) ++ py " Mitglied(er) hinzugefuegt: "
         ++ join (py ", ") updated
  end.

Definition add_report (updated : list str) : prog unit :=
  finish (followup_send (add_report_text updated)).

(** [add_member] *)
Definition add_member (interaction : Interaction) (kurs_name members : str)
  (reason : option str) : prog unit :=
  match guild interaction with
  | None => finish (send_message (py "Dieser Befehl funktioniert nur auf Servern."))
  | Some g =>
      match _fetch_course_role g kurs_name with
      | None => finish (send_message (py "Keine Kursrolle mit diesem Namen gefunden."))
      | Some kurs_role =>
          bind (_resolve_members g members) (fun resolved =>
          match resolved with
          | [] => finish (send_message (py "Ich konnte keine Mitglieder finden."))
          | _ =>
              bind (await defer) (fun _ =>
              bind (add_loop interaction kurs_role reason resolved []) add_report)
          end)
      end
  end.

(** The loop of [remove_member] over the resolved members. *)
Fixpoint remove_loop (interaction : Interaction) (kurs_role : Role) (reason : option str)
  (resolved : list Member) (removed : list str) : prog (list str) :=
  match resolved with
  | [] => Return removed
  | member :: rest =>
      if negb (role_in kurs_role (roles member))
      then remove_loop interaction kurs_role reason rest removed
      else
        Await (remove_roles member kurs_role (_format_reason interaction reason)) (fun r =>
          match r with
          | Ok _ =>
              remove_loop interaction kurs_role reason rest (removed ++ [display_name member])
          | Raise Forbidden =>
              Log (py "Rolle konnte nicht von " ++ member_str member
                   ++ py " entfernt werden (fehlende Berechtigung)")
                (remove_loop interaction kurs_role reason rest removed)
          | Raise e => Throw e
          end)
  end.

(** The closing report of [remove_member]. *)
Definition remove_report_text (removed : list str) : str :=
  match removed with
  | [] => py "Niemand wurde entfernt (hatte evtl. die Rolle nicht)."
  | _ => str_of_int (Z.of_nat (length removed)) ++ py " Mitglied(er) entfernt: "
         ++ join (py ", ") removed
  end.

Definition remove_report (removed : list str) : prog unit :=
  finish (followup_send (remove_report_text removed)).

(** [remove_member] *)
Definition remove_member (interaction : Interaction) (kurs_name members : str)
  (reason : option str) : prog unit :=
  match guild interaction with
  | None => finish (send_message (py "Dieser Befehl funktioniert nur auf Servern."))
  | Some g =>
      match _fetch_course_role g kurs_name with
      | None => finish (send_message (py "Keine Kursrolle mit diesem Namen gefunden."))
      | Some kurs_role =>
          bind (_resolve_members g members) (fun resolved =>
          match resolved with
          | [] => finish (send_message (py "Ich konnte keine Mitglieder finden."))
          | _ =>
              bind (await defer) (fun _ =>
              bind (remove_loop interaction kurs_role reason resolved []) remove_report)
          end)
      end
  end.

End Bot.

(** ** The rules of the specification, for comparison *)

(** The character that the slug rule puts for [c]: a space becomes a
    dash, then every character outside [[a-z0-9-]] becomes a dash. *)
Definition slug_char (c : N) : N :=
  let c1 := if (c =? 32)%N then 45%N else c in
  if slug_class c1 then c1 else 45%N.


(** The six digits a colour text stands for: itself when it has six
    characters, each character doubled when it has three. *)
Definition spec_expand (cleaned : str) : option str :=
  if (length cleaned =? 6)%nat then Some cleaned
  else if (length cleaned =? 3)%nat then Some (cleaned ≫= (fun ch => [ch; ch]))
  else None.

(** A scan of the caller's roles, as opposed to a read of a permission
    flag. *)
Definition is_scan (p : probe) : bool :=
  match p with ScanRoles _ => true | _ => false end.

(** ** Sample data *)

(** The default ids of the configuration and two callers. *)
Definition default_moderator_role_id : Z := 1436194208892325888.
Definition default_teacher_role_id : Z := 1436197056992645120.
Definition default_kurs_category_id : Z := 1436199620081356854.

Definition no_permissions : Permissions :=
  {| administrator := false; manage_guild := false; moderate_members := false |}.

Definition sample_admin : Member :=
  {| member_id := 11; member_str := py "ada"; display_name := py "Ada";
     guild_permissions :=
       {| administrator := true; manage_guild := false; moderate_members := false |};
     roles := [] |}.

Definition teacher_role : Role :=
  {| role_id := default_teacher_role_id; role_name := py "Lehrer" |}.

Definition sample_teacher : Member :=
  {| member_id := 12; member_str := py "tom"; display_name := py "Tom";
     guild_permissions := no_permissions;
     roles := [teacher_role] |}.

(** Three platforms without state: one accepts every request (it knows
    no member to fetch), one refuses to create channels, one refuses
    every change of a member's roles. *)
Definition accepting (w : unit) (c : call) : result (resp c) * unit :=
  (match c return result (resp c) with
   | create_role name _ _ => Ok {| role_id := 900; role_name := name |}
   | create_text_channel name _ _ _ =>
       Ok {| channel_id := 901; channel_name := name; channel_kind := TextChannel |}
   | fetch_member _ => Raise NotFound
   | _ => Ok tt
   end, w).

Definition refusing_channels (w : unit) (c : call) : result (resp c) * unit :=
  match c as c0 return result (resp c0) * unit with
  | create_text_channel _ _ _ _ => (Raise Forbidden, w)
  | c0 => accepting w c0
  end.

Definition refusing_role_changes (w : unit) (c : call) : result (resp c) * unit :=
  match c as c0 return result (resp c0) * unit with
  | add_roles _ _ _ | remove_roles _ _ _ => (Raise Forbidden, w)
  | c0 => accepting w c0
  end.

(** A platform on which the acknowledgement of the interaction fails,
    as it does when the interaction is no longer known to Discord. *)
Definition refusing_defer (w : unit) (c : call) : result (resp c) * unit :=
  match c as c0 return result (resp c0) * unit with
  | defer => (Raise NotFound, w)
  | c0 => accepting w c0
  end.

Definition sample_interaction : Interaction :=
  {| user := GuildMember sample_admin; guild := None |}.

(** A guild with the course category, the course role "Algebra" and two
    cached members. *)
Definition everyone_role : Role := {| role_id := 1; role_name := py "@everyone" |}.
Definition algebra_role : Role := {| role_id := 77; role_name := py "Algebra" |}.

Definition kurs_category : Channel :=
  {| channel_id := default_kurs_category_id; channel_name := py "Kurse";
     channel_kind := CategoryChannel |}.

Definition sample_student : Member :=
  {| member_id := 13; member_str := py "sue"; display_name := py "Sue";
     guild_permissions := no_permissions;
     roles := [everyone_role; algebra_role] |}.

Definition sample_guild : Guild :=
  {| guild_roles := [everyone_role; teacher_role; algebra_role];
     default_role := everyone_role;
     guild_channels := [kurs_category];
     guild_members := [sample_teacher; sample_student] |}.

Definition staff_interaction : Interaction :=
  {| user := GuildMember sample_teacher; guild := Some sample_guild |}.

(** The role changes of a trace: the member of each [add_roles] or
    [remove_roles] request, with whether the request went through. *)
Definition role_changes (tr : list event) : list (Member * bool) :=
  omap (fun ev =>
          match ev with
          | Called (add_roles m _ _) raised | Called (remove_roles m _ _) raised =>
              Some (m, match raised with None => true | Some _ => false end)
          | _ => None
          end) tr.

(** What a run of [add_member] shows for one member who lacks the
    role: the request to add it, with the audit reason, and, when it is
    refused, the warning in the log. *)
Definition add_events (interaction : Interaction) (kurs_role : Role) (reason : option str)
  (change : Member * bool) : list event :=
  let request := add_roles change.1 kurs_role (_format_reason interaction reason) in
  if change.2 then [Called request None]
  else [Called request (Some Forbidden);
        Logged (py "Rolle konnte nicht an " ++ member_str change.1
                ++ py " vergeben werden (fehlende Berechtigung)")].

(** What a run of [remove_member] shows for one member who holds the
    role. *)
Definition remove_events (interaction : Interaction) (kurs_role : Role)
  (reason : option str) (change : Member * bool) : list event :=
  let request := remove_roles change.1 kurs_role (_format_reason interaction reason) in
  if change.2 then [Called request None]
  else [Called request (Some Forbidden);
        Logged (py "Rolle konnte nicht von " ++ member_str change.1
                ++ py " entfernt werden (fehlende Berechtigung)")].

(** The platform's side of the contract for role requests: each goes
    through or is refused with [Forbidden]. *)
Definition role_requests_ok_or_forbidden {W : Type}
  (platform : W -> forall c : call, result (resp c) * W) (kurs_role : Role) : Prop :=
  forall w member audit e,
    ((platform w (add_roles member kurs_role audit)).1 = Raise e -> e = Forbidden)
    /\ ((platform w (remove_roles member kurs_role audit)).1 = Raise e -> e = Forbidden).

(** A word: not empty and free of whitespace. *)
Definition wordlike (tok : str) : Prop :=
  tok <> [] /\ forallb (fun c => negb (isspace c)) tok = true.

(** Nothing to strip at the front. *)
Definition nonspace_head (s : str) : Prop :=
  match s with [] => True | c :: _ => isspace c = false end.

(** Every character that [str.isdigit] accepts has a decimal value, as
    in every ASCII text. *)
Definition digits_are_decimal {U : PyUnicode} (s : str) : Prop :=
  forall c, c ∈ s -> ch_isdigit c = true -> is_Some (ch_decimal c).

(** [s.isascii()] *)
Definition isascii (s : str) : bool := forallb (fun c => (c <? 128)%N) s.

(** No run of decimal digits in [s] is longer than [int] converts;
    [run] digits stand directly before [s]. *)
Fixpoint digit_runs_fit {U : PyUnicode} (run : Z) (s : str) : bool :=
  match s with
  | [] => true
  | c :: t =>
      if is_decimal c
      then (run + 1 <=? MAX_STR_DIGITS) && digit_runs_fit (run + 1) t
      else digit_runs_fit 0 t
  end.

(** The number [n] is written in [raw] as a mention: [<@], then [!] or
    nothing, then one or more decimal digits, then [>]. *)
Definition mention_number {U : PyUnicode} (raw : str) (n : Z) : Prop :=
  exists before bang digits after,
    raw = before ++ py "<@" ++ bang ++ digits ++ py ">" ++ after
    /\ (bang = [] \/ bang = py "!")
    /\ digits <> [] /\ forallb is_decimal digits = true
    /\ int10 digits = Some n.

(** The number [n] is written in [raw] as a token: characters other than
    commas and white space, with a comma, white space or an end of the
    text on either side, that [str.isdigit] accepts. *)
Definition token_number {U : PyUnicode} (raw : str) (n : Z) : Prop :=
  exists before token after,
    raw = before ++ token ++ after
    /\ forallb (fun c => negb (comma_or_space c)) token = true
    /\ match last before with Some c => comma_or_space c = true | None => True end
    /\ match after with c :: _ => comma_or_space c = true | [] => True end
    /\ isdigit token = true
    /\ int10 token = Some n.

(** ** Notions for the further properties *)

(** Every request that a program can come to make, whatever the platform
    answers, satisfies [P]. *)
Fixpoint all_calls {A} (P : call -> Prop) (p : prog A) : Prop :=
  match p with
  | Return _ | Throw _ => True
  | Await c k => P c /\ forall r, all_calls P (k r)
  | Log _ k => all_calls P k
  end.

(** The audit reason that a request carries. *)
Definition audit_reason (c : call) : option str :=
  match c with
  | create_role _ _ r | create_text_channel _ _ _ r
  | add_roles _ _ r | remove_roles _ _ r | member_timeout _ _ r => Some r
  | _ => None
  end.

(** [overwrites.get(role)] on a dict keyed by roles. *)
Definition dict_get (d : list (Role * PermissionOverwrite)) (role : Role)
  : option PermissionOverwrite :=
  snd <$> find (fun entry => role_id entry.1 =? role_id role) d.

(** The requests [timeout] may make. *)
Definition timeout_request {U : PyUnicode} (interaction : Interaction) (member : Member)
  (dauer : str) (reason : option str) (c : call) : Prop :=
  match c with
  | send_message _ => True
  | member_timeout m seconds audit =>
      m = member /\ _parse_duration dauer = Ok (Some seconds)
      /\ seconds <> 0 /\ seconds <= MAX_TIMEOUT_SECONDS
      /\ audit = _format_reason interaction reason
  | _ => False
  end.

(** The requests [add_member] ([adding]) and [remove_member] may make. *)
Definition enrollment_request {U : PyUnicode} (adding : bool) (interaction : Interaction)
  (kurs_name : str) (reason : option str) (c : call) : Prop :=
  match c with
  | send_message _ | defer | followup_send _ | fetch_member _ => True
  | add_roles m role audit =>
      adding = true
      /\ (exists g, guild interaction = Some g /\ _fetch_course_role g kurs_name = Some role)
      /\ role_in role (roles m) = false
      /\ audit = _format_reason interaction reason
  | remove_roles m role audit =>
      adding = false
      /\ (exists g, guild interaction = Some g /\ _fetch_course_role g kurs_name = Some role)
      /\ role_in role (roles m) = true
      /\ audit = _format_reason interaction reason
  | _ => False
  end.


(** The requests of a trace that change the guild. *)
Definition mutations (tr : list event) : list call := List.filter mutating (calls tr).

(** The closing message of [create_kurs]. *)
Definition kurs_created_text (kurs_name : str) (kurs_role : Role) (channel : Channel) : str :=
  py "Kurs **" ++ kurs_name ++ py "** erstellt." ++ [10%N]
  ++ py "Rolle: " ++ role_mention kurs_role ++ [10%N]
  ++ py "Kanal: " ++ channel_mention channel.

(** The overwrite that [create_kurs] gives the staff roles, the course
    role and the default role. *)
Definition staff_overwrite : PermissionOverwrite :=
  {| view_channel := Some true; manage_messages := Some true |}.
Definition member_overwrite : PermissionOverwrite :=
  {| view_channel := Some true; manage_messages := None |}.
Definition hidden_overwrite : PermissionOverwrite :=
  {| view_channel := Some false; manage_messages := None |}.

(** A role with this id is cached in the guild. *)
Definition role_cached (g : Guild) (rid : Z) : bool :=
  existsb (fun r => role_id r =? rid) (guild_roles g).

(** The member fetches of a trace: the id of each [fetch_member] request,
    with whether the request went through. *)
Definition fetches (tr : list event) : list (Z * bool) :=
  omap (fun ev =>
          match ev with
          | Called (fetch_member mid) raised =>
              Some (mid, match raised with None => true | Some _ => false end)
          | _ => None
          end) tr.

(** The platform's side of the contract for fetching a member: the
    request goes through or fails with [NotFound]. *)
Definition fetch_ok_or_not_found {W : Type}
  (platform : W -> forall c : call, result (resp c) * W) : Prop :=
  forall w mid e, (platform w (fetch_member mid)).1 = Raise e -> e = NotFound.

(** The member is not in the cache. *)
Definition uncached (g : Guild) (mid : Z) : bool :=
  match get_member g mid with Some _ => false | None => true end.


(** [str.lower] leaves lower-case ASCII letters, digits and the dash as
    they are. *)
Definition lower_keeps_slugs {U : PyUnicode} : Prop :=
  forall s, forallb slug_class s = true -> str_lower s = s.

(** ** Start-up configuration *)

(** What importing the module gives: a value, or [SystemExit] with its
    message. *)
Inductive startup (A : Type) :=
| Loaded (a : A)
| Exit (msg : str).
Arguments Loaded {A} a.
Arguments Exit {A} msg.

Section Environment.
Context {U : PyUnicode}.
(** [os.getenv], after [load_dotenv()]. *)
Context (getenv : str -> option str).

(** The blanks that [int] skips around a number: the ASCII ones of C's
    [isspace], and the whitespace beyond ASCII, which [int] first turns
    into spaces.  The separators U+001C to U+001F are whitespace for
    [str.strip] and not for [int]. *)
Definition int_blank (c : N) : bool :=
  ((9 <=? c) && (c <=? 13) || (c =? 32))%N || ((127 <=? c)%N && isspace c).

(** A digit for [int]: a decimal digit that is no blank. *)
Definition int_digit (c : N) : bool := negb (int_blank c) && is_decimal c.

(** Digits with single underscores between them, as [int] accepts them:
    [after_underscore] says that a digit has to come next. *)
Fixpoint grouped_digits (after_underscore : bool) (s : str) : bool :=
  match s with
  | [] => negb after_underscore
  | c :: t =>
      if (c =? 95)%N then negb after_underscore && grouped_digits true t
      else int_digit c && grouped_digits false t
  end.

(** [int(s)] for any text: blanks around, an optional sign, grouped
    digits in base 10, of which at most 4300 are converted; [None] where
    Python raises [ValueError]. *)
Definition int_of_str (s : str) : option Z :=
  let body := rev (dropwhile int_blank (rev (dropwhile int_blank s))) in
  let '(negative, digits) :=
    match body with
    | c :: t => if (c =? 45)%N then (true, t) else if (c =? 43)%N then (false, t)
                else (false, body)
    | [] => (false, body)
    end in
  if grouped_digits true digits
  then match int_digits (List.filter (fun c => negb (c =? 95)%N) digits) with
       | Some n => Some (if negative then - n else n)
       | None => None
       end
  else None.

(** [_env_int] *)
Definition _env_int (name : str) (fallback : Z) : startup Z :=
  match getenv name with
  | None => Loaded fallback
  | Some raw_value =>
      match strip raw_value with
      | [] => Loaded fallback
      | _ =>
          match int_of_str raw_value with
          | Some n => Loaded n
          | None => Exit (py "Umgebungsvariable " ++ name ++ py " muss eine Ganzzahl sein.")
          end
      end
  end.

(** [_require_env] *)
Definition _require_env (name : str) : startup str :=
  match getenv name with
  | Some (c :: t) => Loaded (c :: t)
  | _ => Exit (py "Umgebungsvariable " ++ name ++ py " fehlt.")
  end.

(** The configuration block of the module. *)
Record Config := {
  TOKEN : str;
  GUILD_ID : Z;
  KURS_CATEGORY_ID : Z;
  MODERATOR_ROLE_ID : Z;
  TEACHER_ROLE_ID : Z;
}.

Definition startup_bind {A B} (x : startup A) (f : A -> startup B) : startup B :=
  match x with Loaded a => f a | Exit msg => Exit msg end.

(** The assignments of the configuration block, in their order. *)
Definition load_config : startup Config :=
  startup_bind (_require_env (py "DISCORD_TOKEN")) (fun token =>
  startup_bind (_env_int (py "DISCORD_GUILD_ID") 1436158090981675091) (fun guild_id =>
  startup_bind (_env_int (py "DISCORD_KURS_CATEGORY_ID") 1436199620081356854) (fun category =>
  startup_bind (_env_int (py "DISCORD_MODERATOR_ROLE_ID") 1436194208892325888) (fun moderator =>
  startup_bind (_env_int (py "DISCORD_TEACHER_ROLE_ID") 1436197056992645120) (fun teacher =>
  Loaded {| TOKEN := token; GUILD_ID := guild_id; KURS_CATEGORY_ID := category;
            MODERATOR_ROLE_ID := moderator; TEACHER_ROLE_ID := teacher |}))))).

End Environment.

(** An environment given as a list of assignments. *)
Definition env_of (vars : list (str * str)) (name : str) : option str :=
  snd <$> find (fun kv => bool_decide (kv.1 = name)) vars.

(** ** The commands that relay and moderate *)

Module Relay.

(** [interaction.channel], where a command can be used. *)
Inductive PlaceKind := TextPlace | ThreadPlace | OtherPlace.

Record Place := {
  place_id : Z;
  place_kind : PlaceKind;
}.

Record Attachment := {
  filename : str;
  (** [attachment.size], in bytes *)
  size : Z;
  (** [attachment.is_spoiler()] *)
  is_spoiler : bool;
}.

(** The [discord.File] that [attachment.to_file] downloads. *)
Record File := {
  file_name : str;
  file_spoiler : bool;
}.

Record Embed := {
  embed_title : str;
  embed_description : str;
  embed_color : Color;
  embed_timestamp : Z;
  author_name : str;
  author_icon_url : str;
  footer_text : option str;
}.

(** [discord.AllowedMentions.all()] and [.none()] *)
Inductive AllowedMentions := mentions_all | mentions_none.

(** What a command is called with besides its arguments: the
    interaction, its channel, the caller's display name and avatar, and
    the time [discord.utils.utcnow()] gives. *)
Record Invocation := {
  interaction : Interaction;
  channel : option Place;
  user_display_name : str;
  user_avatar_url : str;
  utcnow : Z;
}.

(** The awaited requests of these commands. *)
Inductive request :=
| send_message (content : str)
| send_modal (log_channel : Channel)
| defer (thinking : bool)
| followup_send (content : str)
| channel_send (place : Place) (content : option str) (embed : option Embed)
    (file : option File) (allowed_mentions : option AllowedMentions)
| log_channel_send (log_channel : Channel) (content : str)
| to_file (attachment : Attachment) (spoiler : bool)
| member_kick (member : Member) (reason : str)
| guild_ban (member : Member) (reason : str)
| channel_purge (place : Place) (limit : Z) (reason : str).

(** What a request returns; [purge] returns the deleted messages, here
    their ids. *)
Definition answer (c : request) : Type :=
  match c with
  | to_file _ _ => File
  | channel_purge _ _ _ => list Z
  | _ => unit
  end.

(** How a handler can end besides returning: with an exception of the
    platform, or with the [AttributeError] of an attribute read on
    [None]. *)
Inductive failure :=
| Discord (e : exn)
| AttributeError (msg : str).

(** A coroutine over these requests; [Note] is [logger.exception] with
    its message and the exception. *)
Inductive task (A : Type) :=
| Done (a : A)
| Fail (f : failure)
| Ask (c : request) (k : result (answer c) -> task A)
| Note (line : str) (e : exn) (k : task A).
Arguments Done {A} a.
Arguments Fail {A} f.
Arguments Ask {A} c k.
Arguments Note {A} line e k.

(** A request as the last statement, outside any [try]. *)
Definition last_ask (c : request) : task unit :=
  Ask c (fun r => match r with Ok _ => Done tt | Raise e => Fail (Discord e) end).

(** [except (discord.HTTPException, discord.Forbidden)] *)
Definition is_http_exception (e : exn) : bool :=
  match e with
  | Forbidden | NotFound | HTTPException => true
  | _ => false
  end.

Inductive step :=
| Asked (c : request) (raised : option exn)
| Noted (line : str) (e : exn).

Section Run.
Context {W : Type} (platform : W -> forall c : request, result (answer c) * W).

Fixpoint run {A} (p : task A) (w : W) : list step * (failure + A) * W :=
  match p with
  | Done a => ([], inr a, w)
  | Fail f => ([], inl f, w)
  | Ask c k =>
      let '(r, w1) := platform w c in
      let '(tr, out, w2) := run (k r) w1 in
      (Asked c (raised_of r) :: tr, out, w2)
  | Note line e k =>
      let '(tr, out, w1) := run k w in
      (Noted line e :: tr, out, w1)
  end.

Definition trace {A} (p : task A) (w : W) : list step := (run p w).1.1.
Definition outcome {A} (p : task A) (w : W) : failure + A := (run p w).1.2.
End Run.

(** The requests of a trace, in order. *)
Definition asks (tr : list step) : list request :=
  omap (fun s => match s with Asked c _ => Some c | Noted _ _ => None end) tr.

(** Every request that a task can come to make satisfies [P]. *)
Fixpoint all_asks {A} (P : request -> Prop) (p : task A) : Prop :=
  match p with
  | Done _ | Fail _ => True
  | Ask c k => P c /\ forall r, all_asks P (k r)
  | Note _ _ k => all_asks P k
  end.

(** [user.mention] *)
Definition user_mention (u : User) : str := py "<@" ++ str_of_int (user_id u) ++ py ">".

(** [MAX_FILE_UPLOAD_BYTES] *)
Definition MAX_FILE_UPLOAD_BYTES : Z := 25 * 1024 * 1024.

(** [kick] *)
Definition kick (inv : Invocation) (member : Member) (reason : option str) : task unit :=
  Ask (member_kick member (_format_reason (interaction inv) reason)) (fun r =>
    match r with
    | Ok _ => last_ask (send_message (member_str member ++ py " wurde gekickt."))
    | Raise Forbidden =>
        last_ask (send_message (py "Kick fehlgeschlagen - fehlen Berechtigungen?"))
    | Raise e => Fail (Discord e)
    end).

(** [ban]; [interaction.guild.ban] on a missing guild is the attribute
    read that fails. *)
Definition ban (inv : Invocation) (member : Member) (reason : option str) : task unit :=
  match guild (interaction inv) with
  | None => Fail (AttributeError (py "'NoneType' object has no attribute 'ban'"))
  | Some _ =>
      Ask (guild_ban member (_format_reason (interaction inv) reason)) (fun r =>
        match r with
        | Ok _ => last_ask (send_message (member_str member ++ py " wurde gebannt."))
        | Raise Forbidden =>
            last_ask (send_message (py "Ban fehlgeschlagen - fehlen Berechtigungen?"))
        | Raise e => Fail (Discord e)
        end)
  end.

(** [clear_chat] *)
Definition clear_chat (inv : Invocation) (anzahl : Z) (reason : option str) : task unit :=
  let elsewhere :=
    last_ask (send_message (py "Dieser Befehl funktioniert nur in Textkanaelen.")) in
  match channel inv with
  | Some place =>
      match place_kind place with
      | TextPlace | ThreadPlace =>
          Ask (defer false) (fun r =>
            match r with
            | Raise e => Fail (Discord e)
            | Ok _ =>
                Ask (channel_purge place anzahl (_format_reason (interaction inv) reason))
                  (fun r =>
                     match r with
                     | Raise e => Fail (Discord e)
                     | Ok deleted =>
                         last_ask (followup_send
                                     (str_of_int (Z.of_nat (length deleted))
                                      ++ py " Nachrichten geloescht."))
                     end)
            end)
      | OtherPlace => elsewhere
      end
  | None => elsewhere
  end.

(** [(message or "").strip() or None] *)
Definition blank_to_none (message : option str) : option str :=
  match strip (default [] message) with
  | [] => None
  | content => Some content
  end.

(** [upload_file] *)
Definition upload_file (inv : Invocation) (attachment : Attachment) (message : option str)
  : task unit :=
  match channel inv with
  | None => last_ask (send_message (py "Ich kann in diesem Kontext nichts senden."))
  | Some place =>
      if negb (size attachment =? 0) && (MAX_FILE_UPLOAD_BYTES <? size attachment)
      then
        let limit_mb := MAX_FILE_UPLOAD_BYTES / (1024 * 1024) in
        last_ask (send_message (py "Dateien duerfen maximal " ++ str_of_int limit_mb
                                ++ py " MB gross sein."))
      else
        let failed e :=
          if is_http_exception e
          then Note (py "Datei konnte nicht hochgeladen werden: %s") e
                 (last_ask (followup_send (py "Die Datei konnte nicht gesendet werden.")))
          else Fail (Discord e) in
        Ask (defer true) (fun r =>
          match r with
          | Raise e => Fail (Discord e)
          | Ok _ =>
              Ask (to_file attachment (is_spoiler attachment)) (fun r =>
                match r with
                | Raise e => failed e
                | Ok discord_file =>
                    Ask (channel_send place (blank_to_none message) None
                           (Some discord_file) None)
                      (fun r =>
                         match r with
                         | Raise e => failed e
                         | Ok _ => last_ask (followup_send (py "Datei gepostet."))
                         end)
                end)
          end)
  end.

(** [echo] *)
Definition echo (inv : Invocation) (text : str) (allow_mentions : bool) : task unit :=
  match channel inv with
  | None => last_ask (send_message (py "Ich kann in diesem Kontext nichts senden."))
  | Some place =>
      match strip text with
      | [] => last_ask (send_message (py "Bitte gib eine Nachricht an."))
      | cleaned =>
          Ask (defer false) (fun r =>
            match r with
            | Raise e => Fail (Discord e)
            | Ok _ =>
                let allowed_mentions :=
                  if allow_mentions then mentions_all else mentions_none in
                Ask (channel_send place (Some cleaned) None None (Some allowed_mentions))
                  (fun r =>
                     match r with
                     | Ok _ => last_ask (followup_send (py "Nachricht gesendet."))
                     | Raise e =>
                         if is_http_exception e
                         then Note (py "Echo fehlgeschlagen: %s") e
                                (last_ask (followup_send
                                             (py "Die Nachricht konnte nicht gesendet werden.")))
                         else Fail (Discord e)
                     end)
            end)
      end
  end.

Section Embed.
Context {U : PyUnicode}.

(** [if footer and footer.strip(): embed.set_footer(text=footer.strip())] *)
Definition footer_of (footer : option str) : option str :=
  match footer with
  | Some (c :: t) => match strip (c :: t) with [] => None | text => Some text end
  | _ => None
  end.

(** [create_embed] *)
Definition create_embed (inv : Invocation) (title description : str)
  (color_hex footer : option str) : task unit :=
  match channel inv with
  | None => last_ask (send_message (py "Ich kann in diesem Kontext nichts senden."))
  | Some place =>
      let clean_title := strip title in
      let clean_description := strip description in
      match clean_title, clean_description with
      | [], _ | _, [] =>
          last_ask (send_message (py "Titel und Beschreibung duerfen nicht leer sein."))
      | _, _ =>
          if (256 <? length clean_title)%nat
          then last_ask (send_message (py "Der Titel darf maximal 256 Zeichen lang sein."))
          else if (4096 <? length clean_description)%nat
          then last_ask (send_message
                           (py "Die Beschreibung darf maximal 4096 Zeichen lang sein."))
          else
            match _parse_embed_color color_hex with
            | Raise (ValueError msg) => last_ask (send_message msg)
            | Raise e => Fail (Discord e)
            | Ok color =>
                let embed :=
                  {| embed_title := clean_title;
                     embed_description := clean_description;
                     embed_color := color;
                     embed_timestamp := utcnow inv;
                     author_name := user_display_name inv;
                     author_icon_url := user_avatar_url inv;
                     footer_text := footer_of footer |} in
                Ask (defer false) (fun r =>
                  match r with
                  | Raise e => Fail (Discord e)
                  | Ok _ =>
                      Ask (channel_send place None (Some embed) None None) (fun r =>
                        match r with
                        | Ok _ => last_ask (followup_send (py "Embed gesendet."))
                        | Raise e =>
                            if is_http_exception e
                            then Note (py "Embed konnte nicht gesendet werden: %s") e
                                   (last_ask (followup_send
                                                (py "Das Embed konnte nicht gesendet werden.")))
                            else Fail (Discord e)
                        end)
                  end)
            end
      end
  end.

(** [_get_kurs_logs_channel]; [text_channels] is [guild.text_channels],
    the text channels of the guild in the order of their position. *)
Definition _get_kurs_logs_channel (text_channels : list Channel) : option Channel :=
  find (fun ch =>
          match channel_kind ch with
          | TextChannel => bool_decide (str_casefold (channel_name ch) = py "kurs-logs")
          | _ => false
          end) text_channels.

(** [register] *)
Definition register (inv : Invocation) (text_channels : list Channel) : task unit :=
  match guild (interaction inv) with
  | None => last_ask (send_message (py "Bitte benutze diesen Befehl auf dem Server."))
  | Some _ =>
      match _get_kurs_logs_channel text_channels with
      | None => last_ask (send_message (py "Kanal #kurs-logs wurde nicht gefunden."))
      | Some log_channel => last_ask (send_modal log_channel)
      end
  end.

End Embed.

(** The text that [RegisterModal.on_submit] logs. *)
Definition registration_text (u : User) (wochentag zeit : str) : str :=
  py "Neue Kurs-Registrierung von " ++ user_mention u ++ py " ("
  ++ str_of_int (user_id u) ++ py ")" ++ [10%N]
  ++ py "Wochentag: " ++ wochentag ++ [10%N]
  ++ py "Zeit: " ++ zeit.

(** [RegisterModal.on_submit], for a modal made with [log_channel] and
    submitted with the two values. *)
Definition on_submit (log_channel : Channel) (wochentag zeit : str) (inv : Invocation)
  : task unit :=
  let failed e :=
    if is_http_exception e
    then Note (py "Kurs-Registrierung konnte nicht geloggt werden: %s") e
           (last_ask (send_message
                        (py "Fehler beim Speichern deiner Angaben. Bitte versuche es spaeter erneut.")))
    else Fail (Discord e) in
  Ask (log_channel_send log_channel
         (registration_text (user (interaction inv)) wochentag zeit))
    (fun r =>
       match r with
       | Raise e => failed e
       | Ok _ =>
           Ask (send_message (py "Danke! Deine Angaben wurden gespeichert.")) (fun r =>
             match r with
             | Raise e => failed e
             | Ok _ => Done tt
             end)
       end).

(** ** What the properties of these commands speak of *)

(** The first answer to an interaction ([interaction.response]) and the
    later ones ([interaction.followup]). *)
Definition is_response (c : request) : bool :=
  match c with
  | send_message _ | send_modal _ | defer _ => true
  | _ => false
  end.

Definition is_followup (c : request) : bool :=
  match c with
  | followup_send _ => true
  | _ => false
  end.

(** Discord's order of answers along a trace: once a response has gone
    through no other is requested, and a follow-up is requested only
    after one has; [responded] says whether one has gone through. *)
Fixpoint answers_in_order (responded : bool) (tr : list step) : bool :=
  match tr with
  | [] => true
  | Asked c raised :: rest =>
      if is_response c
      then negb responded
           && answers_in_order (match raised with None => true | Some _ => false end) rest
      else if is_followup c
           then responded && answers_in_order responded rest
           else answers_in_order responded rest
  | Noted _ _ :: rest => answers_in_order responded rest
  end.

(** A run that ends in an exception of the platform ends with the
    request that raised it, and that request was an answer to the caller
    or the exception is none of those the [except] clauses name. *)
Definition escaped_from_answer {A} (tr : list step) (out : failure + A) : Prop :=
  match out with
  | inr _ => True
  | inl (AttributeError _) => False
  | inl (Discord e) =>
      exists c, last tr = Some (Asked c (Some e))
                /\ (is_response c || is_followup c = true \/ is_http_exception e = false)
  end.

(** [color.value] *)
Definition color_value (c : Color) : Z := match c with MkColor value => value end.

(** No white space at either end. *)
Definition trimmed (s : str) : Prop := nonspace_head s /\ nonspace_head (rev s).

(** The limits of an embed: a title of 1 to 256 characters, a
    description of 1 to 4096, a colour of 24 bits, no empty footer. *)
Definition embed_within_limits (e : Embed) : Prop :=
  (1 <= length (embed_title e) <= 256)%nat
  /\ (1 <= length (embed_description e) <= 4096)%nat
  /\ trimmed (embed_title e) /\ trimmed (embed_description e)
  /\ 0 <= color_value (embed_color e) <= 0xffffff
  /\ match footer_text e with None => True | Some text => text <> [] /\ trimmed text end.

(** The requests of [clear_chat]. *)
Definition purge_request (inv : Invocation) (anzahl : Z) (reason : option str)
  (c : request) : Prop :=
  match c with
  | send_message _ | followup_send _ => True
  | defer thinking => thinking = false
  | channel_purge place limit r =>
      channel inv = Some place /\ place_kind place <> OtherPlace
      /\ limit = anzahl /\ r = _format_reason (interaction inv) reason
  | _ => False
  end.

(** The requests of [upload_file]. *)
Definition upload_request (inv : Invocation) (attachment : Attachment)
  (message : option str) (c : request) : Prop :=
  match c with
  | send_message _ | followup_send _ => True
  | defer thinking => thinking = true
  | to_file a spoiler =>
      a = attachment /\ spoiler = is_spoiler attachment
      /\ size attachment <= 26214400
  | channel_send place content embed file allowed_mentions =>
      channel inv = Some place /\ size attachment <= 26214400
      /\ match content with
         | None => forallb isspace (default [] message) = true
         | Some text => text = strip (default [] message) /\ text <> [] /\ trimmed text
         end
      /\ embed = None /\ file <> None /\ allowed_mentions = None
  | _ => False
  end.

(** The requests of [echo]. *)
Definition echo_request (inv : Invocation) (text : str) (allow_mentions : bool)
  (c : request) : Prop :=
  match c with
  | send_message _ | followup_send _ => True
  | defer thinking => thinking = false
  | channel_send place content embed file allowed_mentions =>
      channel inv = Some place
      /\ content = Some (strip text) /\ strip text <> [] /\ trimmed (strip text)
      /\ embed = None /\ file = None
      /\ allowed_mentions = Some (if allow_mentions then mentions_all else mentions_none)
  | _ => False
  end.

(** The requests of [create_embed]. *)
Definition embed_request {U : PyUnicode} (inv : Invocation) (title description : str)
  (color_hex footer : option str) (c : request) : Prop :=
  match c with
  | send_message _ | followup_send _ => True
  | defer thinking => thinking = false
  | channel_send place content embed file allowed_mentions =>
      channel inv = Some place /\ content = None /\ file = None /\ allowed_mentions = None
      /\ exists e, embed = Some e
           /\ embed_title e = strip title
           /\ embed_description e = strip description
           /\ _parse_embed_color color_hex = Ok (embed_color e)
           /\ author_name e = user_display_name inv
           /\ author_icon_url e = user_avatar_url inv
           /\ embed_timestamp e = utcnow inv
           /\ footer_text e
              = (if forallb isspace (default [] footer) then None
                 else Some (strip (default [] footer)))
           /\ embed_within_limits e
  | _ => False
  end.

(** A channel that [_get_kurs_logs_channel] accepts. *)
Definition is_kurs_logs {U : PyUnicode} (ch : Channel) : Prop :=
  channel_kind ch = TextChannel /\ str_casefold (channel_name ch) = py "kurs-logs".

(** A platform for the examples: every request goes through, except
    that the requests to kick, to ban and to purge are answered with
    [NotFound]. *)
Definition losing (w : unit) (c : request) : result (answer c) * unit :=
  match c as c0 return result (answer c0) * unit with
  | to_file a spoiler => (Ok {| file_name := filename a; file_spoiler := spoiler |}, w)
  | channel_purge _ _ _ => (Raise NotFound, w)
  | member_kick _ _ => (Raise NotFound, w)
  | guild_ban _ _ => (Raise NotFound, w)
  | send_message _ => (Ok tt, w)
  | send_modal _ => (Ok tt, w)
  | defer _ => (Ok tt, w)
  | followup_send _ => (Ok tt, w)
  | channel_send _ _ _ _ _ => (Ok tt, w)
  | log_channel_send _ _ => (Ok tt, w)
  end.

(** A platform that counts its requests and answers the [n]-th one
    (from 0) with [HTTPException]; [purge] deletes the messages 1, 2, 3. *)
Definition failing_at (n : nat) (w : nat) (c : request) : result (answer c) * nat :=
  if (w =? n)%nat then (Raise HTTPException, S w)
  else
    match c as c0 return result (answer c0) * nat with
    | to_file a spoiler => (Ok {| file_name := filename a; file_spoiler := spoiler |}, S w)
    | channel_purge _ _ _ => (Ok [1; 2; 3], S w)
    | member_kick _ _ => (Ok tt, S w)
    | guild_ban _ _ => (Ok tt, S w)
    | send_message _ => (Ok tt, S w)
    | send_modal _ => (Ok tt, S w)
    | defer _ => (Ok tt, S w)
    | followup_send _ => (Ok tt, S w)
    | channel_send _ _ _ _ _ => (Ok tt, S w)
    | log_channel_send _ _ => (Ok tt, S w)
    end.

(** An invocation in a text channel by the sample teacher. *)
Definition sample_invocation : Invocation :=
  {| interaction := staff_interaction;
     channel := Some {| place_id := 77; place_kind := TextPlace |};
     user_display_name := display_name sample_teacher;
     user_avatar_url := py "https://cdn.example/avatar.png";
     utcnow := 1700000000 |}.

End Relay.

(** A text of ASCII digits only. *)
Definition ascii_digits (s : str) : bool :=
  forallb (fun c => (48 <=? c) && (c <=? 57))%N s.

(** The defaults of the configuration block. *)
Definition default_config (token : str) : Config :=
  {| TOKEN := token;
     GUILD_ID := 1436158090981675091;
     KURS_CATEGORY_ID := 1436199620081356854;
     MODERATOR_ROLE_ID := 1436194208892325888;
     TEACHER_ROLE_ID := 1436197056992645120 |}.

(** * Properties *)

(** ** Lists of characters *)

Lemma takewhile_dropwhile p s : takewhile p s ++ dropwhile p s = s.
Proof. induction s as [|c t IH]; simpl; [done|]. destruct (p c); simpl; by rewrite ?IH. Qed.

Lemma takewhile_all p s : forallb p (takewhile p s) = true.
Proof. induction s as [|c t IH]; simpl; [done|]. destruct (p c) eqn:E; simpl; by rewrite ?E. Qed.

Lemma dropwhile_head p s c t : dropwhile p s = c :: t -> p c = false.
Proof.
  induction s as [|a s IH]; simpl; [done|].
  destruct (p a) eqn:E; [done|]. intros [= <- _]. done.
Qed.

(** A run of [p]-characters followed by nothing, or by a character that
    fails [p], is split by [takewhile]/[dropwhile] at that very place. *)
Lemma takewhile_app p ds rest :
  forallb p ds = true ->
  match rest with [] => True | c :: _ => p c = false end ->
  takewhile p (ds ++ rest) = ds /\ dropwhile p (ds ++ rest) = rest.
Proof.
  intros Hds Hrest. induction ds as [|d ds IH]; simpl in *.
  - destruct rest as [|c r]; simpl; [done|]. by rewrite Hrest.
  - apply andb_prop in Hds as [Hd Hds]. rewrite Hd.
    destruct (IH Hds) as [-> ->]. done.
Qed.

(** ** [_slugify] *)

Section SlugFacts.
Context {U : PyUnicode}.

Lemma slug_char_class c : slug_class (slug_char c) = true.
Proof.
  unfold slug_char. destruct (slug_class (if (c =? 32)%N then 45%N else c)) eqn:E; done.
Qed.

Lemma slugify_substitution (s : str) :
  re_sub_outside slug_class 45 (replace_char 32 45 s) = slug_char <$> s.
Proof.
  unfold re_sub_outside, replace_char. rewrite <- list_fmap_compose.
  apply list_fmap_ext. intros i c _. done.
Qed.

Lemma slugify_unfold name :
  _slugify name =
    match take 90 (slug_char <$> str_lower (strip name)) with
    | [] => py "kurs"
    | cut => cut
    end.
Proof. unfold _slugify. by rewrite slugify_substitution. Qed.

End SlugFacts.

(** C6. For every table of the Unicode database and every name, the slug
    has at most 90 characters, is not empty and consists of characters of
    [[a-z0-9-]] only; it is the first 90 characters of the stripped,
    lower-cased name with each character replaced on its own (a space and
    every character outside the class by a dash, nothing collapsed), or
    ["kurs"] when that text is empty.  On ["  Intro to   Algebra!! "] this
    gives ["intro-to---algebra--"]. *)
Theorem slugify_shape :
  (forall (U : PyUnicode) (name : str),
      (length (_slugify name) <= 90)%nat
      /\ _slugify name <> []
      /\ Forall (fun c => slug_class c = true) (_slugify name)
      /\ _slugify name =
           match take 90 (slug_char <$> str_lower (strip name)) with
           | [] => py "kurs"
           | cut => cut
           end)
  /\ @_slugify Latin1 (py "  Intro to   Algebra!! ") = py "intro-to---algebra--".
Proof.
  split; [|by vm_compute].
  intros U name. rewrite slugify_unfold.
  set (substituted := slug_char <$> str_lower (strip name)).
  assert (Hclass : Forall (fun c => slug_class c = true) (take 90 substituted)).
  { apply Forall_take, Forall_fmap, Forall_forall. intros c _. apply slug_char_class. }
  assert (Hlen : (length (take 90 substituted) <= 90)%nat) by (rewrite length_take; lia).
  destruct (take 90 substituted) as [|c cut] eqn:E.
  - split; [vm_compute; lia|]. split; [done|]. split; [|done].
    vm_compute. repeat constructor.
  - done.
Qed.

(** ** [_parse_duration] *)

Section DurationFacts.
Context {U : PyUnicode}.

Lemma int_from_decimal acc s :
  forallb is_decimal s = true -> is_Some (int_from acc s).
Proof.
  revert acc. induction s as [|c t IH]; intros acc H; simpl in *; [by eexists|].
  apply andb_prop in H as [Hc Ht]. unfold is_decimal in Hc.
  destruct (ch_decimal c); [by apply IH|done].
Qed.

Lemma int10_decimal s :
  s <> [] -> forallb is_decimal s = true -> Z.of_nat (length s) <= MAX_STR_DIGITS ->
  is_Some (int10 s).
Proof.
  destruct s as [|c t]; [done|]. intros _ Hall Hlen. unfold int10, int_digits.
  apply Z.ltb_ge in Hlen. rewrite Hlen. by apply int_from_decimal.
Qed.












End DurationFacts.



(** ** [_parse_embed_color] *)

Section ColorFacts.
Context {U : PyUnicode}.

Lemma int16_from_hex acc s : forallb is_hex s = true -> is_Some (int16_from acc s).
Proof.
  revert acc. induction s as [|c t IH]; intros acc H; simpl in *; [by eexists|].
  apply andb_prop in H as [Hc Ht]. unfold is_hex in Hc.
  destruct (hex_value c); [by apply IH|done].
Qed.


Lemma spec_expand_length cleaned six :
  spec_expand cleaned = Some six -> length six = 6%nat.
Proof.
  unfold spec_expand.
  destruct (length cleaned =? 6)%nat eqn:E6; [apply Nat.eqb_eq in E6; by intros [= <-]|].
  destruct (length cleaned =? 3)%nat eqn:E3; [|done].
  apply Nat.eqb_eq in E3. intros [= <-].
  destruct cleaned as [|a [|b [|c [|d r]]]]; done.
Qed.

(** The function, told by the specification's expansion. *)
Lemma parse_embed_color_cases c t :
  let cleaned := drop_hash (str_lower (strip (c :: t))) in
  match spec_expand cleaned with
  | None =>
      _parse_embed_color (Some (c :: t))
      = Raise (ValueError (py "Hexfarbe muss 3 oder 6 Zeichen lang sein."))
  | Some six =>
      if forallb is_hex six
      then exists v, int16_from 0 six = Some v
                     /\ _parse_embed_color (Some (c :: t)) = Ok (MkColor v)
      else _parse_embed_color (Some (c :: t))
           = Raise (ValueError (py "Hexfarbe enthaelt ungueltige Zeichen."))
  end.
Proof.
  intros cleaned. unfold _parse_embed_color. cbv zeta. fold cleaned.
  destruct (spec_expand cleaned) as [six|] eqn:E.
  - pose proof (spec_expand_length _ _ E) as Hlen.
    unfold spec_expand in E.
    assert (negb ((length cleaned =? 3)%nat || (length cleaned =? 6)%nat) = false) as ->.
    { destruct (length cleaned =? 6)%nat; [by rewrite orb_true_r|].
      by destruct (length cleaned =? 3)%nat. }
    assert ((if (length cleaned =? 3)%nat then cleaned ≫= (fun ch => [ch; ch]) else cleaned)
            = six) as ->.
    { destruct (length cleaned =? 6)%nat eqn:E6.
      - apply Nat.eqb_eq in E6. rewrite E6. simpl. congruence.
      - destruct (length cleaned =? 3)%nat; congruence. }
    unfold fullmatch_hex6. rewrite Hlen. simpl.
    destruct (forallb is_hex six) eqn:Hhex; simpl; [|done].
    destruct (int16_from_hex 0 six Hhex) as [v Hv]. rewrite Hv. by exists v.
  - unfold spec_expand in E.
    destruct (length cleaned =? 6)%nat; [done|].
    by destruct (length cleaned =? 3)%nat.
Qed.

End ColorFacts.


(** ** [_extract_member_ids] *)

Section MemberIdFacts.
Context {U : PyUnicode}.

Lemma mention_ids_ok groups :
  (forall g, g ∈ groups -> is_Some (int10 g)) ->
  exists ids, mention_ids groups = Ok ids
              /\ forall n, n ∈ ids <-> exists g, g ∈ groups /\ int10 g = Some n.
Proof.
  induction groups as [|g rest IH]; intros Hall; simpl.
  - exists ∅. split; [done|]. intros n. split; [set_solver|].
    by intros (g & ?%elem_of_nil & _).
  - destruct (Hall g) as [n Hn]; [by left|].
    destruct IH as (ids & -> & Hids); [intros g' ?; apply Hall; by right|].
    unfold int_or_raise. rewrite Hn. simpl. eexists. split; [done|].
    intros m. rewrite elem_of_union, elem_of_singleton, Hids. split.
    + intros [->|(g' & Hg' & Hm)]; [exists g; split; [by left|done]|].
      exists g'. split; [by right|done].
    + intros (g' & [->|Hin]%elem_of_cons & Hm); [left; congruence|].
      right. by exists g'.
Qed.

Lemma add_chunks_ok chunks :
  forall ids,
    (forall chunk, chunk ∈ chunks -> isdigit chunk = true -> is_Some (int10 chunk)) ->
    exists ids', add_chunks ids chunks = Ok ids'
      /\ forall n, n ∈ ids' <->
           n ∈ ids \/ exists chunk, chunk ∈ chunks /\ isdigit chunk = true
                                    /\ int10 chunk = Some n.
Proof.
  induction chunks as [|chunk rest IH]; intros ids Hall; simpl.
  - exists ids. split; [done|]. intros n. split; [by left|].
    by intros [?|(c & ?%elem_of_nil & _)].
  - assert (Hrest : forall c, c ∈ rest -> isdigit c = true -> is_Some (int10 c))
      by (intros c ?; apply Hall; by right).
    destruct (isdigit chunk) eqn:Ed.
    + destruct (Hall chunk) as [n Hn]; [by left|done|].
      unfold int_or_raise. rewrite Hn. simpl.
      destruct (IH (ids ∪ {[n]}) Hrest) as (ids' & -> & Hids').
      exists ids'. split; [done|]. intros m. rewrite Hids', elem_of_union, elem_of_singleton.
      split.
      * intros [[?| ->]|(c & Hc & Hd & Hm)]; [by left| |].
        -- right. exists chunk. split; [by left|done].
        -- right. exists c. split; [by right|done].
      * intros [?|(c & [->|Hc]%elem_of_cons & Hd & Hm)]; [by left; left| |].
        -- left. right. congruence.
        -- right. by exists c.
    + destruct (IH ids Hrest) as (ids' & -> & Hids').
      exists ids'. split; [done|]. intros m. rewrite Hids'. split.
      * intros [?|(c & Hc & Hd & Hm)]; [by left|]. right. exists c. split; [by right|done].
      * intros [?|(c & [->|Hc]%elem_of_cons & Hd & Hm)]; [by left|congruence|].
        right. by exists c.
Qed.

Lemma add_chunks_raise chunks :
  forall ids chunk,
    chunk ∈ chunks -> isdigit chunk = true -> int10 chunk = None ->
    exists msg, add_chunks ids chunks = Raise (ValueError msg).
Proof.
  induction chunks as [|c rest IH]; intros ids chunk Hin Hd Hn; [by apply elem_of_nil in Hin|].
  simpl. destruct (isdigit c) eqn:Ec.
  - unfold int_or_raise. destruct (int10 c) as [n|] eqn:En; simpl; [|by eexists].
    apply elem_of_cons in Hin as [->|Hin]; [congruence|]. by eapply IH.
  - apply elem_of_cons in Hin as [->|Hin]; [congruence|]. by eapply IH.
Qed.

Lemma mention_ids_result groups :
  (exists ids, mention_ids groups = Ok ids)
  \/ (exists msg, mention_ids groups = Raise (ValueError msg)).
Proof.
  induction groups as [|g rest IH]; simpl; [left; by eexists|].
  unfold int_or_raise. destruct (int10 g) as [n|]; simpl; [|right; by eexists].
  destruct IH as [[ids ->]|[msg ->]]; simpl; [left|right]; by eexists.
Qed.

(** When [int] converts every mention and every chunk that [isdigit]
    accepts, the function returns the union of the mention ids and the
    chunk ids. *)
Lemma extract_member_ids_ok raw :
  (forall g, g ∈ finditer_mention 0 raw -> is_Some (int10 g)) ->
  (forall chunk, chunk ∈ re_split comma_or_space raw -> isdigit chunk = true ->
                 is_Some (int10 chunk)) ->
  exists ids, _extract_member_ids raw = Ok ids
    /\ forall n, n ∈ ids <->
         (exists g, g ∈ finditer_mention 0 raw /\ int10 g = Some n)
         \/ (exists chunk, chunk ∈ re_split comma_or_space raw
                           /\ isdigit chunk = true /\ int10 chunk = Some n).
Proof.
  intros Hgroups Hall. unfold _extract_member_ids.
  destruct (mention_ids_ok (finditer_mention 0 raw) Hgroups) as (ids & -> & Hids).
  simpl. destruct (add_chunks_ok (re_split comma_or_space raw) ids Hall) as (ids' & -> & Hids').
  exists ids'. split; [done|]. intros n. by rewrite Hids', Hids.
Qed.

Lemma extract_member_ids_raise raw chunk :
  chunk ∈ re_split comma_or_space raw -> isdigit chunk = true -> int10 chunk = None ->
  exists msg, _extract_member_ids raw = Raise (ValueError msg).
Proof.
  intros Hin Hd Hn. unfold _extract_member_ids.
  destruct (mention_ids_result (finditer_mention 0 raw)) as [[ids ->]|[msg ->]]; simpl.
  - by eapply add_chunks_raise.
  - by eexists.
Qed.

End MemberIdFacts.

(** C9. On ["<@123> 456,789 <@!456>"] the function returns the set
    {123, 456, 789}.  But a chunk is taken for a number by [str.isdigit],
    which also accepts digits that have no decimal value, and [int] then
    raises: on the one-character text U+00B2 (superscript two) the
    function raises [ValueError] and returns no set, and so it does on
    every text with a chunk of that kind. *)
Theorem extract_member_ids_superscript :
  @_extract_member_ids Latin1 (py "<@123> 456,789 <@!456>") = Ok {[ 123; 456; 789 ]}
  /\ @isdigit Latin1 [178%N] = true
  /\ @int10 Latin1 [178%N] = None
  /\ @_extract_member_ids Latin1 [178%N]
     = Raise (ValueError (py "invalid literal for int() with base 10: '" ++ [178%N] ++ py "'"))
  /\ (forall (U : PyUnicode) (raw chunk : str),
        chunk ∈ re_split comma_or_space raw -> isdigit chunk = true -> int10 chunk = None ->
        exists msg, _extract_member_ids raw = Raise (ValueError msg)).
Proof.
  split; [by vm_compute|]. split; [done|]. split; [done|]. split; [by vm_compute|].
  intros U raw chunk. apply extract_member_ids_raise.
Qed.

(** ** Authorization *)

Lemma existsb_role_id rid (rs : list Role) :
  existsb (fun role => role_id role =? rid) rs = true <-> rid ∈ role_id <$> rs.
Proof.
  induction rs as [|r rs IH]; simpl; [split; [done|by intros ?%elem_of_nil]|].
  rewrite orb_true_iff, IH, elem_of_cons, Z.eqb_eq. split; intros [?|?]; auto.
Qed.

Lemma has_role_obs_value member rid :
  (has_role_obs member rid).2 = _member_has_role member rid.
Proof. unfold has_role_obs, _member_has_role. by destruct (rid =? 0). Qed.

Lemma has_role_obs_scans member rid :
  forallb is_scan (has_role_obs member rid).1 = true.
Proof. unfold has_role_obs. by destruct (rid =? 0). Qed.

Lemma has_any_role_obs_scans member rids :
  forallb is_scan (has_any_role_obs member rids).1 = true.
Proof.
  induction rids as [|rid rest IH]; simpl; [done|].
  destruct (rid =? 0) eqn:E; [done|].
  unfold obs_or, obs_bind, has_role_obs. rewrite E. simpl.
  destruct (existsb _ _); simpl; [done|].
  destruct (has_any_role_obs member rest) as [t b]. simpl in *. done.
Qed.

(** [_member_has_any_role] is true exactly when one of the ids is held. *)
Lemma has_any_role_obs_value member rids :
  (has_any_role_obs member rids).2 = existsb (_member_has_role member) rids.
Proof.
  induction rids as [|rid rest IH]; simpl; [done|].
  unfold _member_has_role at 1. destruct (rid =? 0) eqn:E; simpl; [done|].
  unfold obs_or, obs_bind, has_role_obs. rewrite E. simpl.
  destruct (existsb _ (roles member)); simpl; [done|].
  destruct (has_any_role_obs member rest) as [t b]. simpl in *. done.
Qed.

(** C3. A caller with the administrator flag passes both checks whatever
    roles they hold, none included.  A caller without any of the three
    flags who holds the configured Teacher role and not the Moderator role
    passes the course-staff check and fails the moderator check.  In both
    checks the reads of the flags come first: a set blanket flag ends the
    check before any scan of the roles, and a scan only follows the reads
    of all the flags of that check. *)
Theorem authorization_policy :
  forall (MODERATOR_ROLE_ID TEACHER_ROLE_ID : Z),
    (forall (member : Member) (g : option Guild),
        administrator (guild_permissions member) = true ->
        let interaction := {| user := GuildMember member; guild := g |} in
        (_require_moderator MODERATOR_ROLE_ID interaction).2 = Ok true
        /\ (_require_course_staff MODERATOR_ROLE_ID TEACHER_ROLE_ID interaction).2 = Ok true)
    /\ (forall (member : Member) (g : option Guild),
        guild_permissions member = no_permissions ->
        TEACHER_ROLE_ID <> 0 ->
        TEACHER_ROLE_ID ∈ role_id <$> roles member ->
        MODERATOR_ROLE_ID ∉ role_id <$> roles member ->
        let interaction := {| user := GuildMember member; guild := g |} in
        (_require_course_staff MODERATOR_ROLE_ID TEACHER_ROLE_ID interaction).2 = Ok true
        /\ (_require_moderator MODERATOR_ROLE_ID interaction).2
           = Raise (CheckFailure (py "Dir fehlen die Moderationsrechte.")))
    /\ (forall interaction : Interaction,
        (exists flags scans,
            (_require_moderator MODERATOR_ROLE_ID interaction).1 = flags ++ scans
            /\ forallb (fun p => negb (is_scan p)) flags = true
            /\ forallb is_scan scans = true
            /\ (scans <> [] ->
                flags = [ReadAdministrator; ReadManageGuild; ReadModerateMembers]))
        /\ (exists flags scans,
            (_require_course_staff MODERATOR_ROLE_ID TEACHER_ROLE_ID interaction).1
            = flags ++ scans
            /\ forallb (fun p => negb (is_scan p)) flags = true
            /\ forallb is_scan scans = true
            /\ (scans <> [] -> flags = [ReadAdministrator; ReadManageGuild])))
    /\ (forall (member : Member) (g : option Guild),
        let interaction := {| user := GuildMember member; guild := g |} in
        let perms := guild_permissions member in
        (administrator perms || manage_guild perms || moderate_members perms = true ->
         forallb (fun p => negb (is_scan p))
           (_require_moderator MODERATOR_ROLE_ID interaction).1 = true)
        /\ (administrator perms || manage_guild perms = true ->
            forallb (fun p => negb (is_scan p))
              (_require_course_staff MODERATOR_ROLE_ID TEACHER_ROLE_ID interaction).1 = true)).
Proof.
  intros M T. split; [|split; [|split]].
  - intros member g Hadmin interaction.
    unfold _require_moderator, _require_course_staff. simpl. by rewrite Hadmin.
  - intros member g Hperms HT Hteacher Hmod interaction.
    apply existsb_role_id in Hteacher.
    assert (existsb (fun role => role_id role =? M) (roles member) = false) as HM.
    { apply not_true_is_false. by rewrite existsb_role_id. }
    unfold _require_moderator, _require_course_staff. simpl. rewrite Hperms. simpl.
    unfold has_role_obs, obs_or, obs_bind.
    apply Z.eqb_neq in HT. rewrite HT, Hteacher.
    destruct (M =? 0); simpl; rewrite ?HM; simpl; done.
  - intros interaction. unfold _require_moderator, _require_course_staff.
    destruct (user interaction) as [uid name|member]; [split; exists [], []; done|].
    pose proof (has_role_obs_scans member M) as Hs1.
    pose proof (has_any_role_obs_scans member [M; T]) as Hs2.
    destruct (has_role_obs member M) as [t1 b1].
    destruct (has_any_role_obs member [M; T]) as [t2 b2].
    destruct (guild_permissions member) as [a mg mm]. simpl in *. split.
    + destruct a; simpl; [exists [ReadAdministrator], []; done|].
      destruct mg; simpl; [exists [ReadAdministrator; ReadManageGuild], []; done|].
      destruct mm; simpl;
        [exists [ReadAdministrator; ReadManageGuild; ReadModerateMembers], []; done|].
      exists [ReadAdministrator; ReadManageGuild; ReadModerateMembers], t1.
      destruct b1; simpl; by rewrite app_nil_r.
    + destruct a; simpl; [exists [ReadAdministrator], []; done|].
      destruct mg; simpl; [exists [ReadAdministrator; ReadManageGuild], []; done|].
      exists [ReadAdministrator; ReadManageGuild], t2.
      destruct b2; simpl; by rewrite app_nil_r.
  - intros member g interaction perms. unfold _require_moderator, _require_course_staff.
    subst perms. simpl. destruct (guild_permissions member) as [a mg mm]. simpl.
    split; intros H.
    + destruct a; simpl; [done|]. destruct mg; simpl; [done|]. by destruct mm.
    + destruct a; simpl; [done|]. by destruct mg.
Qed.

(** An administrator without roles and a teacher without flags, under the
    default configuration. *)
Lemma authorization_policy_witness :
  let admin := {| user := GuildMember sample_admin; guild := None |} in
  let teacher := {| user := GuildMember sample_teacher; guild := None |} in
  ((_require_moderator default_moderator_role_id admin).2 = Ok true
   /\ (_require_course_staff default_moderator_role_id default_teacher_role_id admin).2
      = Ok true)
  /\ ((_require_course_staff default_moderator_role_id default_teacher_role_id teacher).2
      = Ok true
      /\ (_require_moderator default_moderator_role_id teacher).2
         = Raise (CheckFailure (py "Dir fehlen die Moderationsrechte.")))
  /\ forallb (fun p => negb (is_scan p))
       (_require_moderator default_moderator_role_id admin).1 = true.
Proof.
  destruct (authorization_policy default_moderator_role_id default_teacher_role_id)
    as (Hadmin & Hteacher & _ & Hflags).
  split; [|split].
  - apply (Hadmin sample_admin None). reflexivity.
  - apply (Hteacher sample_teacher None).
    + reflexivity.
    + discriminate.
    + apply list_elem_of_here.
    + intros H. apply list_elem_of_singleton in H. discriminate H.
  - apply (Hflags sample_admin None). reflexivity.
Defined.

(** ** Runs *)

Section RunFacts.
Context {W : Type} (platform : W -> forall c : call, result (resp c) * W).

Lemma run_bind {A B} (p : prog A) (f : A -> prog B) w :
  run platform (bind p f) w =
    let '(tr, out, w1) := run platform p w in
    match out with
    | Ok a => let '(tr2, out2, w2) := run platform (f a) w1 in (tr ++ tr2, out2, w2)
    | Raise e => (tr, Raise e, w1)
    end.
Proof.
  revert w. induction p as [a|e|c k IH|line k IH]; intros w; simpl.
  - by destruct (run platform (f a) w) as [[tr out] w'].
  - done.
  - destruct (platform w c) as [r w1]. rewrite IH.
    destruct (run platform (k r) w1) as [[tr out] w2].
    destruct out as [a|e]; [|done].
    by destruct (run platform (f a) w2) as [[tr2 out2] w3].
  - rewrite IH. destruct (run platform k w) as [[tr out] w1].
    destruct out as [a|e]; [|done].
    by destruct (run platform (f a) w1) as [[tr2 out2] w2].
Qed.

Lemma run_await c w :
  run platform (await c) w =
    ([Called c (raised_of (platform w c).1)], (platform w c).1, (platform w c).2).
Proof. simpl. destruct (platform w c) as [[x|e] w1]; done. Qed.

Lemma run_finish c w :
  run platform (finish c) w =
    ([Called c (raised_of (platform w c).1)],
     match (platform w c).1 with Ok _ => Ok tt | Raise e => Raise e end,
     (platform w c).2).
Proof. simpl. destruct (platform w c) as [[x|e] w1]; done. Qed.

Lemma trace_finish c w : calls (trace platform (finish c) w) = [c].
Proof. unfold trace. by rewrite run_finish. Qed.

End RunFacts.

(** ** [timeout] *)

(** C5. With 28 days being 2419200 seconds, [timeout] answers every
    parsed duration above it with the validation reply and requests
    nothing else, so no timeout.  A parsed duration that is neither zero
    nor above the ceiling, and so one of exactly 28 days such as ["28d"],
    passes the check, but no timeout is attempted: the handler hands the
    duration to [member.timeout] under the keyword [duration], which
    [Member.timeout(until, /, *, reason)] does not have, so the call
    raises [TypeError] before any request; [except discord.Forbidden] does
    not catch it, and the command ends with it, nothing requested and
    nothing replied, on every platform.  Handed over as the positional
    argument, the same duration gives the request. *)
Theorem timeout_ceiling :
  MAX_TIMEOUT_SECONDS = 2419200
  /\ (forall (U : PyUnicode) (interaction : Interaction) (member : Member) (dauer : str)
             (reason : option str) (seconds : Z)
             (W : Type) (platform : W -> forall c : call, result (resp c) * W) (w : W),
        _parse_duration dauer = Ok (Some seconds) ->
        MAX_TIMEOUT_SECONDS < seconds ->
        calls (trace platform (timeout interaction member dauer reason) w)
        = [send_message (py "Timeouts sind maximal 28 Tage lang moeglich.")])
  /\ (forall (U : PyUnicode) (interaction : Interaction) (member : Member) (dauer : str)
             (reason : option str) (seconds : Z)
             (W : Type) (platform : W -> forall c : call, result (resp c) * W) (w : W),
        _parse_duration dauer = Ok (Some seconds) ->
        seconds <> 0 -> seconds <= MAX_TIMEOUT_SECONDS ->
        run platform (timeout interaction member dauer reason) w
        = ([],
           Raise (TypeError
                    (py "Member.timeout() got an unexpected keyword argument 'duration'")),
           w))
  /\ (forall (member : Member) (seconds : Z) (audit : str),
        Member_timeout member (positional seconds) audit
        = Ok (member_timeout member seconds audit))
  /\ @_parse_duration Latin1 (py "28d") = Ok (Some MAX_TIMEOUT_SECONDS)
  /\ @_parse_duration Latin1 (py "29d") = Ok (Some 2505600)
  /\ (forall (interaction : Interaction) (member : Member) (reason : option str)
             (W : Type) (platform : W -> forall c : call, result (resp c) * W) (w : W),
        run platform (@timeout Latin1 interaction member (py "28d") reason) w
        = ([],
           Raise (TypeError
                    (py "Member.timeout() got an unexpected keyword argument 'duration'")),
           w)
        /\ calls (trace platform (@timeout Latin1 interaction member (py "29d") reason) w)
           = [send_message (py "Timeouts sind maximal 28 Tage lang moeglich.")]).
Proof.
  assert (Hover : forall (U : PyUnicode) interaction member dauer reason seconds
             (W : Type) (platform : W -> forall c : call, result (resp c) * W) (w : W),
        _parse_duration dauer = Ok (Some seconds) ->
        MAX_TIMEOUT_SECONDS < seconds ->
        calls (trace platform (timeout interaction member dauer reason) w)
        = [send_message (py "Timeouts sind maximal 28 Tage lang moeglich.")]).
  { intros U interaction member dauer reason seconds W platform w Hparse Hgt.
    unfold timeout. rewrite Hparse.
    destruct seconds as [|p|p]; [done| |done].
    apply Z.ltb_lt in Hgt. rewrite Hgt. apply trace_finish. }
  assert (Hin : forall (U : PyUnicode) interaction member dauer reason seconds
             (W : Type) (platform : W -> forall c : call, result (resp c) * W) (w : W),
        _parse_duration dauer = Ok (Some seconds) ->
        seconds <> 0 -> seconds <= MAX_TIMEOUT_SECONDS ->
        run platform (timeout interaction member dauer reason) w
        = ([],
           Raise (TypeError
                    (py "Member.timeout() got an unexpected keyword argument 'duration'")),
           w)).
  { intros U interaction member dauer reason seconds W platform w Hparse Hnz Hle.
    unfold timeout. rewrite Hparse.
    assert ((MAX_TIMEOUT_SECONDS <? seconds) = false) as Hltb by (apply Z.ltb_ge; lia).
    destruct seconds as [|p|p]; [done| |]; by rewrite Hltb. }
  split; [done|]. split; [exact Hover|]. split; [exact Hin|]. split; [done|].
  split; [by vm_compute|]. split; [by vm_compute|].
  intros interaction member reason W platform w. split.
  - apply (Hin Latin1 interaction member (py "28d") reason 2419200); [by vm_compute|done|done].
  - eapply Hover; [by vm_compute|done].
Qed.

(** ["40d"] is above the ceiling and ["28d"] is on it. *)
Lemma timeout_ceiling_witness :
  calls (trace accepting (@timeout Latin1 sample_interaction sample_teacher (py "40d") None) tt)
  = [send_message (py "Timeouts sind maximal 28 Tage lang moeglich.")]
  /\ run accepting (@timeout Latin1 sample_interaction sample_teacher (py "28d") None) tt
     = ([],
        Raise (TypeError (py "Member.timeout() got an unexpected keyword argument 'duration'")),
        tt).
Proof.
  destruct timeout_ceiling as (_ & Hover & Hin & _).
  split.
  - apply (Hover Latin1 sample_interaction sample_teacher (py "40d") None 3456000).
    + reflexivity.
    + reflexivity.
  - apply (Hin Latin1 sample_interaction sample_teacher (py "28d") None 2419200).
    + reflexivity.
    + discriminate.
    + discriminate.
Defined.

(** C10. A duration that parses to 0 seconds makes [timeout] the very
    program it is for a text that does not parse: the reply about the
    format and nothing else, so no timeout request, on every platform.
    ["0"], ["0s"], ["0m"], ["0h"] and ["0d"] parse to 0. *)
Theorem timeout_zero :
  (forall (U : PyUnicode) (interaction : Interaction) (member : Member) (dauer : str)
          (reason : option str),
      _parse_duration dauer = Ok (Some 0) ->
      timeout interaction member dauer reason
      = finish (send_message (py "Bitte verwende ein gueltiges Format (z.B. 30m, 2h, 1d)."))
      /\ (forall unparseable, _parse_duration unparseable = Ok None ->
          timeout interaction member unparseable reason
          = timeout interaction member dauer reason)
      /\ (forall (W : Type) (platform : W -> forall c : call, result (resp c) * W) (w : W),
          calls (trace platform (timeout interaction member dauer reason) w)
          = [send_message (py "Bitte verwende ein gueltiges Format (z.B. 30m, 2h, 1d).")]))
  /\ Forall (fun dauer => @_parse_duration Latin1 dauer = Ok (Some 0))
       [py "0"; py "0s"; py "0m"; py "0h"; py "0d"; py "000"]
  /\ @_parse_duration Latin1 (py "abc") = Ok None.
Proof.
  split; [|split; [|by vm_compute]].
  - intros U interaction member dauer reason Hzero.
    assert (timeout interaction member dauer reason
            = finish (send_message (py "Bitte verwende ein gueltiges Format (z.B. 30m, 2h, 1d).")))
      as Heq by (unfold timeout; by rewrite Hzero).
    split; [done|]. split.
    + intros bad Hbad. rewrite Heq. unfold timeout. by rewrite Hbad.
    + intros W platform w. rewrite Heq. apply trace_finish.
  - repeat constructor.
Qed.

(** ["0d"] against the unparseable ["abc"]. *)
Lemma timeout_zero_witness :
  @timeout Latin1 sample_interaction sample_teacher (py "abc") None
  = @timeout Latin1 sample_interaction sample_teacher (py "0d") None
  /\ calls (trace accepting (@timeout Latin1 sample_interaction sample_teacher (py "0d") None) tt)
     = [send_message (py "Bitte verwende ein gueltiges Format (z.B. 30m, 2h, 1d).")].
Proof.
  destruct timeout_zero as (H & _).
  destruct (H Latin1 sample_interaction sample_teacher (py "0d") None) as (_ & Hsame & Htrace).
  - reflexivity.
  - split.
    + apply Hsame. reflexivity.
    + apply Htrace.
Defined.

(** ** [_normalize_course_name] *)

Lemma split_ws_from_words s :
  forall cur, forallb (fun c => negb (isspace c)) cur = true ->
              Forall wordlike (split_ws_from cur s).
Proof.
  induction s as [|a s IH]; intros cur Hcur; simpl.
  - destruct cur; repeat constructor; done.
  - destruct (isspace a) eqn:Ea.
    + destruct cur as [|c cur]; [by apply IH|].
      constructor; [done|by apply IH].
    + apply IH. rewrite forallb_app, Hcur. simpl. by rewrite Ea.
Qed.

Lemma split_ws_from_word tok :
  forall cur rest, forallb (fun c => negb (isspace c)) tok = true ->
                   split_ws_from cur (tok ++ rest) = split_ws_from (cur ++ tok) rest.
Proof.
  induction tok as [|c tok IH]; intros cur rest Htok; simpl in *.
  - by rewrite app_nil_r.
  - apply andb_prop in Htok as [Hc Htok]. apply negb_true_iff in Hc. rewrite Hc.
    rewrite IH by done. by rewrite <- app_assoc.
Qed.

Lemma split_ws_join toks :
  Forall wordlike toks -> split_ws (join (py " ") toks) = toks.
Proof.
  unfold split_ws. induction 1 as [|tok rest [Hne Htok] Hrest IH]; [done|].
  destruct rest as [|tok2 rest].
  - simpl. rewrite <- (app_nil_r tok) at 1. rewrite split_ws_from_word by done.
    simpl. by destruct tok.
  - change (join (py " ") (tok :: tok2 :: rest))
      with (tok ++ 32%N :: join (py " ") (tok2 :: rest)).
    set (j := join (py " ") (tok2 :: rest)) in *.
    rewrite split_ws_from_word by done. simpl.
    destruct tok; [done|]. by rewrite IH.
Qed.

Lemma strip_fixed s : nonspace_head s -> nonspace_head (rev s) -> strip s = s.
Proof.
  intros Hhead Hlast. unfold strip, lstrip, rstrip.
  assert (forall t, nonspace_head t -> dropwhile isspace t = t) as Hdrop.
  { intros [|c t] H; simpl in *; [done|]. by rewrite H. }
  rewrite (Hdrop s Hhead), (Hdrop (rev s) Hlast). apply rev_involutive.
Qed.

Lemma wordlike_edges tok : wordlike tok -> nonspace_head tok /\ nonspace_head (rev tok).
Proof.
  intros [Hne Hall]. rewrite forallb_forall in Hall. split.
  - destruct tok as [|c t]; [done|]. simpl.
    apply negb_true_iff, Hall. by left.
  - destruct (rev tok) as [|c t] eqn:E; [done|]. simpl.
    apply negb_true_iff, Hall, in_rev. rewrite E. by left.
Qed.

Lemma join_words_edges toks :
  Forall wordlike toks ->
  nonspace_head (join (py " ") toks) /\ nonspace_head (rev (join (py " ") toks))
  /\ (toks <> [] -> join (py " ") toks <> []).
Proof.
  induction 1 as [|tok rest Htok Hrest (IHh & IHl & IHne)]; [done|].
  destruct (wordlike_edges tok Htok) as [Hh Hl]. destruct Htok as [Hne Hall].
  destruct rest as [|tok2 rest]; [simpl; split; [done|split; [done|by intros _]]|].
  change (join (py " ") (tok :: tok2 :: rest))
    with (tok ++ 32%N :: join (py " ") (tok2 :: rest)).
  set (j := join (py " ") (tok2 :: rest)) in *.
  split; [|split].
  - by destruct tok.
  - rewrite rev_app_distr. cbn [rev].
    destruct (rev j) as [|c t] eqn:E; [|exact IHl].
    exfalso. apply IHne; [done|].
    apply (f_equal (@rev N)) in E. by rewrite rev_involutive in E.
  - by destruct tok.
Qed.

(** Normalizing a normalized name changes nothing. *)
Lemma normalize_course_name_idempotent name :
  _normalize_course_name (_normalize_course_name name) = _normalize_course_name name.
Proof.
  unfold _normalize_course_name.
  assert (Forall wordlike (split_ws (strip name))) as Hwords
    by (by apply split_ws_from_words).
  destruct (join_words_edges _ Hwords) as (Hh & Hl & _).
  rewrite strip_fixed by done. by rewrite split_ws_join.
Qed.

(** ** [create_kurs] *)

Section CreateKursFacts.
Context {U : PyUnicode} (KURS_CATEGORY_ID MODERATOR_ROLE_ID TEACHER_ROLE_ID : Z).

Lemma fetch_course_role_found g role kurs_name :
  role ∈ guild_roles g ->
  str_casefold (role_name role) = str_casefold (_normalize_course_name kurs_name) ->
  is_Some (_fetch_course_role g kurs_name).
Proof.
  intros Hin Hname. unfold _fetch_course_role.
  destruct (find _ (guild_roles g)) as [r|] eqn:E; [by eexists|].
  apply list_elem_of_In in Hin. eapply find_none in E; [|exact Hin].
  simpl in E. by rewrite bool_decide_eq_false in E.
Qed.

End CreateKursFacts.

(** C2, as amended.  When the course name normalizes to the empty text,
    or when its normalized form, case-folded, equals the case-folded name
    of a role of the guild, [create_kurs] makes no request that changes
    the guild, on any platform.  For the empty name its only request is
    the rejection reply.  For the duplicate it first acknowledges the
    interaction with [defer]; when that goes through, the rejection reply
    follows as the second and last request; when [defer] raises, the
    command ends there with that exception, and no reply is sent. *)
Theorem create_kurs_rejections :
  forall (U : PyUnicode) (KURS_CATEGORY_ID MODERATOR_ROLE_ID TEACHER_ROLE_ID : Z)
         (interaction : Interaction) (name : str) (reason : option str)
         (W : Type) (platform : W -> forall c : call, result (resp c) * W) (w : W),
    _normalize_course_name name = []
    \/ (exists g role,
           guild interaction = Some g /\ role ∈ guild_roles g
           /\ str_casefold (role_name role)
              = str_casefold (_normalize_course_name name)) ->
    let handler := create_kurs KURS_CATEGORY_ID MODERATOR_ROLE_ID TEACHER_ROLE_ID
                     interaction name reason in
    let tr := trace platform handler w in
    forallb (fun c => negb (mutating c)) (calls tr) = true
    /\ match guild interaction, _normalize_course_name name with
       | None, _ => calls tr = [send_message (py "Dieser Befehl funktioniert nur auf Servern.")]
       | Some _, [] => calls tr = [send_message (py "Bitte gib einen Kursnamen an.")]
       | Some _, _ :: _ =>
           match (platform w defer).1 with
           | Ok _ =>
               calls tr
               = [defer;
                  followup_send (py "Es existiert bereits eine Kursrolle mit diesem Namen.")]
           | Raise e =>
               tr = [Called defer (Some e)] /\ outcome platform handler w = Raise e
           end
       end
    /\ ((platform w defer).1 = Ok tt ->
        exists rejection, last (calls tr) = Some rejection /\ is_reply rejection = true).
Proof.
  intros U K M T interaction name reason W platform w Hcase handler tr.
  assert (match guild interaction, _normalize_course_name name with
       | None, _ => calls tr = [send_message (py "Dieser Befehl funktioniert nur auf Servern.")]
       | Some _, [] => calls tr = [send_message (py "Bitte gib einen Kursnamen an.")]
       | Some _, _ :: _ =>
           match (platform w defer).1 with
           | Ok _ =>
               calls tr
               = [defer;
                  followup_send (py "Es existiert bereits eine Kursrolle mit diesem Namen.")]
           | Raise e =>
               tr = [Called defer (Some e)] /\ outcome platform handler w = Raise e
           end
       end) as Hshape.
  { subst tr handler. unfold create_kurs.
    destruct (guild interaction) as [g|] eqn:Eg; [|apply trace_finish].
    destruct (_normalize_course_name name) as [|c kurs_name] eqn:En;
      [apply trace_finish|].
    destruct Hcase as [|(g' & role & [= <-] & Hin & Hname)]; [done|].
    unfold trace, outcome. rewrite run_bind, run_await.
    destruct (platform w defer) as [[[]|e] w1] eqn:Ed; simpl; [|done].
    destruct (fetch_course_role_found g role (c :: kurs_name) Hin) as [r ->].
    { rewrite <- En at 1. by rewrite normalize_course_name_idempotent, En. }
    rewrite run_finish. done. }
  split; [|split; [exact Hshape|]].
  - destruct (guild interaction) as [g|]; [|by rewrite Hshape].
    destruct (_normalize_course_name name) as [|c kurs_name]; [by rewrite Hshape|].
    destruct ((platform w defer).1) as [[]|e]; [by rewrite Hshape|].
    destruct Hshape as [Htr _]. fold tr. by rewrite Htr.
  - intros Hdefer. rewrite Hdefer in Hshape.
    destruct (guild interaction) as [g|]; [|rewrite Hshape; by eexists].
    destruct (_normalize_course_name name) as [|c kurs_name]; rewrite Hshape; by eexists.
Qed.

(** The name [" algebra "] against the role "Algebra", and a blank
    name. *)
Lemma create_kurs_rejections_witness :
  let duplicate :=
    trace accepting
      (@create_kurs Latin1 default_kurs_category_id default_moderator_role_id
         default_teacher_role_id staff_interaction (py " algebra ") None) tt in
  let blank :=
    trace accepting
      (@create_kurs Latin1 default_kurs_category_id default_moderator_role_id
         default_teacher_role_id staff_interaction (py "   ") None) tt in
  (forallb (fun c => negb (mutating c)) (calls duplicate) = true
   /\ calls duplicate
      = [defer; followup_send (py "Es existiert bereits eine Kursrolle mit diesem Namen.")]
   /\ exists rejection, last (calls duplicate) = Some rejection /\ is_reply rejection = true)
  /\ forallb (fun c => negb (mutating c)) (calls blank) = true
  /\ calls blank = [send_message (py "Bitte gib einen Kursnamen an.")].
Proof.
  split.
  - destruct (create_kurs_rejections Latin1 default_kurs_category_id
                default_moderator_role_id default_teacher_role_id
                staff_interaction (py " algebra ") None unit accepting tt)
      as (Hquiet & Hshape & Hlast).
    + right. exists sample_guild, algebra_role. split; [reflexivity|].
      split; [|reflexivity]. apply list_elem_of_further, list_elem_of_further, list_elem_of_here.
    + split; [exact Hquiet|]. split; [exact Hshape|]. apply Hlast. reflexivity.
  - destruct (create_kurs_rejections Latin1 default_kurs_category_id
                default_moderator_role_id default_teacher_role_id
                staff_interaction (py "   ") None unit accepting tt)
      as (Hquiet & Hshape & _).
    + left. reflexivity.
    + split; [exact Hquiet|exact Hshape].
Defined.

(** C2, as first stated, fails where the platform refuses the
    acknowledgement: the name [" algebra "] matches the role "Algebra",
    [defer] is answered with [NotFound], and the command ends with that
    exception after this one request: no rejection reply is sent. *)
Lemma create_kurs_defer_refused :
  algebra_role ∈ guild_roles sample_guild
  /\ @str_casefold Latin1 (role_name algebra_role)
     = @str_casefold Latin1 (_normalize_course_name (py " algebra "))
  /\ run refusing_defer
       (@create_kurs Latin1 default_kurs_category_id default_moderator_role_id
          default_teacher_role_id staff_interaction (py " algebra ") None) tt
     = ([Called defer (Some NotFound)], Raise NotFound, tt).
Proof.
  split; [apply list_elem_of_further, list_elem_of_further, list_elem_of_here|].
  split; by vm_compute.
Qed.

(** Membership of an event in a short explicit trace is decided by
    looking at each entry. *)
Ltac not_in_trace H :=
  repeat (apply elem_of_cons in H as [H|H]; [discriminate H|]);
  by apply elem_of_nil in H.

(** C1. When the request to create the text channel raises, [create_kurs]
    ends with that exception: the failed request is the last event, no
    reply to the caller occurs anywhere in the run, and the requests that
    went through before it are [defer] and the creation of the role, which
    nothing undoes.  With the role "Lineare Algebra" and a platform that
    answers the channel request with [Forbidden], the run is the three
    requests shown and ends in [Forbidden]. *)
Theorem create_kurs_channel_failure :
  (forall (U : PyUnicode) (KURS_CATEGORY_ID MODERATOR_ROLE_ID TEACHER_ROLE_ID : Z)
          (interaction : Interaction) (name : str) (reason : option str)
          (W : Type) (platform : W -> forall c : call, result (resp c) * W) (w : W)
          (channel_name : str) (category : Channel)
          (overwrites : list (Role * PermissionOverwrite)) (audit : str) (e : exn),
      let handler := create_kurs KURS_CATEGORY_ID MODERATOR_ROLE_ID TEACHER_ROLE_ID
                       interaction name reason in
      let failed := Called (create_text_channel channel_name category overwrites audit)
                      (Some e) in
      failed ∈ trace platform handler w ->
      outcome platform handler w = Raise e
      /\ last (trace platform handler w) = Some failed
      /\ forallb (fun c => negb (is_reply c)) (calls (trace platform handler w)) = true
      /\ completed (trace platform handler w)
         = [defer; create_role (_normalize_course_name name) true
                     (_format_reason interaction reason)])
  /\ run refusing_channels
       (@create_kurs Latin1 default_kurs_category_id default_moderator_role_id
          default_teacher_role_id staff_interaction (py "  Lineare   Algebra ") None) tt
     = ([Called defer None;
         Called (create_role (py "Lineare Algebra") true (py "Aktion von tom (12)")) None;
         Called (create_text_channel (py "lineare-algebra") kurs_category
                   [(everyone_role, {| view_channel := Some false; manage_messages := None |});
                    ({| role_id := 900; role_name := py "Lineare Algebra" |},
                     {| view_channel := Some true; manage_messages := None |});
                    (teacher_role,
                     {| view_channel := Some true; manage_messages := Some true |})]
                   (py "Aktion von tom (12)"))
           (Some Forbidden)],
        Raise Forbidden, tt).
Proof.
  split; [|by vm_compute].
  intros U K M T interaction name reason W platform w channel_name category overwrites
    audit e handler failed. subst handler failed.
  unfold trace, outcome, create_kurs.
  destruct (guild interaction) as [g|]; simpl.
  2: { destruct (platform w _) as [[[]|e0] w1]; simpl; intros H; not_in_trace H. }
  destruct (_normalize_course_name name) as [|c kurs_name]; simpl.
  { destruct (platform w _) as [[[]|e0] w1]; simpl; intros H; not_in_trace H. }
  destruct (platform w defer) as [[[]|e0] w1]; simpl.
  2: { intros H. not_in_trace H. }
  destruct (_fetch_course_role g (c :: kurs_name)) as [existing_role|]; simpl.
  { destruct (platform w1 _) as [[[]|e1] w2]; simpl; intros H; not_in_trace H. }
  destruct (_get_course_category K g) as [cat|err]; simpl.
  2: { destruct err; simpl; try (intros H; not_in_trace H).
       destruct (platform w1 _) as [[[]|e1] w2]; simpl; intros H; not_in_trace H. }
  destruct (platform w1 (create_role _ _ _)) as [[kurs_role|e1] w2]; simpl.
  2: { intros H. not_in_trace H. }
  destruct (platform w2 (create_text_channel _ _ _ _)) as [[channel|e2] w3]; simpl.
  { destruct (platform w3 _) as [[[]|e3] w4]; simpl; intros H; not_in_trace H. }
  intros H. apply elem_of_cons in H as [H|H]; [discriminate H|].
  apply elem_of_cons in H as [H|H]; [discriminate H|].
  apply elem_of_cons in H as [H|H]; [|by apply elem_of_nil in H].
  injection H as <- <- <- <- <-. done.
Qed.

(** ** [add_member] and [remove_member] *)

Section EnrollmentFacts.
Context {W : Type} (platform : W -> forall c : call, result (resp c) * W).
Context (interaction : Interaction) (kurs_role : Role) (reason : option str).

Lemma add_loop_run resolved :
  role_requests_ok_or_forbidden platform kurs_role ->
  forall updated w,
    let tr := trace platform (add_loop interaction kurs_role reason resolved updated) w in
    (role_changes tr).*1
    = List.filter (fun m => negb (role_in kurs_role (roles m))) resolved
    /\ outcome platform (add_loop interaction kurs_role reason resolved updated) w
       = Ok (updated ++ (display_name <$> (List.filter snd (role_changes tr)).*1))
    /\ tr = role_changes tr ≫= add_events interaction kurs_role reason.
Proof.
  intros Hcontract. unfold trace, outcome.
  induction resolved as [|member rest IH]; intros updated w; simpl.
  { by rewrite app_nil_r. }
  destruct (role_in kurs_role (roles member)) eqn:Ein; simpl; [apply IH|].
  pose proof (fun e => proj1 (Hcontract w member (_format_reason interaction reason) e))
    as Hforbidden.
  destruct (platform w (add_roles member kurs_role _)) as [[[]|e] w1]; simpl in *.
  - specialize (IH (updated ++ [display_name member]) w1).
    destruct (run platform _ w1) as [[tr out] w2]. simpl in *.
    destruct IH as (IHcalls & -> & IHtr). split; [f_equal; exact IHcalls|].
    split; [rewrite <- app_assoc; reflexivity|].
    unfold add_events at 1. simpl. f_equal. exact IHtr.
  - rewrite (Hforbidden e eq_refl). simpl.
    specialize (IH updated w1).
    destruct (run platform _ w1) as [[tr out] w2]. simpl in *.
    destruct IH as (IHcalls & -> & IHtr). split; [f_equal; exact IHcalls|].
    split; [reflexivity|].
    unfold add_events at 1. simpl. do 2 f_equal. exact IHtr.
Qed.

Lemma remove_loop_run resolved :
  role_requests_ok_or_forbidden platform kurs_role ->
  forall removed w,
    let tr := trace platform (remove_loop interaction kurs_role reason resolved removed) w in
    (role_changes tr).*1
    = List.filter (fun m => role_in kurs_role (roles m)) resolved
    /\ outcome platform (remove_loop interaction kurs_role reason resolved removed) w
       = Ok (removed ++ (display_name <$> (List.filter snd (role_changes tr)).*1))
    /\ tr = role_changes tr ≫= remove_events interaction kurs_role reason.
Proof.
  intros Hcontract. unfold trace, outcome.
  induction resolved as [|member rest IH]; intros removed w; simpl.
  { by rewrite app_nil_r. }
  destruct (role_in kurs_role (roles member)) eqn:Ein; simpl; [|apply IH].
  pose proof (fun e => proj2 (Hcontract w member (_format_reason interaction reason) e))
    as Hforbidden.
  destruct (platform w (remove_roles member kurs_role _)) as [[[]|e] w1]; simpl in *.
  - specialize (IH (removed ++ [display_name member]) w1).
    destruct (run platform _ w1) as [[tr out] w2]. simpl in *.
    destruct IH as (IHcalls & -> & IHtr). split; [f_equal; exact IHcalls|].
    split; [rewrite <- app_assoc; reflexivity|].
    unfold remove_events at 1. simpl. f_equal. exact IHtr.
  - rewrite (Hforbidden e eq_refl). simpl.
    specialize (IH removed w1).
    destruct (run platform _ w1) as [[tr out] w2]. simpl in *.
    destruct IH as (IHcalls & -> & IHtr). split; [f_equal; exact IHcalls|].
    split; [reflexivity|].
    unfold remove_events at 1. simpl. do 2 f_equal. exact IHtr.
Qed.

(** Members that hold the role already make [add_loop] return at once. *)
Lemma add_loop_settled resolved updated :
  forallb (fun m => role_in kurs_role (roles m)) resolved = true ->
  add_loop interaction kurs_role reason resolved updated = Return updated.
Proof.
  induction resolved as [|member rest IH]; simpl; [done|].
  intros [Hm Hrest]%andb_prop. rewrite Hm. by apply IH.
Qed.

Lemma remove_loop_settled resolved removed :
  forallb (fun m => negb (role_in kurs_role (roles m))) resolved = true ->
  remove_loop interaction kurs_role reason resolved removed = Return removed.
Proof.
  induction resolved as [|member rest IH]; simpl; [done|].
  intros [Hm Hrest]%andb_prop. rewrite Hm. by apply IH.
Qed.

End EnrollmentFacts.

Lemma calls_app tr1 tr2 : calls (tr1 ++ tr2) = calls tr1 ++ calls tr2.
Proof. apply omap_app. Qed.

Lemma run_then_report {W : Type} (platform : W -> forall c : call, result (resp c) * W)
  (loop : prog (list str)) (text : list str -> str) (w : W) (names : list str) :
  outcome platform loop w = Ok names ->
  calls (trace platform (bind loop (fun l => finish (followup_send (text l)))) w)
  = calls (trace platform loop w) ++ [followup_send (text names)].
Proof.
  unfold outcome, trace. rewrite run_bind.
  destruct (run platform loop w) as [[tr out] w1]. intros Hout. simpl in Hout.
  subst out. rewrite run_finish. simpl. by rewrite calls_app.
Qed.

(** C7, as amended.  On a platform that lets a role request through or
    refuses it with [Forbidden]: a resolved member already in the target
    state gets no role request and is not counted; every resolved member
    not in the target state gets one role request, in order, and is
    counted exactly when that request goes through.  The run of the loop
    is nothing but these: for each such member the request, which in
    [add_member] is the request to add the course role and in
    [remove_member] the request to remove it, with the audit reason of
    the caller, and directly after a refused request the warning in the
    log that names the member.  The closing report is made from the
    members counted; over members that are all in the target state the
    loop is the program that returns at once, so a repeated command
    requests nothing; and [add_member] and [remove_member], once the role
    is found, are the resolution of the members, [defer], this loop and
    this report. *)
Theorem enrollment_per_member :
  forall (W : Type) (platform : W -> forall c : call, result (resp c) * W)
         (interaction : Interaction) (kurs_role : Role) (reason : option str)
         (resolved : list Member) (w : W),
    role_requests_ok_or_forbidden platform kurs_role ->
    let has_role := fun m : Member => role_in kurs_role (roles m) in
    let adding := add_loop interaction kurs_role reason resolved [] in
    let removing := remove_loop interaction kurs_role reason resolved [] in
    let added := role_changes (trace platform adding w) in
    let removed := role_changes (trace platform removing w) in
    (added.*1 = List.filter (fun m => negb (has_role m)) resolved
     /\ (forall m, has_role m = true -> m ∉ added.*1)
     /\ trace platform adding w = added ≫= add_events interaction kurs_role reason
     /\ outcome platform adding w = Ok (display_name <$> (List.filter snd added).*1)
     /\ calls (trace platform (bind adding add_report) w)
        = calls (trace platform adding w)
          ++ [followup_send (add_report_text (display_name <$> (List.filter snd added).*1))])
    /\ (removed.*1 = List.filter has_role resolved
        /\ (forall m, has_role m = false -> m ∉ removed.*1)
        /\ trace platform removing w = removed ≫= remove_events interaction kurs_role reason
        /\ outcome platform removing w = Ok (display_name <$> (List.filter snd removed).*1)
        /\ calls (trace platform (bind removing remove_report) w)
           = calls (trace platform removing w)
             ++ [followup_send
                   (remove_report_text (display_name <$> (List.filter snd removed).*1))])
    /\ (forallb has_role resolved = true -> adding = Return [])
    /\ (forallb (fun m => negb (has_role m)) resolved = true -> removing = Return [])
    /\ (forall (U : PyUnicode) (g : Guild) (kurs_name members : str),
          guild interaction = Some g ->
          _fetch_course_role g kurs_name = Some kurs_role ->
          add_member interaction kurs_name members reason
          = bind (_resolve_members g members) (fun found =>
              match found with
              | [] => finish (send_message (py "Ich konnte keine Mitglieder finden."))
              | _ => bind (await defer) (fun _ =>
                     bind (add_loop interaction kurs_role reason found []) add_report)
              end)
          /\ remove_member interaction kurs_name members reason
             = bind (_resolve_members g members) (fun found =>
                 match found with
                 | [] => finish (send_message (py "Ich konnte keine Mitglieder finden."))
                 | _ => bind (await defer) (fun _ =>
                        bind (remove_loop interaction kurs_role reason found [])
                          remove_report)
                 end)).
Proof.
  intros W platform interaction kurs_role reason resolved w Hcontract
    has_role adding removing added removed.
  destruct (add_loop_run platform interaction kurs_role reason resolved Hcontract [] w)
    as (Hadd_calls & Hadd_out & Hadd_trace).
  destruct (remove_loop_run platform interaction kurs_role reason resolved Hcontract [] w)
    as (Hrm_calls & Hrm_out & Hrm_trace).
  simpl in Hadd_out, Hrm_out.
  split; [|split; [|split; [|split]]].
  - split; [exact Hadd_calls|]. split; [|split; [exact Hadd_trace|split; [exact Hadd_out|]]].
    + intros m Hm Hin. subst added adding. rewrite Hadd_calls in Hin.
      apply list_elem_of_In, filter_In in Hin as [_ Hin]. subst has_role.
      simpl in Hm. by rewrite Hm in Hin.
    + by apply (run_then_report platform adding add_report_text).
  - split; [exact Hrm_calls|]. split; [|split; [exact Hrm_trace|split; [exact Hrm_out|]]].
    + intros m Hm Hin. subst removed removing. rewrite Hrm_calls in Hin.
      apply list_elem_of_In, filter_In in Hin as [_ Hin]. subst has_role.
      simpl in Hm. by rewrite Hm in Hin.
    + by apply (run_then_report platform removing remove_report_text).
  - apply add_loop_settled.
  - apply remove_loop_settled.
  - intros U g kurs_name members Hg Hrole. unfold add_member, remove_member.
    by rewrite Hg, Hrole.
Qed.

(** The teacher lacks the role "Algebra" and the student holds it.  On
    the platform that accepts every request the teacher gets the role and
    is counted, and the student loses it; on the platform that refuses
    role changes the request for the teacher is made, refused and
    logged, and nobody is counted. *)
Lemma enrollment_per_member_witness :
  let members := [sample_teacher; sample_student] in
  let adding := add_loop staff_interaction algebra_role None members [] in
  let removing := remove_loop staff_interaction algebra_role None members [] in
  ((role_changes (trace accepting adding tt)).*1 = [sample_teacher]
   /\ trace accepting adding tt
      = [Called (add_roles sample_teacher algebra_role (py "Aktion von tom (12)")) None]
   /\ outcome accepting adding tt = Ok [py "Tom"]
   /\ trace accepting removing tt
      = [Called (remove_roles sample_student algebra_role (py "Aktion von tom (12)")) None])
  /\ (trace refusing_role_changes adding tt
      = [Called (add_roles sample_teacher algebra_role (py "Aktion von tom (12)"))
           (Some Forbidden);
         Logged (py "Rolle konnte nicht an tom vergeben werden (fehlende Berechtigung)")]
      /\ outcome refusing_role_changes adding tt = Ok []).
Proof.
  intros members adding removing. split.
  - destruct (enrollment_per_member unit accepting staff_interaction algebra_role None
                members tt)
      as ((Hadded & _ & Htrace & Hout & _) & (_ & _ & Hremoved & _) & _).
    + intros w member audit e. split; intros H; discriminate H.
    + split; [exact Hadded|]. split; [|split; [exact Hout|]].
      * etransitivity; [exact Htrace|]. vm_compute. reflexivity.
      * etransitivity; [exact Hremoved|]. vm_compute. reflexivity.
  - destruct (enrollment_per_member unit refusing_role_changes staff_interaction
                algebra_role None members tt)
      as ((_ & _ & Htrace & Hout & _) & _).
    + intros w member audit e. split; intros H; injection H as <-; reflexivity.
    + split; [|exact Hout].
      etransitivity; [exact Htrace|]. vm_compute. reflexivity.
Defined.

(** C7, as first stated, fails where the platform refuses the request:
    the teacher does not hold the role "Algebra", the request to add it
    is made and refused with [Forbidden], and the command reports that
    nobody was added: the member is neither changed nor counted. *)
Lemma add_member_forbidden_not_counted :
  role_in algebra_role (roles sample_teacher) = false
  /\ run refusing_role_changes
       (@add_member Latin1 staff_interaction (py "algebra") (py "12") None) tt
     = ([Called defer None;
         Called (add_roles sample_teacher algebra_role (py "Aktion von tom (12)"))
           (Some Forbidden);
         Logged (py "Rolle konnte nicht an tom vergeben werden (fehlende Berechtigung)");
         Called (followup_send
                   (py "Niemand wurde hinzugefuegt (hatten evtl. schon die Rolle)."))
           None],
        Ok tt, tt).
Proof. split; [reflexivity|]. vm_compute. reflexivity. Qed.

(** ** Further properties of the parsers *)


Lemma re_split_from_chars delim s :
  forall cur in_run chunk c,
    chunk ∈ re_split_from delim cur in_run s -> c ∈ chunk -> c ∈ cur \/ c ∈ s.
Proof.
  induction s as [|a s IH]; intros cur in_run chunk c; simpl.
  - intros ->%list_elem_of_singleton. by left.
  - destruct (delim a).
    + destruct in_run.
      * intros Hin Hc. destruct (IH _ _ _ _ Hin Hc) as [?%elem_of_nil|?]; [done|].
        right. by right.
      * intros [->|Hin]%elem_of_cons Hc; [by left|].
        destruct (IH _ _ _ _ Hin Hc) as [?%elem_of_nil|?]; [done|]. right. by right.
    + intros Hin Hc. destruct (IH _ _ _ _ Hin Hc) as [[?|?%list_elem_of_singleton]%elem_of_app|?].
      * by left.
      * subst. right. by left.
      * right. by right.
Qed.

Section MemberIdSpec.
Context {U : PyUnicode}.

(** ASCII punctuation is no decimal digit. *)
Lemma ascii_not_decimal c : (c < 48)%N \/ (57 < c < 128)%N -> is_decimal c = false.
Proof.
  intros H. unfold is_decimal. rewrite decimal_ascii by lia.
  destruct ((48 <=? c) && (c <=? 57))%N eqn:E; [|done].
  apply andb_prop in E as [?%N.leb_le ?%N.leb_le]. lia.
Qed.

Lemma decimal_not_ascii_punct c : is_decimal c = true -> (48 <= c)%N /\ (c <= 57 \/ 128 <= c)%N.
Proof.
  intros H.
  destruct (N.lt_ge_cases c 48) as [?|?]; [rewrite ascii_not_decimal in H by lia; done|].
  split; [done|].
  destruct (N.le_gt_cases c 57) as [?|?]; [by left|].
  destruct (N.lt_ge_cases c 128) as [?|?]; [rewrite ascii_not_decimal in H by lia; done|].
  by right.
Qed.

(** The attempt of the pattern on a text that begins with [<@]. *)
Lemma match_mention_head t :
  match_mention (60%N :: 64%N :: t) =
    let after_bang :=
      match t with
      | c :: u => if (c =? 33)%N then (1%nat, u) else (0%nat, t)
      | [] => (0%nat, t)
      end in
    match takewhile is_decimal after_bang.2, dropwhile is_decimal after_bang.2 with
    | d :: ds, gt :: _ =>
        if (gt =? 62)%N
        then Some (d :: ds, (2 + after_bang.1 + length (d :: ds) + 1)%nat)
        else None
    | _, _ => None
    end.
Proof. unfold match_mention. by destruct t as [|c u]; [|destruct (c =? 33)%N]. Qed.

Lemma match_mention_spec s g len :
  match_mention s = Some (g, len) <->
  exists bang rest,
    s = py "<@" ++ bang ++ g ++ py ">" ++ rest
    /\ (bang = [] \/ bang = py "!")
    /\ g <> [] /\ forallb is_decimal g = true
    /\ len = (2 + length bang + length g + 1)%nat.
Proof.
  split.
  - destruct s as [|a [|b t]]; [done..|].
    destruct ((a =? 60) && (b =? 64))%N eqn:E;
      [|unfold match_mention; by rewrite E].
    apply andb_prop in E as [->%N.eqb_eq ->%N.eqb_eq]. rewrite match_mention_head.
    set (after_bang := match t with
                       | c :: u => if (c =? 33)%N then (1%nat, u) else (0%nat, t)
                       | [] => (0%nat, t)
                       end).
    cbv zeta.
    pose proof (takewhile_dropwhile is_decimal after_bang.2) as Hsplit.
    pose proof (takewhile_all is_decimal after_bang.2) as Hall.
    destruct (takewhile is_decimal after_bang.2) as [|d ds]; [done|].
    destruct (dropwhile is_decimal after_bang.2) as [|gt r]; [done|].
    destruct (gt =? 62)%N eqn:Egt; [|done]. apply N.eqb_eq in Egt as ->.
    intros [= <- <-].
    assert (exists bang, t = bang ++ after_bang.2 /\ (bang = [] \/ bang = py "!")
                         /\ after_bang.1 = length bang) as (bang & Ht & Hbang & Hlen).
    { subst after_bang.
      destruct t as [|c u]; [exists []; split; [done|]; split; [by left|done]|].
      destruct (c =? 33)%N eqn:Ec; [|exists []; split; [done|]; split; [by left|done]].
      apply N.eqb_eq in Ec as ->. exists (py "!"). split; [done|]. split; [by right|done]. }
    exists bang, r. rewrite Hlen. split; [|done].
    by rewrite Ht, <- Hsplit.
  - intros (bang & rest & -> & Hbang & Hne & Hall & ->).
    change (py "<@" ++ bang ++ g ++ py ">" ++ rest)
      with (60%N :: 64%N :: bang ++ g ++ 62%N :: rest).
    rewrite match_mention_head.
    assert (match bang ++ g ++ 62%N :: rest with
            | c :: u => if (c =? 33)%N then (1%nat, u) else (0%nat, bang ++ g ++ 62%N :: rest)
            | [] => (0%nat, bang ++ g ++ 62%N :: rest)
            end = (length bang, g ++ 62%N :: rest)) as ->.
    { destruct Hbang as [->| ->]; [|done]. destruct g as [|d ds]; [done|]. simpl in *.
      apply andb_prop in Hall as [Hd _].
      destruct (d =? 33)%N eqn:Ed; [|done]. apply N.eqb_eq in Ed as ->.
      by rewrite ascii_not_decimal in Hd by lia. }
    cbv zeta. change (_.2) with (g ++ 62%N :: rest). change (_.1) with (length bang).
    destruct (takewhile_app is_decimal g (62%N :: rest) Hall) as [-> ->].
    { apply ascii_not_decimal. lia. }
    by destruct g.
Qed.

(** Every match that [finditer] yields is a mention written in the
    text. *)
Lemma finditer_mention_sound s :
  forall skip g,
    g ∈ finditer_mention skip s ->
    exists before bang after,
      s = before ++ py "<@" ++ bang ++ g ++ py ">" ++ after
      /\ (bang = [] \/ bang = py "!")
      /\ g <> [] /\ forallb is_decimal g = true.
Proof.
  induction s as [|c t IH]; intros skip g; cbn [finditer_mention];
    [by intros ?%elem_of_nil|].
  assert (forall k, g ∈ finditer_mention k t ->
                    exists before bang after,
                      c :: t = before ++ py "<@" ++ bang ++ g ++ py ">" ++ after
                      /\ (bang = [] \/ bang = py "!")
                      /\ g <> [] /\ forallb is_decimal g = true) as Hlater.
  { intros k Hin. destruct (IH k g Hin) as (before & bang & after & -> & H).
    by exists (c :: before), bang, after. }
  destruct skip as [|k]; [|apply Hlater].
  destruct (match_mention (c :: t)) as [[g1 len]|] eqn:E; [|apply Hlater].
  intros [->|Hin]%elem_of_cons; [|by eapply Hlater].
  apply match_mention_spec in E as (bang & rest & Hs & Hbang & Hne & Hall & _).
  by exists [], bang, rest.
Qed.

(** The characters that a match passes over after its first hold no
    [<], so no mention written in the text begins inside a match. *)
Lemma match_mention_passes s g len :
  match_mention s = Some (g, len) ->
  forallb (fun c => negb (c =? 60)%N) (take (len - 1) (tail s)) = true.
Proof.
  intros (bang & rest & -> & Hbang & Hne & Hall & ->)%match_mention_spec.
  change (tail (py "<@" ++ bang ++ g ++ py ">" ++ rest))
    with (64%N :: bang ++ g ++ 62%N :: rest).
  replace (64%N :: bang ++ g ++ 62%N :: rest)
    with ((64%N :: bang ++ g ++ [62%N]) ++ rest)
    by (simpl; by rewrite <- !app_assoc).
  replace (2 + length bang + length g + 1 - 1)%nat
    with (length (64%N :: bang ++ g ++ [62%N]))
    by (simpl; rewrite !length_app; simpl; lia).
  rewrite take_app_length. simpl. rewrite !forallb_app. simpl.
  rewrite andb_true_r. apply andb_true_iff. split.
  - by destruct Hbang as [->| ->].
  - apply forallb_forall. intros c Hc. rewrite forallb_forall in Hall.
    apply Hall, decimal_not_ascii_punct in Hc. apply negb_true_iff, N.eqb_neq. lia.
Qed.

(** Every mention written in the text is a match that [finditer]
    yields. *)
Lemma finditer_mention_complete bang g after :
  (bang = [] \/ bang = py "!") -> g <> [] -> forallb is_decimal g = true ->
  forall before skip,
    forallb (fun c => negb (c =? 60)%N)
      (take skip (before ++ py "<@" ++ bang ++ g ++ py ">" ++ after)) = true ->
    g ∈ finditer_mention skip (before ++ py "<@" ++ bang ++ g ++ py ">" ++ after).
Proof.
  intros Hbang Hne Hall.
  assert (match_mention (py "<@" ++ bang ++ g ++ py ">" ++ after)
          = Some (g, (2 + length bang + length g + 1)%nat)) as Hmatch
    by (apply match_mention_spec; by exists bang, after).
  induction before as [|c b IH]; intros skip Hskip.
  - rewrite app_nil_l in *.
    destruct skip as [|k]; [|done].
    change (py "<@" ++ bang ++ g ++ py ">" ++ after)
      with (60%N :: (64%N :: bang ++ g ++ py ">" ++ after)) in *.
    cbn [finditer_mention]. rewrite Hmatch. apply list_elem_of_here.
  - change ((c :: b) ++ py "<@" ++ bang ++ g ++ py ">" ++ after)
      with (c :: (b ++ py "<@" ++ bang ++ g ++ py ">" ++ after)) in *.
    cbn [finditer_mention]. destruct skip as [|k].
    + destruct (match_mention (c :: b ++ py "<@" ++ bang ++ g ++ py ">" ++ after))
        as [[g1 len]|] eqn:E; [|by apply IH].
      apply list_elem_of_further, IH. by apply match_mention_passes in E.
    + apply IH. simpl in Hskip. by apply andb_prop in Hskip as [_ ?].
Qed.

Lemma finditer_mention_spec raw g :
  g ∈ finditer_mention 0 raw <->
  exists before bang after,
    raw = before ++ py "<@" ++ bang ++ g ++ py ">" ++ after
    /\ (bang = [] \/ bang = py "!")
    /\ g <> [] /\ forallb is_decimal g = true.
Proof.
  split; [apply finditer_mention_sound|].
  intros (before & bang & after & -> & Hbang & Hne & Hall).
  by apply finditer_mention_complete.
Qed.

End MemberIdSpec.

Section TokenSpec.
Context (delim : N -> bool).

(** A piece of [re.split] that is not empty is the piece under
    construction, carried on to the next delimiter or to the end, or a
    run of other characters between a delimiter and the next delimiter or
    the end. *)
Lemma re_split_from_spec s :
  forall cur in_run chunk,
    chunk <> [] -> (in_run = true -> cur = []) ->
    chunk ∈ re_split_from delim cur in_run s <->
    (exists mid after,
        s = mid ++ after /\ chunk = cur ++ mid
        /\ forallb (fun c => negb (delim c)) mid = true
        /\ match after with c :: _ => delim c = true | [] => True end)
    \/ (exists before d token after,
          s = before ++ d :: token ++ after /\ chunk = token /\ delim d = true
          /\ forallb (fun c => negb (delim c)) token = true
          /\ match after with c :: _ => delim c = true | [] => True end).
Proof.
  induction s as [|c t IH]; intros cur in_run chunk Hne Hrun; cbn [re_split_from].
  - rewrite list_elem_of_singleton. split.
    + intros ->. left. exists [], []. by rewrite (app_nil_r cur).
    + intros [(mid & after & Hs & -> & _)|(before & d & token & after & Hs & _)].
      * symmetry in Hs. apply app_eq_nil in Hs as [-> _]. by rewrite app_nil_r.
      * by destruct before.
  - destruct (delim c) eqn:Ec.
    + assert (chunk ∈ (if in_run then re_split_from delim [] true t
                       else cur :: re_split_from delim [] true t)
              <-> (in_run = false /\ chunk = cur)
                  \/ chunk ∈ re_split_from delim [] true t) as ->.
      { destruct in_run.
        - split; [by right|]. by intros [[? _]|?].
        - rewrite elem_of_cons. split.
          + intros [->|?]; [by left|by right].
          + intros [[_ ->]|?]; [by left|by right]. }
      rewrite (IH [] true chunk Hne (fun _ => eq_refl)). split.
      * intros [[_ ->]|[(mid & after & -> & -> & Hmid & Hafter)
                        |(before & d & token & after & -> & -> & Hd & Htok & Hafter)]].
        -- left. exists [], (c :: t). by rewrite app_nil_r.
        -- right. by exists [], c, mid, after.
        -- right. by exists (c :: before), d, token, after.
      * intros [(mid & after & Hs & -> & Hmid & Hafter)
               |(before & d & token & after & Hs & -> & Hd & Htok & Hafter)].
        -- destruct mid as [|m mid'].
           ++ rewrite app_nil_r in *. left. split; [|done].
              destruct in_run; [|done]. by rewrite Hrun in Hne.
           ++ injection Hs as <- _. simpl in Hmid. by rewrite Ec in Hmid.
        -- right. destruct before as [|b before'].
           ++ injection Hs as _ ->. left. by exists token, after.
           ++ injection Hs as _ ->. right. by exists before', d, token, after.
    + rewrite (IH (cur ++ [c]) false chunk Hne); [|done]. split.
      * intros [(mid & after & -> & -> & Hmid & Hafter)
               |(before & d & token & after & -> & -> & Hd & Htok & Hafter)].
        -- left. exists (c :: mid), after. rewrite <- app_assoc. simpl. by rewrite Ec.
        -- right. by exists (c :: before), d, token, after.
      * intros [(mid & after & Hs & -> & Hmid & Hafter)
               |(before & d & token & after & Hs & -> & Hd & Htok & Hafter)].
        -- destruct mid as [|m mid'].
           ++ simpl in Hs. subst after. by rewrite Ec in Hafter.
           ++ injection Hs as <- ->. left. exists mid', after. rewrite <- app_assoc.
              simpl in Hmid. by apply andb_prop in Hmid as [_ ?].
        -- right. destruct before as [|b before'].
           ++ injection Hs as -> _. by rewrite Ec in Hd.
           ++ injection Hs as _ ->. by exists before', d, token, after.
Qed.

(** The pieces of [re.split] that are not empty are the tokens of the
    text. *)
Lemma re_split_spec s chunk :
  chunk <> [] ->
  chunk ∈ re_split delim s <->
  exists before after,
    s = before ++ chunk ++ after
    /\ forallb (fun c => negb (delim c)) chunk = true
    /\ match last before with Some c => delim c = true | None => True end
    /\ match after with c :: _ => delim c = true | [] => True end.
Proof.
  intros Hne. unfold re_split. rewrite (re_split_from_spec s [] false chunk Hne); [|done].
  split.
  - intros [(mid & after & -> & -> & Hmid & Hafter)
           |(before & d & token & after & -> & -> & Hd & Htok & Hafter)].
    + by exists [], after.
    + exists (before ++ [d]), after. rewrite <- app_assoc, last_snoc. done.
  - intros (before & after & -> & Htok & Hbefore & Hafter).
    destruct (last before) as [d|] eqn:El.
    + apply last_Some in El as [b ->]. right. exists b, d, chunk, after.
      by rewrite <- app_assoc.
    + apply last_None in El as ->. left. by exists chunk, after.
Qed.

End TokenSpec.

Section DigitRuns.
Context {U : PyUnicode}.

Lemma digit_runs_fit_later before s :
  forall run, 0 <= run -> digit_runs_fit run (before ++ s) = true ->
              exists run', 0 <= run' /\ digit_runs_fit run' s = true.
Proof.
  induction before as [|c b IH]; intros run Hrun; simpl; [by exists run|].
  destruct (is_decimal c).
  - intros [_ H]%andb_prop. apply (IH (run + 1)); [lia|done].
  - apply IH. lia.
Qed.

Lemma digit_runs_fit_run digits after :
  forallb is_decimal digits = true -> digits <> [] ->
  forall run, digit_runs_fit run (digits ++ after) = true ->
              run + Z.of_nat (length digits) <= MAX_STR_DIGITS.
Proof.
  induction digits as [|d ds IH]; intros Hall Hne run; [done|].
  simpl in Hall. apply andb_prop in Hall as [Hd Hds].
  cbn [digit_runs_fit app]. rewrite Hd. intros [Hfit Hrest]%andb_prop.
  apply Z.leb_le in Hfit. destruct ds as [|d' ds'].
  - simpl. lia.
  - specialize (IH Hds ltac:(done) (run + 1) Hrest).
    rewrite length_cons, Nat2Z.inj_succ. lia.
Qed.

(** In a text whose digit runs fit, [int] converts every run of decimal
    digits. *)
Lemma digit_runs_fit_int10 raw before digits after :
  digit_runs_fit 0 raw = true -> raw = before ++ digits ++ after ->
  digits <> [] -> forallb is_decimal digits = true ->
  is_Some (int10 digits).
Proof.
  intros Hfit -> Hne Hall.
  destruct (digit_runs_fit_later before (digits ++ after) 0 ltac:(done) Hfit)
    as (run & Hrun & Hfit').
  pose proof (digit_runs_fit_run digits after Hall Hne run Hfit').
  apply int10_decimal; [done|done|lia].
Qed.

(** With at most 4300 characters the digit runs fit. *)
Lemma short_digit_runs_fit (s : str) :
  forall run, 0 <= run -> run + Z.of_nat (length s) <= MAX_STR_DIGITS ->
              digit_runs_fit run s = true.
Proof.
  induction s as [|c t IH]; intros run Hrun Hlen; [done|].
  rewrite length_cons, Nat2Z.inj_succ in Hlen. cbn [digit_runs_fit].
  destruct (is_decimal c).
  - apply andb_true_iff. split; [apply Z.leb_le; lia|apply IH; lia].
  - apply IH; [done|]. unfold MAX_STR_DIGITS in *. lia.
Qed.

End DigitRuns.

Lemma isdigit_all_decimal {U : PyUnicode} (chunk : str) :
  digits_are_decimal chunk -> isdigit chunk = true ->
  chunk <> [] /\ forallb is_decimal chunk = true.
Proof.
  intros Hdec Hdigit. unfold isdigit in Hdigit.
  destruct chunk as [|c t] eqn:E; [done|]. rewrite <- E in *.
  split; [by subst|].
  apply forallb_forall. intros x Hx. rewrite forallb_forall in Hdigit.
  unfold is_decimal. destruct (Hdec x) as [d ->]; [by apply list_elem_of_In|by apply Hdigit|done].
Qed.

Lemma isascii_digits_are_decimal {U : PyUnicode} (s : str) :
  isascii s = true -> digits_are_decimal s.
Proof.
  unfold isascii. rewrite forallb_forall. intros Hascii c Hc Hdigit.
  apply list_elem_of_In, Hascii, N.ltb_lt in Hc.
  rewrite isdigit_ascii in Hdigit by done. rewrite decimal_ascii by done.
  rewrite Hdigit. by eexists.
Qed.

(** On every text in which the characters accepted by [str.isdigit] are
    decimal digits and no run of digits is longer than the 4300 that
    [int] converts, and so on every ASCII text of at most 4300
    characters, [_extract_member_ids] returns a set, and a number is in
    it exactly when it is written in the text as a mention, [<@] or [<@!]
    before its digits and [>] behind, or as a token of digits between
    commas, white space and the ends of the text. *)
Theorem extract_member_ids_union :
  forall (U : PyUnicode) (raw : str),
    digits_are_decimal raw ->
    digit_runs_fit 0 raw = true ->
    exists ids, _extract_member_ids raw = Ok ids
      /\ forall n, n ∈ ids <-> mention_number raw n \/ token_number raw n.
Proof.
  intros U raw Hdec Hfit.
  assert (forall chunk, chunk ∈ re_split comma_or_space raw -> isdigit chunk = true ->
            chunk <> [] /\ forallb is_decimal chunk = true) as Hchunk.
  { intros chunk Hin. apply isdigit_all_decimal. intros c Hc. apply Hdec.
    by destruct (re_split_from_chars _ _ _ _ _ _ Hin Hc) as [?%elem_of_nil|?]. }
  destruct (extract_member_ids_ok raw) as (ids & Hids & Hmem).
  - intros g (before & bang & after & -> & _ & Hne & Hall)%finditer_mention_spec.
    eapply (digit_runs_fit_int10 _ (before ++ py "<@" ++ bang) g (py ">" ++ after));
      [exact Hfit| |done|done].
    by rewrite <- !app_assoc.
  - intros chunk Hin Hdigit. destruct (Hchunk chunk Hin Hdigit) as [Hne Hall].
    apply re_split_spec in Hin as (before & after & -> & _); [|done].
    by eapply (digit_runs_fit_int10 _ before chunk after).
  - exists ids. split; [done|]. intros n. rewrite Hmem. unfold mention_number, token_number.
    split.
    + intros [(g & Hg & Hn)|(chunk & Hin & Hdigit & Hn)].
      * left. apply finditer_mention_spec in Hg
          as (before & bang & after & -> & Hbang & Hne & Hall).
        by exists before, bang, g, after.
      * right. destruct (Hchunk chunk Hin Hdigit) as [Hne _].
        apply re_split_spec in Hin as (before & after & -> & Htok & Hb & Ha); [|done].
        by exists before, chunk, after.
    + intros [(before & bang & digits & after & -> & Hbang & Hne & Hall & Hn)
             |(before & token & after & -> & Htok & Hb & Ha & Hdigit & Hn)].
      * left. exists digits. split; [|done]. apply finditer_mention_spec.
        by exists before, bang, after.
      * right. exists token. split; [|done]. apply re_split_spec.
        -- intros ->. done.
        -- by exists before, after.
Qed.

(** The text is ASCII and short.  The number 42 is written only as a
    mention with [!], 123 only as one without, 456 and 789 as tokens. *)
Lemma extract_member_ids_union_witness :
  exists ids,
    @_extract_member_ids Latin1 (py "<@123> 456,789 <@!42>") = Ok ids
    /\ ids = {[ 123; 456; 789; 42 ]}
    /\ (forall n, n ∈ ids <->
                  @mention_number Latin1 (py "<@123> 456,789 <@!42>") n
                  \/ @token_number Latin1 (py "<@123> 456,789 <@!42>") n)
    /\ @mention_number Latin1 (py "<@123> 456,789 <@!42>") 42.
Proof.
  destruct (extract_member_ids_union Latin1 (py "<@123> 456,789 <@!42>"))
    as (ids & Hids & Hmem).
  - apply isascii_digits_are_decimal. reflexivity.
  - reflexivity.
  - exists ids. split; [exact Hids|]. split; [|split; [exact Hmem|]].
    + assert (@_extract_member_ids Latin1 (py "<@123> 456,789 <@!42>")
              = Ok {[ 123; 456; 789; 42 ]}) as Hval by (vm_compute; reflexivity).
      rewrite Hval in Hids. injection Hids as <-. reflexivity.
    + exists (py "<@123> 456,789 "), (py "!"), (py "42"), [].
      split; [reflexivity|]. split; [right; reflexivity|]. split; [discriminate|].
      split; reflexivity.
Defined.

(** * Further properties of the code *)

(** ** The checks, exactly *)

Lemma member_has_role_spec member rid :
  _member_has_role member rid = true <-> rid <> 0 /\ rid ∈ role_id <$> roles member.
Proof.
  unfold _member_has_role. rewrite andb_true_iff, negb_true_iff, Z.eqb_neq.
  by rewrite existsb_role_id.
Qed.

(** The moderator check passes for a guild member with one of the three
    permissions or with the configured (non-zero) Moderator role, and for
    nobody else; the course-staff check passes for a guild member with
    the administrator or manage-guild permission or with the configured
    Moderator or Teacher role, and for nobody else.  A check that does not
    pass raises [CheckFailure] with its own message.  So the permission
    to moderate members alone makes a moderator who is not course staff,
    and an id of 0 in the configuration stands for no role at all. *)
Theorem authorization_exact :
  forall (MODERATOR_ROLE_ID TEACHER_ROLE_ID : Z) (interaction : Interaction),
    let moderator := (_require_moderator MODERATOR_ROLE_ID interaction).2 in
    let staff := (_require_course_staff MODERATOR_ROLE_ID TEACHER_ROLE_ID interaction).2 in
    let holds := fun (member : Member) (rid : Z) =>
                   rid <> 0 /\ rid ∈ role_id <$> roles member in
    (moderator = Ok true <->
       exists member, user interaction = GuildMember member
         /\ (administrator (guild_permissions member) = true
             \/ manage_guild (guild_permissions member) = true
             \/ moderate_members (guild_permissions member) = true
             \/ holds member MODERATOR_ROLE_ID))
    /\ (staff = Ok true <->
          exists member, user interaction = GuildMember member
            /\ (administrator (guild_permissions member) = true
                \/ manage_guild (guild_permissions member) = true
                \/ holds member MODERATOR_ROLE_ID
                \/ holds member TEACHER_ROLE_ID))
    /\ (moderator = Ok true
        \/ moderator = Raise (CheckFailure (py "Dir fehlen die Moderationsrechte.")))
    /\ (staff = Ok true
        \/ staff = Raise (CheckFailure
                            (py "Nur Moderator:innen oder Lehrer:innen duerfen das tun."))).
Proof.
  intros M T interaction moderator staff holds.
  subst moderator staff. unfold _require_moderator, _require_course_staff.
  destruct (user interaction) as [uid name|member] eqn:Eu.
  { simpl. repeat split; try (by right); try done; by intros (m & [=] & _). }
  pose proof (has_role_obs_value member M) as HM.
  pose proof (has_any_role_obs_value member [M; T]) as HMT.
  pose proof (member_has_role_spec member M) as HsM.
  pose proof (member_has_role_spec member T) as HsT.
  destruct (has_role_obs member M) as [t1 b1].
  destruct (has_any_role_obs member [M; T]) as [t2 b2].
  cbn [snd] in HM, HMT. simpl in HMT. rewrite orb_false_r in HMT.
  destruct (guild_permissions member) as [a mg mm] eqn:Ep. simpl.
  split; [|split; [|split]].
  - split.
    + intros H. exists member. split; [done|]. rewrite Ep. simpl.
      destruct a; [by left|]. destruct mg; [by right; left|].
      destruct mm; [by right; right; left|]. simpl in H.
      destruct b1; [|done]. right. right. right. apply HsM. by rewrite <- HM.
    + intros (m & [= <-] & H). rewrite Ep in H. simpl in H.
      destruct a; [done|]. destruct mg; [done|]. destruct mm; [done|]. simpl.
      destruct H as [H|[H|[H|H]]]; try done.
      apply HsM in H. rewrite <- HM in H. by rewrite H.
  - split.
    + intros H. exists member. split; [done|]. rewrite Ep. simpl.
      destruct a; [by left|]. destruct mg; [by right; left|]. simpl in H.
      destruct b2; [|done]. symmetry in HMT. apply orb_true_iff in HMT as [H1|H2].
      * right. right. left. by apply HsM.
      * right. right. right. by apply HsT.
    + intros (m & [= <-] & H). rewrite Ep in H. simpl in H.
      destruct a; [done|]. destruct mg; [done|]. simpl.
      assert (b2 = true) as ->; [|done]. rewrite HMT. apply orb_true_iff.
      destruct H as [H|[H|[H|H]]]; try done; [left; by apply HsM|right; by apply HsT].
  - destruct a; [by left|]. destruct mg; [by left|]. destruct mm; [by left|]. simpl.
    destruct b1; [by left|by right].
  - destruct a; [by left|]. destruct mg; [by left|]. simpl.
    destruct b2; [by left|by right].
Qed.

(** ** [_fetch_course_role] and [_get_course_category] *)

Section LookupFacts.
Context {U : PyUnicode}.

Lemma find_first {A} (f : A -> bool) (l : list A) :
  match find f l with
  | Some x => f x = true
              /\ exists before after, l = before ++ x :: after
                                      /\ forallb (fun y => negb (f y)) before = true
  | None => forallb (fun y => negb (f y)) l = true
  end.
Proof.
  induction l as [|a l IH]; simpl; [done|].
  destruct (f a) eqn:Ea.
  - split; [done|]. by exists [], l.
  - destruct (find f l) as [x|]; simpl; [|done].
    destruct IH as (Hx & before & after & -> & Hb). split; [done|].
    exists (a :: before), after. simpl. by rewrite Ea.
Qed.

End LookupFacts.

(** [_fetch_course_role] returns the first role of the guild whose
    case-folded name equals the case-folded, normalized query, or [None]
    when no role of the guild does; the roles before the one returned do
    not match.  The query may be given normalized or not. *)
Theorem fetch_course_role_first_match :
  forall (U : PyUnicode) (g : Guild) (kurs_name : str),
    let wanted := str_casefold (_normalize_course_name kurs_name) in
    let matches := fun r : Role => bool_decide (str_casefold (role_name r) = wanted) in
    match _fetch_course_role g kurs_name with
    | Some role =>
        str_casefold (role_name role) = wanted
        /\ exists before after,
             guild_roles g = before ++ role :: after
             /\ forallb (fun r => negb (matches r)) before = true
    | None => forallb (fun r => negb (matches r)) (guild_roles g) = true
    end
    /\ _fetch_course_role g (_normalize_course_name kurs_name)
       = _fetch_course_role g kurs_name.
Proof.
  intros U g kurs_name wanted matches. split.
  - unfold _fetch_course_role. fold wanted. fold matches.
    pose proof (find_first matches (guild_roles g)) as H.
    destruct (find matches (guild_roles g)) as [role|]; [|done].
    destruct H as [Hm H]. split; [|done]. subst matches. simpl in Hm.
    by apply bool_decide_eq_true in Hm.
  - unfold _fetch_course_role. by rewrite normalize_course_name_idempotent.
Qed.

(** [_get_course_category] returns a channel only when the configured id
    is not 0 and the first cached channel with that id is a category,
    and then it returns that channel; otherwise it raises [RuntimeError],
    asking for the configuration when the id is 0 and saying that the id
    is no category in the other cases. *)
Theorem get_course_category_cases :
  forall (KURS_CATEGORY_ID : Z) (g : Guild),
    match _get_course_category KURS_CATEGORY_ID g with
    | Ok category =>
        KURS_CATEGORY_ID <> 0
        /\ get_channel g KURS_CATEGORY_ID = Some category
        /\ channel_id category = KURS_CATEGORY_ID
        /\ channel_kind category = CategoryChannel
        /\ category ∈ guild_channels g
    | Raise e =>
        (KURS_CATEGORY_ID = 0
         /\ e = RuntimeError (py "Bitte KURS_CATEGORY_ID konfigurieren."))
        \/ (KURS_CATEGORY_ID <> 0
            /\ e = RuntimeError (py "Die angegebene KURS_CATEGORY_ID ist keine Kategorie.")
            /\ match get_channel g KURS_CATEGORY_ID with
               | Some other => channel_kind other <> CategoryChannel
               | None => forallb (fun c => negb (channel_id c =? KURS_CATEGORY_ID))
                           (guild_channels g) = true
               end)
    end.
Proof.
  intros K g. unfold _get_course_category, get_channel.
  destruct (K =? 0) eqn:EK; [left; by apply Z.eqb_eq in EK|].
  apply Z.eqb_neq in EK.
  pose proof (find_first (fun c => channel_id c =? K) (guild_channels g)) as H.
  destruct (find _ (guild_channels g)) as [category|].
  - destruct H as (Hid & before & after & Hl & _). apply Z.eqb_eq in Hid.
    destruct (channel_kind category) eqn:Ek.
    + repeat split; try done. rewrite Hl. apply elem_of_app. right. by left.
    + right. done.
    + right. done.
  - right. done.
Qed.

(** ** What the handlers request *)

Lemma all_calls_bind {A B} (P : call -> Prop) (p : prog A) (f : A -> prog B) :
  all_calls P p -> (forall a, all_calls P (f a)) -> all_calls P (bind p f).
Proof.
  intros Hp Hf. induction p as [a|e|c k IH|line k IH]; simpl in *; [done|done| |by apply IH].
  destruct Hp as [Hc Hk]. split; [done|]. intros r. by apply IH.
Qed.

Lemma all_calls_await (P : call -> Prop) c : P c -> all_calls P (await c).
Proof. intros Hc. simpl. split; [done|]. by intros [x|e]. Qed.

Lemma all_calls_finish (P : call -> Prop) c : P c -> all_calls P (finish c).
Proof. intros Hc. apply all_calls_bind; [by apply all_calls_await|done]. Qed.

Lemma all_calls_mono {A} (P Q : call -> Prop) (p : prog A) :
  (forall c, P c -> Q c) -> all_calls P p -> all_calls Q p.
Proof.
  intros HPQ. induction p as [a|e|c k IH|line k IH]; simpl; [done|done| |done].
  intros [Hc Hk]. split; [by apply HPQ|]. intros r. by apply IH.
Qed.

(** What holds of every request a program can make holds of the requests
    of each of its runs. *)
Lemma all_calls_run {A W} (P : call -> Prop) (p : prog A)
  (platform : W -> forall c : call, result (resp c) * W) :
  all_calls P p -> forall w, Forall P (calls (trace platform p w)).
Proof.
  unfold trace. induction p as [a|e|c k IH|line k IH]; intros Hp w; simpl in *.
  - constructor.
  - constructor.
  - destruct Hp as [Hc Hk]. destruct (platform w c) as [r w1].
    specialize (IH r (Hk r) w1).
    destruct (run platform (k r) w1) as [[tr out] w2]. simpl in *. by constructor.
  - specialize (IH Hp w). by destruct (run platform k w) as [[tr out] w1].
Qed.

Lemma timeout_all_calls {U : PyUnicode} interaction member dauer reason :
  all_calls (timeout_request interaction member dauer reason)
    (timeout interaction member dauer reason).
Proof.
  unfold timeout. destruct (_parse_duration dauer) as [[seconds|]|err] eqn:E;
    [|by apply all_calls_finish|done].
  destruct seconds as [|p|p]; [by apply all_calls_finish| |].
  - by destruct (MAX_TIMEOUT_SECONDS <? Z.pos p) eqn:El; [apply all_calls_finish|].
  - by destruct (MAX_TIMEOUT_SECONDS <? Z.neg p) eqn:El; [apply all_calls_finish|].
Qed.

(** In every run of [timeout], on every platform, each request is a
    reply or the timeout of the member named in the command, for the
    parsed number of seconds, which is not 0 and at most 28 days, with
    the audit reason of the caller: the command touches no role, no
    channel and no other member. *)
Theorem timeout_requests :
  forall (U : PyUnicode) (interaction : Interaction) (member : Member) (dauer : str)
         (reason : option str)
         (W : Type) (platform : W -> forall c : call, result (resp c) * W) (w : W),
    Forall (timeout_request interaction member dauer reason)
      (calls (trace platform (timeout interaction member dauer reason) w)).
Proof. intros. apply all_calls_run, timeout_all_calls. Qed.

Lemma resolve_loop_all_calls (P : call -> Prop) g ids :
  (forall mid, P (fetch_member mid)) ->
  forall resolved, all_calls P (resolve_loop g ids resolved).
Proof.
  intros HP. induction ids as [|mid rest IH]; intros resolved; simpl; [done|].
  destruct (get_member g mid) as [member|]; [apply IH|].
  simpl. split; [apply HP|]. intros [member|e]; [apply IH|]. destruct e; try done.
  simpl. apply IH.
Qed.

Lemma add_loop_all_calls (P : call -> Prop) interaction kurs_role reason resolved :
  (forall m, role_in kurs_role (roles m) = false ->
             P (add_roles m kurs_role (_format_reason interaction reason))) ->
  forall updated, all_calls P (add_loop interaction kurs_role reason resolved updated).
Proof.
  intros HP. induction resolved as [|member rest IH]; intros updated; simpl; [done|].
  destruct (role_in kurs_role (roles member)) eqn:E; [apply IH|].
  simpl. split; [by apply HP|]. intros [x|e]; [apply IH|]. destruct e; try done.
  simpl. apply IH.
Qed.

Lemma remove_loop_all_calls (P : call -> Prop) interaction kurs_role reason resolved :
  (forall m, role_in kurs_role (roles m) = true ->
             P (remove_roles m kurs_role (_format_reason interaction reason))) ->
  forall removed, all_calls P (remove_loop interaction kurs_role reason resolved removed).
Proof.
  intros HP. induction resolved as [|member rest IH]; intros removed; simpl; [done|].
  destruct (role_in kurs_role (roles member)) eqn:E; simpl; [|apply IH].
  split; [by apply HP|]. intros [x|e]; [apply IH|]. destruct e; try done.
  simpl. apply IH.
Qed.

(** In every run of [add_member], on every platform, each request is a
    reply, [defer], the fetch of a member, or the addition of the course
    role that [_fetch_course_role] found to a member whose cached roles do
    not contain it, with the audit reason of the caller; [remove_member]
    likewise only removes that role from members whose cached roles
    contain it.  Neither creates or deletes anything, times anybody out,
    or touches another role. *)
Theorem enrollment_requests :
  forall (U : PyUnicode) (interaction : Interaction) (kurs_name members : str)
         (reason : option str)
         (W : Type) (platform : W -> forall c : call, result (resp c) * W) (w : W),
    Forall (enrollment_request true interaction kurs_name reason)
      (calls (trace platform (add_member interaction kurs_name members reason) w))
    /\ Forall (enrollment_request false interaction kurs_name reason)
         (calls (trace platform (remove_member interaction kurs_name members reason) w)).
Proof.
  intros U interaction kurs_name members reason W platform w. split.
  - apply all_calls_run. unfold add_member.
    destruct (guild interaction) as [g|] eqn:Eg; [|by apply all_calls_finish].
    destruct (_fetch_course_role g kurs_name) as [kurs_role|] eqn:Er;
      [|by apply all_calls_finish].
    apply all_calls_bind.
    { unfold _resolve_members. destruct (_extract_member_ids members); [|done].
      by apply resolve_loop_all_calls. }
    intros [|m resolved]; [by apply all_calls_finish|].
    apply all_calls_bind; [by apply all_calls_await|]. intros _.
    apply all_calls_bind; [|intros updated; by apply all_calls_finish].
    apply add_loop_all_calls. intros m' Hm'. simpl. repeat split; try done. by exists g.
  - apply all_calls_run. unfold remove_member.
    destruct (guild interaction) as [g|] eqn:Eg; [|by apply all_calls_finish].
    destruct (_fetch_course_role g kurs_name) as [kurs_role|] eqn:Er;
      [|by apply all_calls_finish].
    apply all_calls_bind.
    { unfold _resolve_members. destruct (_extract_member_ids members); [|done].
      by apply resolve_loop_all_calls. }
    intros [|m resolved]; [by apply all_calls_finish|].
    apply all_calls_bind; [by apply all_calls_await|]. intros _.
    apply all_calls_bind; [|intros removed; by apply all_calls_finish].
    apply remove_loop_all_calls. intros m' Hm'. simpl. repeat split; try done. by exists g.
Qed.

(** ** [create_kurs], step by step *)

(** [create_kurs], case by case, on every platform.  Outside a guild,
    with a name that normalizes to nothing, with a name that a role
    already carries, and without a usable course category, no run changes
    the guild.  In every other case the command acknowledges with
    [defer]; when that raises, it ends with the exception after this one
    request.  Otherwise it requests the role, named by the normalized
    name and mentionable; when that raises, it ends with the exception,
    nothing else requested.  Otherwise it requests the channel, named by
    the slug, in the category found, with the overwrites built for the
    role the platform returned; when that raises, it ends with the
    exception, and when it goes through the closing follow-up names the
    course, the role and the channel.  Every request carries the audit
    reason of the caller. *)
Theorem create_kurs_steps :
  forall (U : PyUnicode) (KURS_CATEGORY_ID MODERATOR_ROLE_ID TEACHER_ROLE_ID : Z)
         (interaction : Interaction) (name : str) (reason : option str)
         (W : Type) (platform : W -> forall c : call, result (resp c) * W) (w : W),
    let handler := create_kurs KURS_CATEGORY_ID MODERATOR_ROLE_ID TEACHER_ROLE_ID
                     interaction name reason in
    let tr := trace platform handler w in
    let kurs_name := _normalize_course_name name in
    let audit := _format_reason interaction reason in
    match guild interaction with
    | None => mutations tr = []
    | Some g =>
        match kurs_name, _fetch_course_role g kurs_name,
              _get_course_category KURS_CATEGORY_ID g with
        | _ :: _, None, Ok category =>
            match platform w defer with
            | (Raise e, _) =>
                tr = [Called defer (Some e)] /\ outcome platform handler w = Raise e
            | (Ok _, w1) =>
                match platform w1 (create_role kurs_name true audit) with
                | (Raise e, _) =>
                    tr = [Called defer None;
                          Called (create_role kurs_name true audit) (Some e)]
                    /\ outcome platform handler w = Raise e
                | (Ok kurs_role, w2) =>
                    let creation :=
                      create_text_channel (_slugify kurs_name) category
                        (kurs_overwrites MODERATOR_ROLE_ID TEACHER_ROLE_ID g kurs_role)
                        audit in
                    match platform w2 creation with
                    | (Raise e, _) =>
                        tr = [Called defer None;
                              Called (create_role kurs_name true audit) None;
                              Called creation (Some e)]
                        /\ outcome platform handler w = Raise e
                    | (Ok channel, _) =>
                        calls tr
                        = [defer; create_role kurs_name true audit; creation;
                           followup_send (kurs_created_text kurs_name kurs_role channel)]
                        /\ mutations tr = [create_role kurs_name true audit; creation]
                    end
                end
            end
        | _, _, _ => mutations tr = []
        end
    end.
Proof.
  intros U K M T interaction name reason W platform w handler tr kurs_name audit.
  subst handler tr. unfold mutations, trace, outcome, create_kurs.
  destruct (guild interaction) as [g|] eqn:Eg; simpl.
  2: { by destruct (platform w _) as [[[]|e0] w1]. }
  fold kurs_name.
  destruct kurs_name as [|c rest] eqn:En; simpl.
  { by destruct (platform w _) as [[[]|e0] w1]. }
  destruct (_fetch_course_role g (c :: rest)) as [existing_role|] eqn:Er; simpl.
  { destruct (platform w defer) as [[[]|e0] w1]; simpl; [|done].
    by destruct (platform w1 _) as [[[]|e1] w2]. }
  destruct (_get_course_category K g) as [category|err] eqn:Ec; simpl.
  2: { destruct (platform w defer) as [[[]|e0] w1]; simpl; [|done].
       destruct err; simpl; try done. by destruct (platform w1 _) as [[[]|e1] w2]. }
  fold audit.
  destruct (platform w defer) as [[[]|e0] w1]; simpl; [|done].
  destruct (platform w1 (create_role (c :: rest) true audit)) as [[kurs_role|e1] w2];
    simpl; [|done].
  destruct (platform w2 (create_text_channel _ _ _ _)) as [[channel|e2] w3]; simpl; [|done].
  by destruct (platform w3 _) as [[[]|e3] w4].
Qed.

(** ** The overwrites of the course channel *)

Lemma dict_get_set_same d role value : dict_get (dict_set d role value) role = Some value.
Proof.
  unfold dict_get. induction d as [|[r v] d IH]; simpl.
  - by rewrite Z.eqb_refl.
  - destruct (role_id r =? role_id role) eqn:E; simpl; rewrite E; [done|exact IH].
Qed.

Lemma dict_get_set_other d role value other :
  role_id other <> role_id role ->
  dict_get (dict_set d role value) other = dict_get d other.
Proof.
  intros Hne. unfold dict_get. induction d as [|[r v] d IH]; simpl.
  - assert ((role_id role =? role_id other) = false) as -> by (apply Z.eqb_neq; lia). done.
  - destruct (role_id r =? role_id role) eqn:E; simpl.
    + apply Z.eqb_eq in E.
      assert ((role_id r =? role_id other) = false) as -> by (apply Z.eqb_neq; lia). done.
    + destruct (role_id r =? role_id other); [done|exact IH].
Qed.

Lemma dict_set_keys d role value :
  NoDup ((fun entry => role_id entry.1) <$> d) ->
  NoDup ((fun entry => role_id entry.1) <$> dict_set d role value)
  /\ forall k, k ∈ (fun entry => role_id entry.1) <$> dict_set d role value
               <-> k = role_id role \/ k ∈ (fun entry => role_id entry.1) <$> d.
Proof.
  induction d as [|[r v] d IH]; simpl; intros Hnd.
  - split; [apply NoDup_singleton|]. intros k. rewrite list_elem_of_singleton.
    split; [by left|]. by intros [?|?%elem_of_nil].
  - apply NoDup_cons in Hnd as [Hr Hd]. destruct (IH Hd) as [IHnd IHin].
    destruct (role_id r =? role_id role) eqn:E; simpl.
    + apply Z.eqb_eq in E. split; [by apply NoDup_cons|].
      intros k. rewrite elem_of_cons. split; [by right|].
      intros [->|H]; [left; congruence|done].
    + apply Z.eqb_neq in E. split.
      * apply NoDup_cons. split; [|done]. rewrite IHin. intros [?|?]; [congruence|done].
      * intros k. rewrite !elem_of_cons, IHin. split; [intros [?|[?|?]]|intros [?|[?|?]]]; auto.
Qed.

Lemma get_role_id g rid role : get_role g rid = Some role -> role_id role = rid.
Proof.
  unfold get_role. intros H. pose proof (find_first (fun r => role_id r =? rid) (guild_roles g)) as F.
  rewrite H in F. destruct F as [F _]. by apply Z.eqb_eq.
Qed.

Lemma get_role_cached g rid : is_Some (get_role g rid) <-> role_cached g rid = true.
Proof.
  unfold get_role, role_cached.
  pose proof (find_first (fun r => role_id r =? rid) (guild_roles g)) as F.
  destruct (find _ (guild_roles g)) as [r|].
  - destruct F as (Hr & before & after & -> & _). split; [intros _|by eexists].
    rewrite existsb_app. simpl. rewrite Hr. by rewrite orb_true_r.
  - split; [by intros [? [=]]|]. intros H. exfalso.
    apply existsb_exists in H as (r & Hin & Hr). rewrite forallb_forall in F.
    specialize (F r Hin). by rewrite Hr in F.
Qed.

(** The overwrites that [create_kurs] builds hold one entry per role id.
    A role whose id is the configured Moderator or Teacher id, when a role
    with that id is cached, can see the channel and manage its messages;
    otherwise the new course role can see the channel; otherwise the
    default role cannot see it; and no other role has an entry.  So a
    staff entry wins over the course entry, and that over the default
    entry, when ids coincide. *)
Theorem kurs_overwrites_lookup :
  forall (MODERATOR_ROLE_ID TEACHER_ROLE_ID : Z) (g : Guild) (kurs_role role : Role),
    let overwrites := kurs_overwrites MODERATOR_ROLE_ID TEACHER_ROLE_ID g kurs_role in
    let staff := fun rid => (role_id role =? rid) && role_cached g rid in
    NoDup ((fun entry => role_id entry.1) <$> overwrites)
    /\ dict_get overwrites role =
         if staff MODERATOR_ROLE_ID || staff TEACHER_ROLE_ID then Some staff_overwrite
         else if role_id role =? role_id kurs_role then Some member_overwrite
         else if role_id role =? role_id (default_role g) then Some hidden_overwrite
         else None.
Proof.
  intros M T g kurs_role role overwrites staff.
  set (base := dict_set (dict_set [] (default_role g) hidden_overwrite)
                 kurs_role member_overwrite).
  assert (Hbase_nd : NoDup ((fun entry => role_id entry.1) <$> base)).
  { apply dict_set_keys, dict_set_keys. constructor. }
  assert (Hbase : dict_get base role =
                  if role_id role =? role_id kurs_role then Some member_overwrite
                  else if role_id role =? role_id (default_role g) then Some hidden_overwrite
                  else None).
  { unfold base. destruct (role_id role =? role_id kurs_role) eqn:E1.
    - apply Z.eqb_eq in E1. unfold dict_get.
      assert (forall d v, snd <$> find (fun entry => role_id entry.1 =? role_id role)
                                    (dict_set d kurs_role v) = Some v) as H.
      { intros d v. pose proof (dict_get_set_same d kurs_role v) as H. unfold dict_get in H.
        by rewrite <- E1 in H. }
      apply H.
    - apply Z.eqb_neq in E1. rewrite dict_get_set_other by done.
      destruct (role_id role =? role_id (default_role g)) eqn:E2.
      + apply Z.eqb_eq in E2. unfold dict_get. simpl.
        rewrite <- E2, Z.eqb_refl. done.
      + apply Z.eqb_neq in E2. rewrite dict_get_set_other by done. done. }
  subst overwrites. unfold kurs_overwrites. fold staff_overwrite hidden_overwrite member_overwrite.
  fold base. subst staff. cbn beta.
  pose proof (get_role_cached g M) as HcM. pose proof (get_role_cached g T) as HcT.
  destruct (get_role g M) as [mod_role|] eqn:EM.
  - pose proof (get_role_id g M mod_role EM) as HidM.
    assert (role_cached g M = true) as -> by (apply HcM; by eexists).
    set (with_mod := dict_set base mod_role staff_overwrite).
    assert (Hmod_nd : NoDup ((fun entry => role_id entry.1) <$> with_mod))
      by (by apply dict_set_keys).
    assert (Hmod : dict_get with_mod role =
                   if role_id role =? M then Some staff_overwrite else dict_get base role).
    { unfold with_mod. destruct (role_id role =? M) eqn:E.
      - apply Z.eqb_eq in E. unfold dict_get.
        pose proof (dict_get_set_same base mod_role staff_overwrite) as H.
        unfold dict_get in H. by rewrite HidM, <- E in H.
      - apply Z.eqb_neq in E. apply dict_get_set_other. congruence. }
    destruct (get_role g T) as [teacher|] eqn:ET.
    + pose proof (get_role_id g T teacher ET) as HidT.
      assert (role_cached g T = true) as -> by (apply HcT; by eexists).
      split; [by apply dict_set_keys|]. rewrite !andb_true_r.
      destruct (role_id role =? T) eqn:E.
      * apply Z.eqb_eq in E. rewrite orb_true_r. unfold dict_get.
        pose proof (dict_get_set_same with_mod teacher staff_overwrite) as H.
        unfold dict_get in H. by rewrite HidT, <- E in H.
      * apply Z.eqb_neq in E. rewrite orb_false_r.
        rewrite dict_get_set_other by congruence. rewrite Hmod, Hbase. done.
    + assert (role_cached g T = false) as ->.
      { apply not_true_is_false. rewrite <- HcT. by intros [? [=]]. }
      split; [done|]. rewrite andb_true_r, andb_false_r, orb_false_r.
      rewrite Hmod, Hbase. done.
  - assert (role_cached g M = false) as ->.
    { apply not_true_is_false. rewrite <- HcM. by intros [? [=]]. }
    rewrite andb_false_r. simpl.
    destruct (get_role g T) as [teacher|] eqn:ET.
    + pose proof (get_role_id g T teacher ET) as HidT.
      assert (role_cached g T = true) as -> by (apply HcT; by eexists).
      split; [by apply dict_set_keys|]. rewrite andb_true_r.
      destruct (role_id role =? T) eqn:E.
      * apply Z.eqb_eq in E. unfold dict_get.
        pose proof (dict_get_set_same base teacher staff_overwrite) as H.
        unfold dict_get in H. by rewrite HidT, <- E in H.
      * apply Z.eqb_neq in E. rewrite dict_get_set_other by congruence. by rewrite Hbase.
    + assert (role_cached g T = false) as ->.
      { apply not_true_is_false. rewrite <- HcT. by intros [? [=]]. }
      split; [done|]. rewrite andb_false_r. by rewrite Hbase.
Qed.

(** ** [_resolve_members] *)

Section ResolveFacts.
Context {W : Type} (platform : W -> forall c : call, result (resp c) * W).
Context (g : Guild).

Lemma resolve_loop_run ids :
  fetch_ok_or_not_found platform ->
  forall resolved w,
    let tr := trace platform (resolve_loop g ids resolved) w in
    (fetches tr).*1 = List.filter (uncached g) ids
    /\ exists found,
         outcome platform (resolve_loop g ids resolved) w = Ok (resolved ++ found)
         /\ (length found + length (List.filter (fun f => negb f.2) (fetches tr))
             = length ids)%nat
         /\ forall mid member, mid ∈ ids -> get_member g mid = Some member -> member ∈ found.
Proof.
  intros Hcontract. unfold trace, outcome.
  induction ids as [|mid rest IH]; intros resolved w; simpl.
  { split; [done|]. exists []. rewrite app_nil_r. split; [done|]. split; [done|].
    by intros mid member ?%elem_of_nil. }
  unfold uncached at 1. destruct (get_member g mid) as [member|] eqn:Eg.
  - destruct (IH (resolved ++ [member]) w) as (Hf & found & Hout & Hlen & Hhit).
    split; [done|]. exists (member :: found). rewrite Hout, <- app_assoc.
    split; [done|]. split; [simpl; lia|].
    intros mid' member' [->|Hin]%elem_of_cons Hm'.
    + rewrite Eg in Hm'. injection Hm' as <-. by left.
    + right. by eapply Hhit.
  - simpl. pose proof (Hcontract w mid) as Hnf.
    destruct (platform w (fetch_member mid)) as [[member|e] w1]; simpl in *.
    + destruct (IH (resolved ++ [member]) w1) as (Hf & found & Hout & Hlen & Hhit).
      destruct (run platform _ w1) as [[tr out] w2]. simpl in *.
      split; [f_equal; exact Hf|]. exists (member :: found). rewrite Hout, <- app_assoc.
      split; [done|]. split; [simpl; lia|].
      intros mid' member' [->|Hin]%elem_of_cons Hm'; [congruence|].
      right. by eapply Hhit.
    + rewrite (Hnf e eq_refl). simpl.
      destruct (IH resolved w1) as (Hf & found & Hout & Hlen & Hhit).
      destruct (run platform _ w1) as [[tr out] w2]. simpl in *.
      split; [f_equal; exact Hf|]. exists found.
      split; [done|]. split; [lia|].
      intros mid' member' [->|Hin]%elem_of_cons Hm'; [congruence|].
      by eapply Hhit.
Qed.

End ResolveFacts.

(** When the member text yields the set [ids] and fetching a member
    either goes through or fails with [NotFound], [_resolve_members]
    returns a list: it fetches exactly the ids of the set that are not
    cached, each once; every id of the set gives one member of the list or
    one failed fetch, so an unknown member is skipped and the rest still
    resolved; and every cached member asked for is in the list. *)
Theorem resolve_members_accounts :
  forall (U : PyUnicode) (g : Guild) (members_input : str) (ids : gset Z)
         (W : Type) (platform : W -> forall c : call, result (resp c) * W) (w : W),
    _extract_member_ids members_input = Ok ids ->
    fetch_ok_or_not_found platform ->
    let tr := trace platform (_resolve_members g members_input) w in
    NoDup (fetches tr).*1
    /\ (forall mid, mid ∈ (fetches tr).*1 <-> mid ∈ ids /\ get_member g mid = None)
    /\ exists found,
         outcome platform (_resolve_members g members_input) w = Ok found
         /\ (length found + length (List.filter (fun f => negb f.2) (fetches tr))
             = size ids)%nat
         /\ forall mid member, mid ∈ ids -> get_member g mid = Some member -> member ∈ found.
Proof.
  intros U g members_input ids W platform w Hids Hcontract tr.
  subst tr. unfold _resolve_members. rewrite Hids.
  destruct (resolve_loop_run platform g (elements ids) Hcontract [] w)
    as (Hf & found & Hout & Hlen & Hhit).
  cbv zeta in Hf. split; [|split].
  - rewrite Hf. apply NoDup_ListNoDup, List.NoDup_filter, NoDup_ListNoDup, NoDup_elements.
  - intros mid. rewrite Hf, list_elem_of_In, filter_In, <- list_elem_of_In, elem_of_elements.
    unfold uncached. destruct (get_member g mid); split; intros [? ?]; done.
  - exists found. split; [exact Hout|]. split; [exact Hlen|].
    intros mid member Hin. apply Hhit. by apply elem_of_elements.
Qed.

(** The ids 12 and 13 are cached, 99 is unknown to the platform. *)
Lemma resolve_members_accounts_witness :
  exists found,
    outcome accepting (@_resolve_members Latin1 sample_guild (py "<@12> 13, 99")) tt = Ok found
    /\ (length found
        + length (List.filter (fun f => negb f.2)
                    (fetches (trace accepting
                                (@_resolve_members Latin1 sample_guild (py "<@12> 13, 99"))
                                tt))) = 3)%nat.
Proof.
  destruct (resolve_members_accounts Latin1 sample_guild (py "<@12> 13, 99")
              {[ 12; 13; 99 ]} unit accepting tt)
    as (_ & _ & found & Hout & Hlen & _).
  - vm_compute. reflexivity.
  - intros w mid e H. injection H as <-. reflexivity.
  - exists found. split; [exact Hout|exact Hlen].
Defined.

(** ** The order of replies and role requests in the enrollment commands *)

Lemma run_bind_trace {A B W} (platform : W -> forall c : call, result (resp c) * W)
  (p : prog A) (f : A -> prog B) w :
  exists rest, trace platform (bind p f) w = trace platform p w ++ rest
    /\ match outcome platform p w with
       | Ok a => rest = trace platform (f a) (run platform p w).2
                 /\ outcome platform (bind p f) w
                    = outcome platform (f a) (run platform p w).2
       | Raise e => rest = [] /\ outcome platform (bind p f) w = Raise e
       end.
Proof.
  unfold trace, outcome. rewrite run_bind.
  destruct (run platform p w) as [[tr out] w1]. simpl.
  destruct out as [a|e]; [|exists []; by rewrite app_nil_r].
  destruct (run platform (f a) w1) as [[tr2 out2] w2]. by exists tr2.
Qed.

Lemma resolve_loop_no_role_changes {W} (platform : W -> forall c : call, result (resp c) * W)
  g ids : forall resolved w, role_changes (trace platform (resolve_loop g ids resolved) w) = [].
Proof.
  unfold trace. induction ids as [|mid rest IH]; intros resolved w; simpl; [done|].
  destruct (get_member g mid) as [member|]; [apply IH|]. simpl.
  destruct (platform w (fetch_member mid)) as [[member|e] w1]; simpl.
  - specialize (IH (resolved ++ [member]) w1).
    by destruct (run platform _ w1) as [[tr out] w2].
  - destruct e; simpl; try done. specialize (IH resolved w1).
    by destruct (run platform _ w1) as [[tr out] w2].
Qed.

(** [add_member] and [remove_member] answer at once, with one reply and
    no other request, when the command is used outside a guild or when no
    role carries the course name; when the member text makes
    [_extract_member_ids] raise, they end with that exception without any
    request; and otherwise a run starts with the resolution of the
    members, which changes no role, and goes on, if at all, either with
    the one reply that nobody was found or with [defer]. *)
Theorem enrollment_opening :
  forall (U : PyUnicode) (interaction : Interaction) (kurs_name members : str)
         (reason : option str) (adding : bool)
         (W : Type) (platform : W -> forall c : call, result (resp c) * W) (w : W),
    let handler := if adding then add_member interaction kurs_name members reason
                   else remove_member interaction kurs_name members reason in
    let tr := trace platform handler w in
    match guild interaction with
    | None => calls tr = [send_message (py "Dieser Befehl funktioniert nur auf Servern.")]
    | Some g =>
        match _fetch_course_role g kurs_name with
        | None => calls tr = [send_message (py "Keine Kursrolle mit diesem Namen gefunden.")]
        | Some kurs_role =>
            match _extract_member_ids members with
            | Raise e => run platform handler w = ([], Raise e, w)
            | Ok ids =>
                let resolving := trace platform (_resolve_members g members) w in
                role_changes resolving = []
                /\ exists rest,
                     tr = resolving ++ rest
                     /\ (rest = []
                         \/ calls rest
                            = [send_message (py "Ich konnte keine Mitglieder finden.")]
                         \/ exists raised later, rest = Called defer raised :: later)
            end
        end
    end.
Proof.
  intros U interaction kurs_name members reason adding W platform w handler tr.
  subst tr handler.
  destruct (guild interaction) as [g|] eqn:Eg.
  2: { destruct adding; unfold add_member, remove_member; rewrite Eg; apply trace_finish. }
  destruct (_fetch_course_role g kurs_name) as [kurs_role|] eqn:Er.
  2: { destruct adding; unfold add_member, remove_member; rewrite Eg, Er;
         apply trace_finish. }
  destruct (_extract_member_ids members) as [ids|e] eqn:Ei.
  2: { destruct adding; unfold add_member, remove_member, _resolve_members;
         by rewrite Eg, Er, Ei. }
  split.
  { unfold _resolve_members. rewrite Ei. apply resolve_loop_no_role_changes. }
  destruct adding; unfold add_member, remove_member; rewrite Eg, Er.
  - destruct (run_bind_trace platform (_resolve_members g members)
                (fun resolved =>
                   match resolved with
                   | [] => finish (send_message (py "Ich konnte keine Mitglieder finden."))
                   | _ => bind (await defer) (fun _ =>
                          bind (add_loop interaction kurs_role reason resolved []) add_report)
                   end) w) as (rest & -> & Hrest).
    exists rest. split; [done|].
    destruct (outcome platform (_resolve_members g members) w) as [[|m found]|e];
      [| |by left; destruct Hrest].
    + right. left. destruct Hrest as [-> _]. apply trace_finish.
    + right. right. destruct Hrest as [-> _]. unfold trace. rewrite run_bind, run_await.
      destruct (platform _ defer) as [[[]|e] w1]; simpl; [|by eexists _, _].
      destruct (run platform _ w1) as [[tr2 out2] w2]. by eexists _, _.
  - destruct (run_bind_trace platform (_resolve_members g members)
                (fun resolved =>
                   match resolved with
                   | [] => finish (send_message (py "Ich konnte keine Mitglieder finden."))
                   | _ => bind (await defer) (fun _ =>
                          bind (remove_loop interaction kurs_role reason resolved [])
                            remove_report)
                   end) w) as (rest & -> & Hrest).
    exists rest. split; [done|].
    destruct (outcome platform (_resolve_members g members) w) as [[|m found]|e];
      [| |by left; destruct Hrest].
    + right. left. destruct Hrest as [-> _]. apply trace_finish.
    + right. right. destruct Hrest as [-> _]. unfold trace. rewrite run_bind, run_await.
      destruct (platform _ defer) as [[[]|e] w1]; simpl; [|by eexists _, _].
      destruct (run platform _ w1) as [[tr2 out2] w2]. by eexists _, _.
Qed.

(** ** Bounds of the parsed values *)

Section BoundFacts.
Context {U : PyUnicode}.



Lemma int16_from_bound s :
  forall acc v, 0 <= acc -> int16_from acc s = Some v ->
                0 <= v < (acc + 1) * 16 ^ Z.of_nat (length s).
Proof.
  induction s as [|c t IH]; intros acc v Hacc; simpl length.
  - intros [= <-]. simpl. lia.
  - simpl. destruct (hex_value c) as [d|] eqn:Ed; [|done].
    assert (0 <= d <= 15) as Hd.
    { unfold hex_value in Ed.
      destruct ((48 <=? c) && (c <=? 57))%N eqn:E1.
      - apply andb_prop in E1 as [?%N.leb_le ?%N.leb_le]. injection Ed as <-. lia.
      - destruct ((97 <=? c) && (c <=? 102))%N eqn:E2; [|done].
        apply andb_prop in E2 as [?%N.leb_le ?%N.leb_le]. injection Ed as <-. lia. }
    intros Hv. apply IH in Hv; [|lia].
    rewrite Nat2Z.inj_succ, Z.pow_succ_r by lia. nia.
Qed.

End BoundFacts.



(** [_parse_embed_color] returns a colour between 0 and 0xFFFFFF or
    raises [ValueError] with one of its two messages: about the length
    when the cleaned text has neither three nor six characters, about the
    characters otherwise. *)
Theorem parse_embed_color_range :
  forall (U : PyUnicode) (raw : option str),
    match _parse_embed_color raw with
    | Ok (MkColor value) => 0 <= value <= 0xffffff
    | Raise e =>
        exists c t, raw = Some (c :: t)
          /\ let n := length (drop_hash (str_lower (strip (c :: t)))) in
             if ((n =? 3) || (n =? 6))%nat
             then e = ValueError (py "Hexfarbe enthaelt ungueltige Zeichen.")
             else e = ValueError (py "Hexfarbe muss 3 oder 6 Zeichen lang sein.")
    end.
Proof.
  intros U [[|c t]|]; [done| |done].
  pose proof (parse_embed_color_cases c t) as H. cbv zeta in H.
  set (cleaned := drop_hash (str_lower (strip (c :: t)))) in *.
  unfold spec_expand in H.
  destruct (length cleaned =? 6)%nat eqn:E6.
  - apply Nat.eqb_eq in E6.
    destruct (forallb is_hex cleaned).
    + destruct H as (v & Hv & ->). apply int16_from_bound in Hv; [|done].
      rewrite E6 in Hv. simpl in Hv. lia.
    + rewrite H. exists c, t. split; [done|]. fold cleaned. cbv zeta. rewrite E6. done.
  - destruct (length cleaned =? 3)%nat eqn:E3.
    + apply Nat.eqb_eq in E3.
      destruct (forallb is_hex (cleaned ≫= fun ch => [ch; ch])) eqn:Eh.
      * destruct H as (v & Hv & ->). apply int16_from_bound in Hv; [|done].
        assert (length (cleaned ≫= fun ch => [ch; ch]) = 6%nat) as Hl
          by (by destruct cleaned as [|x [|y [|z [|? ?]]]]).
        rewrite Hl in Hv. simpl in Hv. lia.
      * rewrite H. exists c, t. split; [done|]. fold cleaned. cbv zeta. rewrite E3. done.
    + rewrite H. exists c, t. split; [done|]. fold cleaned. cbv zeta. rewrite E3, E6. done.
Qed.

(** ** Whitespace around an input *)

Lemma dropwhile_all p (a s : str) : forallb p a = true -> dropwhile p (a ++ s) = dropwhile p s.
Proof.
  induction a as [|c a IH]; simpl; [done|]. intros [Hc Ha]%andb_prop. rewrite Hc. by apply IH.
Qed.

Lemma dropwhile_stops p (s b : str) :
  dropwhile p s <> [] -> dropwhile p (s ++ b) = dropwhile p s ++ b.
Proof.
  induction s as [|c s IH]; simpl; [done|]. destruct (p c); [exact IH|done].
Qed.

Lemma dropwhile_none p (s : str) : dropwhile p s = [] -> forallb p s = true.
Proof.
  induction s as [|c s IH]; simpl; [done|]. destruct (p c); [exact IH|done].
Qed.

Lemma rstrip_padding (s b : str) : forallb isspace b = true -> rstrip (s ++ b) = rstrip s.
Proof.
  intros Hb. unfold rstrip. rewrite rev_app_distr, dropwhile_all; [done|].
  rewrite forallb_forall in *. intros c Hc. apply Hb. by apply in_rev.
Qed.

(** Whitespace before and after a text does not change what [strip]
    gives. *)
Lemma strip_padding (a s b : str) :
  forallb isspace a = true -> forallb isspace b = true -> strip (a ++ s ++ b) = strip s.
Proof.
  intros Ha Hb. unfold strip, lstrip. rewrite dropwhile_all by done.
  destruct (dropwhile isspace s) as [|c t] eqn:E.
  - apply dropwhile_none in E.
    assert (dropwhile isspace (s ++ b) = []) as ->; [|done].
    rewrite dropwhile_all by done. clear -Hb.
    induction b as [|c b IH]; simpl in *; [done|].
    apply andb_prop in Hb as [-> Hb]. by apply IH.
  - rewrite dropwhile_stops by (by rewrite E). rewrite E. by apply rstrip_padding.
Qed.

(** Whitespace before and after the input changes the result of no
    parser: not of [_parse_duration], [_slugify] and
    [_normalize_course_name], not of the search for the course role, and
    not of [_parse_embed_color] on a text that is not empty. *)
Theorem parsers_ignore_padding :
  forall (U : PyUnicode) (before after text : str),
    forallb isspace before = true -> forallb isspace after = true ->
    _parse_duration (before ++ text ++ after) = _parse_duration text
    /\ _slugify (before ++ text ++ after) = _slugify text
    /\ _normalize_course_name (before ++ text ++ after) = _normalize_course_name text
    /\ (forall g, _fetch_course_role g (before ++ text ++ after) = _fetch_course_role g text)
    /\ (text <> [] -> _parse_embed_color (Some (before ++ text ++ after))
                      = _parse_embed_color (Some text)).
Proof.
  intros U before after text Hb Ha.
  pose proof (strip_padding before text after Hb Ha) as Hs.
  unfold _parse_duration, _slugify, _normalize_course_name, _fetch_course_role,
    _normalize_course_name. rewrite !Hs. repeat split; try done.
  intros Hne. unfold _parse_embed_color.
  destruct text as [|c t]; [done|].
  destruct (before ++ (c :: t) ++ after) as [|c' t'] eqn:E.
  - destruct before; done.
  - by rewrite Hs.
Qed.

(** A tab in front and a newline behind ["2h"]. *)
Lemma parsers_ignore_padding_witness :
  @_parse_duration Latin1 ([9%N] ++ py "2h" ++ [10%N]) = @_parse_duration Latin1 (py "2h")
  /\ @_slugify Latin1 ([9%N] ++ py "2h" ++ [10%N]) = @_slugify Latin1 (py "2h").
Proof.
  destruct (parsers_ignore_padding Latin1 [9%N] [10%N] (py "2h")) as (Hd & Hs & _).
  - reflexivity.
  - reflexivity.
  - split; [exact Hd|exact Hs].
Defined.

(** ** Slugs of slugs *)

Lemma slug_class_not_space c : slug_class c = true -> isspace c = false /\ c <> 32%N.
Proof.
  unfold slug_class, isspace. intros H.
  assert ((97 <= c <= 122) \/ (48 <= c <= 57) \/ c = 45)%N as Hc.
  { apply orb_prop in H as [H|H]; [apply orb_prop in H as [H|H]|].
    - apply andb_prop in H as [?%N.leb_le ?%N.leb_le]. lia.
    - apply andb_prop in H as [?%N.leb_le ?%N.leb_le]. lia.
    - apply N.eqb_eq in H. lia. }
  split; [|lia].
  assert ((c <=? 13) = false /\ (c <=? 32) = false /\ (8192 <=? c) = false)%N
    as (-> & -> & ->) by (repeat split; apply N.leb_gt; lia).
  rewrite !andb_false_r. simpl.
  repeat match goal with
         | |- context [(c =? ?b)%N] => rewrite (proj2 (N.eqb_neq c b)) by lia
         end.
  done.
Qed.

Lemma strip_slug (s : str) : forallb slug_class s = true -> strip s = s.
Proof.
  intros Hs. rewrite forallb_forall in Hs. apply strip_fixed.
  - destruct s as [|c t]; [done|]. simpl. apply slug_class_not_space, Hs. by left.
  - destruct (rev s) as [|c t] eqn:E; [done|]. simpl.
    apply slug_class_not_space, Hs, in_rev. rewrite E. by left.
Qed.

Lemma slugify_in_class {U : PyUnicode} (name : str) :
  forallb slug_class (_slugify name) = true
  /\ (length (_slugify name) <= 90)%nat /\ _slugify name <> [].
Proof.
  rewrite slugify_unfold.
  set (substituted := slug_char <$> str_lower (strip name)).
  assert (forallb slug_class (take 90 substituted) = true) as Hclass.
  { assert (Forall (fun c => slug_class c = true) (take 90 substituted)) as H.
    { apply Forall_take, Forall_fmap, Forall_forall. intros c _. apply slug_char_class. }
    apply forallb_forall. intros c Hc. rewrite Forall_forall in H.
    by apply H, list_elem_of_In. }
  assert (length (take 90 substituted) <= 90)%nat as Hlen by (rewrite length_take; lia).
  destruct (take 90 substituted) as [|c cut]; [|done].
  split; [by vm_compute|]. split; [vm_compute; lia|done].
Qed.

(** When [str.lower] leaves the characters of slugs alone, the slug of a
    slug is that slug: what [_slugify] returns is a fixed point of
    [_slugify]. *)
Theorem slugify_idempotent :
  forall (U : PyUnicode) (name : str),
    lower_keeps_slugs -> _slugify (_slugify name) = _slugify name.
Proof.
  intros U name Hlower.
  destruct (slugify_in_class name) as (Hb & Hlen & Hne).
  set (slug := _slugify name) in *.
  rewrite slugify_unfold, strip_slug, Hlower by done.
  assert (slug_char <$> slug = slug) as ->.
  { clear -Hb. induction slug as [|c t IH]; [done|]. rewrite fmap_cons. simpl in Hb.
    apply andb_prop in Hb as [Hc Ht]. rewrite IH by done. f_equal.
    unfold slug_char. destruct (slug_class_not_space c Hc) as [_ H32].
    apply N.eqb_neq in H32. by rewrite H32, Hc. }
  rewrite take_ge by done. by destruct slug.
Qed.

(** The tables of Latin-1 lower-case only capital letters. *)
Lemma slugify_idempotent_witness :
  @_slugify Latin1 (@_slugify Latin1 (py "  Intro to   Algebra!! "))
  = @_slugify Latin1 (py "  Intro to   Algebra!! ").
Proof.
  apply (slugify_idempotent Latin1 (py "  Intro to   Algebra!! ")).
  intros s Hs. change (latin1_lower <$> s = s). induction s as [|c t IH]; [reflexivity|].
  simpl in Hs. apply andb_prop in Hs as [Hc Ht]. rewrite fmap_cons, (IH Ht). f_equal.
  unfold latin1_lower, slug_class in *.
  repeat match goal with
         | |- context [(?a <=? ?b)%N] => destruct (N.leb_spec a b)
         | |- context [(?a =? ?b)%N] => destruct (N.eqb_spec a b)
         | H : context [(?a <=? ?b)%N] |- _ => destruct (N.leb_spec a b)
         | H : context [(?a =? ?b)%N] |- _ => destruct (N.eqb_spec a b)
         end; simpl in *; try reflexivity; try discriminate; lia.
Defined.

(** ** Reading the configuration *)

Section EnvironmentFacts.
Context {U : PyUnicode}.

Lemma strip_empty_iff (s : str) : strip s = [] <-> forallb isspace s = true.
Proof.
  unfold strip, lstrip, rstrip. split.
  - intros H. apply (f_equal (@rev N)) in H. rewrite rev_involutive in H. simpl in H.
    apply dropwhile_none in H.
    assert (dropwhile isspace s = [] \/ dropwhile isspace s <> []) as [E|E]
      by (destruct (dropwhile isspace s); [by left|by right]).
    + by apply dropwhile_none.
    + exfalso. destruct (dropwhile isspace s) as [|c t] eqn:Ed; [done|].
      pose proof (dropwhile_head isspace s c t Ed) as Hc.
      rewrite forallb_forall in H. specialize (H c).
      rewrite H in Hc; [done|]. apply in_rev. rewrite rev_involutive. by left.
  - intros H. assert (dropwhile isspace s = []) as ->; [|done].
    induction s as [|c t IH]; simpl in *; [done|].
    apply andb_prop in H as [-> H]. by apply IH.
Qed.

Lemma ascii_digit_facts c :
  ((48 <=? c) && (c <=? 57))%N = true ->
  int_blank c = false /\ is_decimal c = true /\ (c =? 95)%N = false
  /\ (c =? 45)%N = false /\ (c =? 43)%N = false
  /\ ch_decimal c = Some (Z.of_N c - 48).
Proof.
  intros H. pose proof H as H'. apply andb_prop in H' as [H1%N.leb_le H2%N.leb_le].
  assert (ch_decimal c = Some (Z.of_N c - 48)) as Hd by (rewrite decimal_ascii by lia; by rewrite H).
  unfold int_blank, is_decimal. rewrite Hd.
  repeat split; try (apply N.eqb_neq; lia).
  repeat match goal with
         | |- context [(?a <=? ?b)%N] => destruct (N.leb_spec a b)
         | |- context [(?a =? ?b)%N] => destruct (N.eqb_spec a b)
         end; simpl; try done; lia.
Qed.

Lemma grouped_ascii_digits s b :
  ascii_digits s = true -> (s <> [] \/ b = false) -> grouped_digits b s = true.
Proof.
  revert b. induction s as [|c t IH]; intros b Hs Hne; simpl in *.
  - destruct Hne as [?| ->]; done.
  - apply andb_prop in Hs as [Hc Ht].
    destruct (ascii_digit_facts c Hc) as (Hb & Hd & H95 & _).
    rewrite H95. unfold int_digit. rewrite Hb, Hd. simpl. apply IH; [done|by right].
Qed.

Lemma filter_ascii_digits s :
  ascii_digits s = true -> List.filter (fun c => negb (c =? 95)%N) s = s.
Proof.
  induction s as [|c t IH]; simpl; [done|]. intros [Hc Ht]%andb_prop.
  destruct (ascii_digit_facts c Hc) as (_ & _ & -> & _). simpl. by rewrite IH.
Qed.

(** [int] reads a text of ASCII digits as [int10] does. *)
Lemma int_of_str_digits s :
  s <> [] -> ascii_digits s = true -> int_of_str s = int10 s.
Proof.
  intros Hne Hs. unfold int_of_str.
  assert (forall t : str, match t with [] => True | c :: _ => int_blank c = false end ->
                          dropwhile int_blank t = t) as Hdrop.
  { intros [|c t] H; simpl; [done|]. by rewrite H. }
  assert (forall c, In c s -> int_blank c = false) as Hnb.
  { intros c Hc. unfold ascii_digits in Hs. rewrite forallb_forall in Hs.
    by destruct (ascii_digit_facts c (Hs c Hc)). }
  rewrite (Hdrop s); [|destruct s as [|c t]; [done|]; apply Hnb; by left].
  rewrite (Hdrop (rev s)), rev_involutive.
  2: { destruct (rev s) as [|c t] eqn:E; [done|]. apply Hnb, in_rev. rewrite E. by left. }
  destruct s as [|c t]; [done|].
  pose proof Hs as Hs'. simpl in Hs'. apply andb_prop in Hs' as [Hc _].
  destruct (ascii_digit_facts c Hc) as (_ & _ & _ & -> & -> & _).
  rewrite grouped_ascii_digits by (done || by left).
  rewrite filter_ascii_digits by done. unfold int10.
  by destruct (int_digits (c :: t)).
Qed.

End EnvironmentFacts.

(** [_env_int] gives the fallback when the variable is unset or consists
    of whitespace only, the integer that [int] reads otherwise, and
    [SystemExit] naming the variable when [int] rejects the text; a text
    of ASCII digits is read as [int10] reads it: as its decimal value
    when it has at most 4300 digits, and not at all when it has more.
    [int] does not skip every character that [str.strip] removes: a value
    of U+001C followed by ["5"] is not blank for the first test and is
    rejected, while ["1_000"] and [" -7 "] are read as 1000 and -7.  With
    only the token set, the configuration is the documented defaults;
    without the token start-up ends before any other variable is read. *)
Theorem env_int_reads :
  (forall (U : PyUnicode) (getenv : str -> option str) (name : str) (fallback : Z),
      match getenv name with
      | None => _env_int getenv name fallback = Loaded fallback
      | Some raw =>
          if forallb isspace raw then _env_int getenv name fallback = Loaded fallback
          else match int_of_str raw with
               | Some n => _env_int getenv name fallback = Loaded n
               | None =>
                   _env_int getenv name fallback
                   = Exit (py "Umgebungsvariable " ++ name ++ py " muss eine Ganzzahl sein.")
               end
      end)
  /\ (forall (U : PyUnicode) (digits : str),
        match digits with
        | [] => int_of_str digits = None
        | _ => if ascii_digits digits then int_of_str digits = int10 digits else True
        end)
  /\ @int_of_str Latin1 (py "1_000") = Some 1000
  /\ @int_of_str Latin1 (py " -7 ") = Some (-7)
  /\ @_env_int Latin1 (env_of [(py "DISCORD_GUILD_ID", [28%N; 53%N])])
       (py "DISCORD_GUILD_ID") 1
     = Exit (py "Umgebungsvariable DISCORD_GUILD_ID muss eine Ganzzahl sein.")
  /\ strip [28%N; 53%N] = py "5"
  /\ @_env_int Latin1 (env_of [(py "DISCORD_GUILD_ID", repeat 49%N 4301)])
       (py "DISCORD_GUILD_ID") 1
     = Exit (py "Umgebungsvariable DISCORD_GUILD_ID muss eine Ganzzahl sein.")
  /\ @load_config Latin1 (env_of [(py "DISCORD_TOKEN", py "secret")])
     = Loaded (default_config (py "secret"))
  /\ (forall (U : PyUnicode) (getenv : str -> option str),
        match getenv (py "DISCORD_TOKEN") with
        | Some (c :: t) => True
        | _ => load_config getenv = Exit (py "Umgebungsvariable DISCORD_TOKEN fehlt.")
        end).
Proof.
  split; [|split; [|split; [|split; [|split; [|split; [|split; [|split]]]]]]].
  - intros U getenv name fallback. unfold _env_int.
    destruct (getenv name) as [raw|]; [|done].
    pose proof (strip_empty_iff raw) as Hs.
    destruct (forallb isspace raw).
    + by rewrite (proj2 Hs eq_refl).
    + destruct (strip raw) as [|c t]; [discriminate (proj1 Hs eq_refl)|].
      by destruct (int_of_str raw).
  - intros U [|c t]; [done|]. destruct (ascii_digits (c :: t)) eqn:E; [|done].
    by apply int_of_str_digits.
  - by vm_compute.
  - by vm_compute.
  - by vm_compute.
  - by vm_compute.
  - by vm_compute.
  - by vm_compute.
  - intros U getenv. unfold load_config, _require_env.
    by destruct (getenv (py "DISCORD_TOKEN")) as [[|c t]|].
Qed.


(** * The commands that relay to a channel *)

Section RelayFacts.
Import Relay.

(** What holds of every request a task can make holds of the requests
    of each of its runs. *)
Lemma all_asks_run {A W} (P : request -> Prop) (p : task A)
  (platform : W -> forall c : request, result (answer c) * W) :
  all_asks P p -> forall w, Forall P (asks (trace platform p w)).
Proof.
  unfold trace. induction p as [a|f|c k IH|line e k IH]; intros Hp w; simpl in *.
  - constructor.
  - constructor.
  - destruct Hp as [Hc Hk]. destruct (platform w c) as [r w1].
    specialize (IH r (Hk r) w1).
    destruct (run platform (k r) w1) as [[tr out] w2]. simpl in *. by constructor.
  - specialize (IH Hp w). by destruct (run platform k w) as [[tr out] w1].
Qed.

Lemma all_asks_last (P : request -> Prop) c : P c -> all_asks P (last_ask c).
Proof. intros Hc. simpl. split; [done|]. by intros [x|e]. Qed.

Lemma dropwhile_snoc p (x : str) a :
  p a = false -> dropwhile p (x ++ [a]) = dropwhile p x ++ [a].
Proof.
  intros Ha. induction x as [|c x IH]; simpl; [by rewrite Ha|]. by destruct (p c).
Qed.

(** What [strip] leaves has no white space at either end. *)
Lemma strip_trimmed (s : str) : trimmed (strip s).
Proof.
  unfold trimmed, strip, rstrip, lstrip. rewrite rev_involutive.
  remember (dropwhile isspace s) as l eqn:El. symmetry in El. split.
  - destruct l as [|a l']; [done|].
    assert (isspace a = false) as Ha by (by apply (dropwhile_head isspace s a l')).
    change (rev (a :: l')) with (rev l' ++ [a]).
    rewrite dropwhile_snoc, rev_app_distr by done. done.
  - unfold nonspace_head. destruct (dropwhile isspace (rev l)) as [|c t] eqn:E; [done|].
    by apply (dropwhile_head isspace (rev l) c t).
Qed.

(** ** [kick], [ban] and [clear_chat] *)

Lemma clear_chat_all_asks inv anzahl reason :
  all_asks (purge_request inv anzahl reason) (clear_chat inv anzahl reason).
Proof.
  unfold clear_chat. destruct (channel inv) as [place|] eqn:Ec; [|by apply all_asks_last].
  destruct (place_kind place) eqn:Ek; [| |by apply all_asks_last].
  - simpl. split; [done|]. intros [x|e]; [|done]. simpl. split; [by rewrite Ek|].
    intros [deleted|e]; [by apply all_asks_last|done].
  - simpl. split; [done|]. intros [x|e]; [|done]. simpl. split; [by rewrite Ek|].
    intros [deleted|e]; [by apply all_asks_last|done].
Qed.

(** [kick] and [ban] request the action first, on the member named in
    the command and with the audit reason of the caller.  When it goes
    through they confirm it; when the platform refuses it with
    [Forbidden] they tell the caller so; any other exception of the
    request ([NotFound], [HTTPException]) ends the handler at once, the
    caller being told nothing.  [ban] outside a guild stops on the
    attribute read of [None], before any request. *)
Theorem kick_ban_outcomes :
  forall (inv : Invocation) (member : Member) (reason : option str)
         (W : Type) (platform : W -> forall c : request, result (answer c) * W) (w : W),
    let audit := _format_reason (interaction inv) reason in
    match (platform w (member_kick member audit)).1 with
    | Ok _ =>
        asks (trace platform (kick inv member reason) w)
        = [member_kick member audit;
           send_message (member_str member ++ py " wurde gekickt.")]
    | Raise Forbidden =>
        asks (trace platform (kick inv member reason) w)
        = [member_kick member audit;
           send_message (py "Kick fehlgeschlagen - fehlen Berechtigungen?")]
    | Raise e =>
        trace platform (kick inv member reason) w = [Asked (member_kick member audit) (Some e)]
        /\ outcome platform (kick inv member reason) w = inl (Discord e)
    end
    /\ match guild (interaction inv) with
       | None =>
           trace platform (ban inv member reason) w = []
           /\ outcome platform (ban inv member reason) w
              = inl (AttributeError (py "'NoneType' object has no attribute 'ban'"))
       | Some _ =>
           match (platform w (guild_ban member audit)).1 with
           | Ok _ =>
               asks (trace platform (ban inv member reason) w)
               = [guild_ban member audit;
                  send_message (member_str member ++ py " wurde gebannt.")]
           | Raise Forbidden =>
               asks (trace platform (ban inv member reason) w)
               = [guild_ban member audit;
                  send_message (py "Ban fehlgeschlagen - fehlen Berechtigungen?")]
           | Raise e =>
               trace platform (ban inv member reason) w
               = [Asked (guild_ban member audit) (Some e)]
               /\ outcome platform (ban inv member reason) w = inl (Discord e)
           end
       end
    /\ trace losing (kick sample_invocation sample_student (Some (py "spam"))) tt
       = [Asked (member_kick sample_student (py "Aktion von tom (12): spam")) (Some NotFound)].
Proof.
  intros inv member reason W platform w audit. split; [|split].
  - unfold trace, outcome, kick. fold audit. simpl.
    destruct (platform w (member_kick member audit)) as [[x|e] w1]; simpl.
    + by destruct (platform w1 _) as [[y|e] w2].
    + destruct e; simpl; try done. by destruct (platform w1 _) as [[y|e] w2].
  - unfold trace, outcome, ban. fold audit.
    destruct (guild (interaction inv)) as [g|]; [|done]. simpl.
    destruct (platform w (guild_ban member audit)) as [[x|e] w1]; simpl.
    + by destruct (platform w1 _) as [[y|e] w2].
    + destruct e; simpl; try done. by destruct (platform w1 _) as [[y|e] w2].
  - by vm_compute.
Qed.

(** [clear_chat] purges only the channel of the command, only when that
    is a text channel or a thread, only after [defer] has gone through,
    and with the number and the audit reason of the command; elsewhere
    it only replies.  The follow-up reports the number of messages that
    [purge] returned.  When [purge] raises, the handler ends with that
    exception and no follow-up is sent. *)
Theorem clear_chat_purges :
  forall (inv : Invocation) (anzahl : Z) (reason : option str)
         (W : Type) (platform : W -> forall c : request, result (answer c) * W) (w : W),
    let audit := _format_reason (interaction inv) reason in
    let elsewhere := [send_message (py "Dieser Befehl funktioniert nur in Textkanaelen.")] in
    Forall (purge_request inv anzahl reason)
      (asks (trace platform (clear_chat inv anzahl reason) w))
    /\ match channel inv with
       | None => asks (trace platform (clear_chat inv anzahl reason) w) = elsewhere
       | Some place =>
           match place_kind place with
           | OtherPlace => asks (trace platform (clear_chat inv anzahl reason) w) = elsewhere
           | _ =>
               let '(r0, w1) := platform w (defer false) in
               match r0 with
               | Raise e =>
                   trace platform (clear_chat inv anzahl reason) w
                   = [Asked (defer false) (Some e)]
                   /\ outcome platform (clear_chat inv anzahl reason) w = inl (Discord e)
               | Ok _ =>
                   let '(r1, w2) := platform w1 (channel_purge place anzahl audit) in
                   match r1 with
                   | Raise e =>
                       trace platform (clear_chat inv anzahl reason) w
                       = [Asked (defer false) None;
                          Asked (channel_purge place anzahl audit) (Some e)]
                       /\ outcome platform (clear_chat inv anzahl reason) w = inl (Discord e)
                   | Ok deleted =>
                       asks (trace platform (clear_chat inv anzahl reason) w)
                       = [defer false; channel_purge place anzahl audit;
                          followup_send (str_of_int (Z.of_nat (length deleted))
                                         ++ py " Nachrichten geloescht.")]
                   end
               end
           end
       end
    /\ asks (trace (failing_at 9) (clear_chat sample_invocation 50 None) 0%nat)
       = [defer false;
          channel_purge {| place_id := 77; place_kind := TextPlace |} 50
            (py "Aktion von tom (12)");
          followup_send (py "3 Nachrichten geloescht.")].
Proof.
  intros inv anzahl reason W platform w audit elsewhere. split; [|split].
  - apply all_asks_run, clear_chat_all_asks.
  - unfold trace, outcome, clear_chat. fold audit.
    destruct (channel inv) as [place|]; simpl.
    2: { by destruct (platform w _) as [[y|e] w2]. }
    destruct (place_kind place); simpl.
    + destruct (platform w (defer false)) as [[x|e] w1]; simpl; [|done].
      destruct (platform w1 (channel_purge place anzahl audit)) as [[deleted|e] w2]; simpl;
        [|done].
      by destruct (platform w2 _) as [[y|e] w3].
    + destruct (platform w (defer false)) as [[x|e] w1]; simpl; [|done].
      destruct (platform w1 (channel_purge place anzahl audit)) as [[deleted|e] w2]; simpl;
        [|done].
      by destruct (platform w2 _) as [[y|e] w3].
    + by destruct (platform w _) as [[y|e] w2].
  - by vm_compute.
Qed.

(** ** [upload_file], [echo] and [create_embed] *)

(** The first step of a run is the first request of the task. *)
Lemma trace_ask {A W} (platform : W -> forall c : request, result (answer c) * W)
  (c : request) (k : result (answer c) -> task A) (w : W) :
  trace platform (Ask c k) w
  = Asked c (raised_of (platform w c).1)
      :: trace platform (k (platform w c).1) (platform w c).2.
Proof.
  unfold trace. simpl. destruct (platform w c) as [r w1]. simpl.
  by destruct (run platform (k r) w1) as [[tr out] w2].
Qed.

Lemma trace_last_ask {W} (platform : W -> forall c : request, result (answer c) * W)
  (c : request) (w : W) :
  asks (trace platform (last_ask c) w) = [c].
Proof. unfold last_ask. rewrite trace_ask. simpl. by destruct (platform w c) as [[x|e] w1]. Qed.

Lemma upload_file_all_asks inv attachment message :
  all_asks (upload_request inv attachment message) (upload_file inv attachment message).
Proof.
  unfold upload_file. destruct (channel inv) as [place|] eqn:Ec; [|by apply all_asks_last].
  destruct (negb (size attachment =? 0) && (MAX_FILE_UPLOAD_BYTES <? size attachment))
    eqn:Es; [by apply all_asks_last|].
  assert (size attachment <= 26214400) as Hsize.
  { apply andb_false_iff in Es as [Es|Es].
    - apply negb_false_iff, Z.eqb_eq in Es. lia.
    - apply Z.ltb_ge in Es. unfold MAX_FILE_UPLOAD_BYTES in Es. lia. }
  split; [done|]. intros [x|e]; [|done]. split; [done|].
  assert (forall e : exn,
             all_asks (upload_request inv attachment message)
               (if is_http_exception e
                then Note (py "Datei konnte nicht hochgeladen werden: %s") e
                       (last_ask (followup_send (py "Die Datei konnte nicht gesendet werden.")))
                else Fail (Discord e))) as Hfailed.
  { intros e. destruct (is_http_exception e); [by apply all_asks_last|done]. }
  intros [discord_file|e]; [|apply Hfailed].
  split; [|intros [y|e]; [by apply all_asks_last|apply Hfailed]].
  split; [done|]. split; [done|]. split; [|done].
  unfold blank_to_none. destruct (strip (default [] message)) as [|c t] eqn:Est.
  - by apply strip_empty_iff.
  - split; [done|]. split; [done|]. rewrite <- Est. apply strip_trimmed.
Qed.

(** [upload_file] never downloads or posts a file of more than 25 MiB
    (26214400 bytes): its only request is then the reply that names the
    limit, 25.  A file it posts goes to the channel of the command, after
    [defer] with the thinking state, with the message stripped, or with
    no text at all when the message is missing or blank.  A file of
    exactly 26214400 bytes, of 0 bytes or of a negative size is let
    through. *)
Theorem upload_file_limit :
  forall (inv : Invocation) (attachment : Attachment) (message : option str)
         (W : Type) (platform : W -> forall c : request, result (answer c) * W) (w : W),
    Forall (upload_request inv attachment message)
      (asks (trace platform (upload_file inv attachment message) w))
    /\ match channel inv with
       | None =>
           asks (trace platform (upload_file inv attachment message) w)
           = [send_message (py "Ich kann in diesem Kontext nichts senden.")]
       | Some _ =>
           if 26214400 <? size attachment
           then asks (trace platform (upload_file inv attachment message) w)
                = [send_message (py "Dateien duerfen maximal 25 MB gross sein.")]
           else head (asks (trace platform (upload_file inv attachment message) w))
                = Some (defer true)
       end
    /\ (let attachment :=
          {| filename := py "plan.pdf"; size := 26214400; is_spoiler := true |} in
        trace (failing_at 2) (upload_file sample_invocation attachment (Some (py "  "))) 0%nat
        = [Asked (defer true) None;
           Asked (to_file attachment true) None;
           Asked (channel_send {| place_id := 77; place_kind := TextPlace |} None None
                    (Some {| file_name := py "plan.pdf"; file_spoiler := true |}) None)
             (Some HTTPException);
           Noted (py "Datei konnte nicht hochgeladen werden: %s") HTTPException;
           Asked (followup_send (py "Die Datei konnte nicht gesendet werden.")) None]).
Proof.
  intros inv attachment message W platform w. split; [|split].
  - apply all_asks_run, upload_file_all_asks.
  - unfold upload_file. destruct (channel inv) as [place|]; [|apply trace_last_ask].
    destruct (26214400 <? size attachment) eqn:Es.
    + apply Z.ltb_lt in Es.
      assert (negb (size attachment =? 0) && (MAX_FILE_UPLOAD_BYTES <? size attachment)
              = true) as ->.
      { apply andb_true_iff. split; [apply negb_true_iff, Z.eqb_neq; lia|].
        apply Z.ltb_lt. unfold MAX_FILE_UPLOAD_BYTES. lia. }
      apply trace_last_ask.
    + apply Z.ltb_ge in Es.
      assert (negb (size attachment =? 0) && (MAX_FILE_UPLOAD_BYTES <? size attachment)
              = false) as ->.
      { apply andb_false_iff. right. apply Z.ltb_ge. unfold MAX_FILE_UPLOAD_BYTES. lia. }
      by rewrite trace_ask.
  - by vm_compute.
Qed.

Lemma echo_all_asks inv text allow_mentions :
  all_asks (echo_request inv text allow_mentions) (echo inv text allow_mentions).
Proof.
  unfold echo. destruct (channel inv) as [place|] eqn:Ec; [|by apply all_asks_last].
  pose proof (strip_trimmed text) as Htrim.
  destruct (strip text) as [|c t] eqn:Et; [by apply all_asks_last|].
  split; [done|]. intros [x|e]; [|done].
  split; [simpl; by rewrite Et|].
  intros [y|e]; [by apply all_asks_last|].
  destruct (is_http_exception e); [by apply all_asks_last|done].
Qed.

(** What [echo] posts is the text of the command without the white
    space around it, never empty, in the channel of the command and
    after [defer]; unless [allow_mentions] is given the message is sent
    with [AllowedMentions.none()], so that it notifies nobody.  A blank
    text is only answered. *)
Theorem echo_sends :
  forall (inv : Invocation) (text : str) (allow_mentions : bool)
         (W : Type) (platform : W -> forall c : request, result (answer c) * W) (w : W),
    Forall (echo_request inv text allow_mentions)
      (asks (trace platform (echo inv text allow_mentions) w))
    /\ match channel inv with
       | None =>
           asks (trace platform (echo inv text allow_mentions) w)
           = [send_message (py "Ich kann in diesem Kontext nichts senden.")]
       | Some _ =>
           if forallb isspace text
           then asks (trace platform (echo inv text allow_mentions) w)
                = [send_message (py "Bitte gib eine Nachricht an.")]
           else head (asks (trace platform (echo inv text allow_mentions) w))
                = Some (defer false)
       end
    /\ asks (trace losing (echo sample_invocation (py "  @everyone hi ") false) tt)
       = [defer false;
          channel_send {| place_id := 77; place_kind := TextPlace |}
            (Some (py "@everyone hi")) None None (Some mentions_none);
          followup_send (py "Nachricht gesendet.")].
Proof.
  intros inv text allow_mentions W platform w. split; [|split].
  - apply all_asks_run, echo_all_asks.
  - unfold echo. destruct (channel inv) as [place|]; [|apply trace_last_ask].
    pose proof (strip_empty_iff text) as Hs.
    destruct (strip text) as [|c t].
    + rewrite (proj1 Hs eq_refl). apply trace_last_ask.
    + destruct (forallb isspace text); [discriminate (proj2 Hs eq_refl)|].
      by rewrite trace_ask.
  - by vm_compute.
Qed.
(** [_parse_embed_color] gives a colour of 24 bits or raises
    [ValueError], nothing else. *)
Lemma parse_embed_color_result {U : PyUnicode} (raw : option str) :
  match _parse_embed_color raw with
  | Ok color => 0 <= color_value color <= 0xffffff
  | Raise e => exists msg, e = ValueError msg
  end.
Proof.
  destruct raw as [[|c t]|]; [by vm_compute| |by vm_compute].
  pose proof (parse_embed_color_cases c t) as H. cbv zeta in H.
  destruct (spec_expand (drop_hash (str_lower (strip (c :: t))))) as [six|] eqn:E.
  - apply spec_expand_length in E. destruct (forallb is_hex six).
    + destruct H as (v & Hv & ->). apply int16_from_bound in Hv; [|done].
      rewrite E in Hv. simpl in *. lia.
    + rewrite H. by eexists.
  - rewrite H. by eexists.
Qed.

Lemma footer_of_cases (footer : option str) :
  footer_of footer
  = (if forallb isspace (default [] footer) then None else Some (strip (default [] footer)))
  /\ match footer_of footer with
     | None => True
     | Some text => text <> [] /\ trimmed text
     end.
Proof.
  destruct footer as [[|c t]|]; [done| |done]. unfold footer_of.
  change (default [] (Some (c :: t))) with (c :: t).
  pose proof (strip_empty_iff (c :: t)) as Hs. pose proof (strip_trimmed (c :: t)) as Ht.
  destruct (strip (c :: t)) as [|c' t'].
  - by rewrite (proj1 Hs eq_refl).
  - destruct (forallb isspace (c :: t)); [discriminate (proj2 Hs eq_refl)|]. done.
Qed.

Lemma create_embed_all_asks {U : PyUnicode} inv title description color_hex footer :
  all_asks (embed_request inv title description color_hex footer)
    (create_embed inv title description color_hex footer).
Proof.
  unfold create_embed. destruct (channel inv) as [place|] eqn:Ec; [|by apply all_asks_last].
  cbv zeta.
  pose proof (strip_trimmed title) as Htt. pose proof (strip_trimmed description) as Htd.
  destruct (strip title) as [|c1 t1] eqn:Et; [by apply all_asks_last|].
  destruct (strip description) as [|c2 t2] eqn:Ed; [by apply all_asks_last|].
  destruct (256 <? length (c1 :: t1))%nat eqn:E1; [by apply all_asks_last|].
  destruct (4096 <? length (c2 :: t2))%nat eqn:E2; [by apply all_asks_last|].
  apply Nat.ltb_ge in E1, E2.
  pose proof (parse_embed_color_result color_hex) as Hc.
  destruct (_parse_embed_color color_hex) as [color|err] eqn:Ecol.
  2: { destruct Hc as [msg ->]. by apply all_asks_last. }
  destruct (footer_of_cases footer) as [Hf1 Hf2].
  split; [done|]. intros [x|e]; [|done]. split.
  - split; [done|]. split; [done|]. split; [done|]. split; [done|].
    eexists. split; [reflexivity|]. cbn [embed_title embed_description embed_color
      author_name author_icon_url embed_timestamp footer_text].
    rewrite Et, Ed. repeat (split; [done|]).
    unfold embed_within_limits. cbn [embed_title embed_description embed_color footer_text].
    split; [simpl length in *; lia|]. split; [simpl length in *; lia|]. done.
  - intros [y|e]; [by apply all_asks_last|].
    destruct (is_http_exception e); [by apply all_asks_last|done].
Qed.

(** Every embed that [create_embed] sends is within Discord's limits:
    the title is the stripped title, of 1 to 256 characters, the
    description the stripped description, of 1 to 4096 characters, the
    colour is the one [_parse_embed_color] returned, between 0 and
    0xFFFFFF, and the footer is set only when it is not blank, to its
    stripped text; author and time are those of the command.  In every
    run the requests are one single reply, or begin with [defer], which
    is reached only when the colour parses.  A colour that does not parse
    is answered with the parser's own message. *)
Theorem create_embed_limits :
  forall (U : PyUnicode) (inv : Invocation) (title description : str)
         (color_hex footer : option str)
         (W : Type) (platform : W -> forall c : request, result (answer c) * W) (w : W),
    Forall (embed_request inv title description color_hex footer)
      (asks (trace platform (create_embed inv title description color_hex footer) w))
    /\ ((exists text,
            asks (trace platform (create_embed inv title description color_hex footer) w)
            = [send_message text])
        \/ (head (asks (trace platform
                          (create_embed inv title description color_hex footer) w))
            = Some (defer false)
            /\ exists color, _parse_embed_color color_hex = Ok color))
    /\ asks (trace losing
               (@create_embed Latin1 sample_invocation (py "Plan") (py "Montag")
                  (Some (py "12345")) None) tt)
       = [send_message (py "Hexfarbe muss 3 oder 6 Zeichen lang sein.")]
    /\ asks (trace losing
               (@create_embed Latin1 sample_invocation (py " Plan ") (py "Montag")
                  (Some (py "#F80")) (Some (py "  "))) tt)
       = [defer false;
          channel_send {| place_id := 77; place_kind := TextPlace |} None
            (Some {| embed_title := py "Plan"; embed_description := py "Montag";
                     embed_color := MkColor 0xff8800; embed_timestamp := 1700000000;
                     author_name := py "Tom";
                     author_icon_url := py "https://cdn.example/avatar.png";
                     footer_text := None |})
            None None;
          followup_send (py "Embed gesendet.")].
Proof.
  intros U inv title description color_hex footer W platform w.
  split; [|split; [|split]].
  - apply all_asks_run, create_embed_all_asks.
  - unfold create_embed. destruct (channel inv) as [place|];
      [|left; eexists; apply trace_last_ask].
    cbv zeta.
    destruct (strip title) as [|c1 t1]; [left; eexists; apply trace_last_ask|].
    destruct (strip description) as [|c2 t2]; [left; eexists; apply trace_last_ask|].
    destruct (256 <? length (c1 :: t1))%nat; [left; eexists; apply trace_last_ask|].
    destruct (4096 <? length (c2 :: t2))%nat; [left; eexists; apply trace_last_ask|].
    pose proof (parse_embed_color_result color_hex) as Hc.
    destruct (_parse_embed_color color_hex) as [color|err].
    + right. rewrite trace_ask. split; [done|by exists color].
    + destruct Hc as [msg ->]. left. eexists. apply trace_last_ask.
  - by vm_compute.
  - by vm_compute.
Qed.
(** ** Exceptions and the order of answers *)

Ltac answered platform :=
  match goal with
  | |- context [platform ?w ?c] =>
      let e := fresh "e" in
      destruct (platform w c) as [[?|e] ?]; [|destruct e]; simpl
  end.

Ltac escaped :=
  solve [ done
        | eexists; split; [reflexivity|]; solve [by left | by right] ].

(** In [upload_file], [echo], [create_embed] and [on_submit] no
    [HTTPException], [Forbidden] or [NotFound] of the download, of the
    post to the channel or of the log entry leaves the handler: on every
    platform, a run that ends in an exception ends with the request that
    raised it, and that request was an answer to the caller
    ([send_message], [defer] or a follow-up), or the exception is none of
    those three.  None of the four ends in an [AttributeError]. *)
Theorem relay_errors_contained :
  forall (U : PyUnicode) (inv : Invocation)
         (W : Type) (platform : W -> forall c : request, result (answer c) * W) (w : W),
    (forall attachment message,
        escaped_from_answer (trace platform (upload_file inv attachment message) w)
          (outcome platform (upload_file inv attachment message) w))
    /\ (forall text allow_mentions,
          escaped_from_answer (trace platform (echo inv text allow_mentions) w)
            (outcome platform (echo inv text allow_mentions) w))
    /\ (forall title description color_hex footer,
          escaped_from_answer
            (trace platform (create_embed inv title description color_hex footer) w)
            (outcome platform (create_embed inv title description color_hex footer) w))
    /\ (forall log_channel wochentag zeit,
          escaped_from_answer (trace platform (on_submit log_channel wochentag zeit inv) w)
            (outcome platform (on_submit log_channel wochentag zeit inv) w)).
Proof.
  intros U inv W platform w. unfold escaped_from_answer, trace, outcome.
  split; [|split; [|split]].
  - intros attachment message. unfold upload_file.
    destruct (channel inv) as [place|]; simpl; [|answered platform; escaped].
    destruct (negb (size attachment =? 0) && (MAX_FILE_UPLOAD_BYTES <? size attachment));
      simpl; repeat answered platform; escaped.
  - intros text allow_mentions. unfold echo.
    destruct (channel inv) as [place|]; simpl; [|answered platform; escaped].
    destruct (strip text) as [|c t]; simpl; repeat answered platform; escaped.
  - intros title description color_hex footer. unfold create_embed.
    destruct (channel inv) as [place|]; [|simpl; answered platform; escaped].
    cbv zeta.
    destruct (strip title) as [|c1 t1]; [simpl; answered platform; escaped|].
    destruct (strip description) as [|c2 t2]; [simpl; answered platform; escaped|].
    destruct (256 <? length (c1 :: t1))%nat; [simpl; answered platform; escaped|].
    destruct (4096 <? length (c2 :: t2))%nat; [simpl; answered platform; escaped|].
    pose proof (parse_embed_color_result color_hex) as Hc.
    destruct (_parse_embed_color color_hex) as [color|err].
    + simpl. repeat answered platform; escaped.
    + destruct Hc as [msg ->]. simpl. answered platform; escaped.
  - intros log_channel wochentag zeit. unfold on_submit. simpl.
    repeat answered platform; escaped.
Qed.

(** Every command of this group keeps Discord's order of answers, on
    every platform: once a response ([send_message], [send_modal] or
    [defer]) has gone through, no second response is requested, and a
    follow-up is requested only after a response has gone through.
    [on_submit] requests a second [send_message] only when the first one
    raised. *)
Theorem relay_answers_in_order :
  forall (U : PyUnicode) (inv : Invocation)
         (W : Type) (platform : W -> forall c : request, result (answer c) * W) (w : W),
    (forall member reason,
        answers_in_order false (trace platform (kick inv member reason) w) = true
        /\ answers_in_order false (trace platform (ban inv member reason) w) = true)
    /\ (forall anzahl reason,
          answers_in_order false (trace platform (clear_chat inv anzahl reason) w) = true)
    /\ (forall attachment message,
          answers_in_order false (trace platform (upload_file inv attachment message) w)
          = true)
    /\ (forall text allow_mentions,
          answers_in_order false (trace platform (echo inv text allow_mentions) w) = true)
    /\ (forall title description color_hex footer,
          answers_in_order false
            (trace platform (create_embed inv title description color_hex footer) w)
          = true)
    /\ (forall text_channels,
          answers_in_order false (trace platform (register inv text_channels) w) = true)
    /\ (forall log_channel wochentag zeit,
          answers_in_order false (trace platform (on_submit log_channel wochentag zeit inv) w)
          = true).
Proof.
  intros U inv W platform w. unfold trace.
  split; [|split; [|split; [|split; [|split; [|split]]]]].
  - intros member reason. split.
    + unfold kick. simpl. repeat answered platform; done.
    + unfold ban. destruct (guild (interaction inv)); simpl; [|done].
      repeat answered platform; done.
  - intros anzahl reason. unfold clear_chat.
    destruct (channel inv) as [place|]; simpl; [|answered platform; done].
    destruct (place_kind place); simpl; repeat answered platform; done.
  - intros attachment message. unfold upload_file.
    destruct (channel inv) as [place|]; simpl; [|answered platform; done].
    destruct (negb (size attachment =? 0) && (MAX_FILE_UPLOAD_BYTES <? size attachment));
      simpl; repeat answered platform; done.
  - intros text allow_mentions. unfold echo.
    destruct (channel inv) as [place|]; simpl; [|answered platform; done].
    destruct (strip text) as [|c t]; simpl; repeat answered platform; done.
  - intros title description color_hex footer. unfold create_embed.
    destruct (channel inv) as [place|]; [|simpl; answered platform; done].
    cbv zeta.
    destruct (strip title) as [|c1 t1]; [simpl; answered platform; done|].
    destruct (strip description) as [|c2 t2]; [simpl; answered platform; done|].
    destruct (256 <? length (c1 :: t1))%nat; [simpl; answered platform; done|].
    destruct (4096 <? length (c2 :: t2))%nat; [simpl; answered platform; done|].
    destruct (_parse_embed_color color_hex) as [color|err].
    + simpl. repeat answered platform; done.
    + destruct err; simpl; try done; answered platform; done.
  - intros text_channels. unfold register.
    destruct (guild (interaction inv)); [|simpl; answered platform; done].
    destruct (_get_kurs_logs_channel text_channels); simpl; answered platform; done.
  - intros log_channel wochentag zeit. unfold on_submit. simpl.
    repeat answered platform; done.
Qed.

(** ** [register] and [RegisterModal.on_submit] *)

(** [register] shows the modal only in a guild, and only with the first
    of the guild's text channels whose case-folded name is ["kurs-logs"];
    when there is none it says so.  [on_submit] writes the log entry
    first, which names the caller by mention and id and carries both
    values; it thanks the caller only after the entry has gone through,
    and when the entry is refused the caller gets the failure text and
    no thanks.  When the entry has gone through and the thanks raise an
    [HTTPException], the handler logs that the registration could not be
    logged and sends the failure text, although the entry is in the
    channel. *)
Theorem register_logs_first :
  forall (U : PyUnicode) (inv : Invocation) (text_channels : list Channel)
         (log_channel : Channel) (wochentag zeit : str)
         (W : Type) (platform : W -> forall c : request, result (answer c) * W) (w : W),
    let entry :=
      log_channel_send log_channel
        (registration_text (user (interaction inv)) wochentag zeit) in
    let thanks := send_message (py "Danke! Deine Angaben wurden gespeichert.") in
    let sorry :=
      send_message
        (py "Fehler beim Speichern deiner Angaben. Bitte versuche es spaeter erneut.") in
    match guild (interaction inv) with
    | None =>
        asks (trace platform (register inv text_channels) w)
        = [send_message (py "Bitte benutze diesen Befehl auf dem Server.")]
    | Some _ =>
        match _get_kurs_logs_channel text_channels with
        | Some found =>
            asks (trace platform (register inv text_channels) w) = [send_modal found]
            /\ is_kurs_logs found
            /\ exists before after,
                 text_channels = before ++ found :: after
                 /\ Forall (fun ch => ~ is_kurs_logs ch) before
        | None =>
            asks (trace platform (register inv text_channels) w)
            = [send_message (py "Kanal #kurs-logs wurde nicht gefunden.")]
            /\ Forall (fun ch => ~ is_kurs_logs ch) text_channels
        end
    end
    /\ (let '(r0, w1) := platform w entry in
        match r0 with
        | Ok _ =>
            let '(r1, w2) := platform w1 thanks in
            match r1 with
            | Ok _ =>
                trace platform (on_submit log_channel wochentag zeit inv) w
                = [Asked entry None; Asked thanks None]
            | Raise e =>
                if is_http_exception e
                then asks (trace platform (on_submit log_channel wochentag zeit inv) w)
                     = [entry; thanks; sorry]
                else trace platform (on_submit log_channel wochentag zeit inv) w
                     = [Asked entry None; Asked thanks (Some e)]
            end
        | Raise e =>
            if is_http_exception e
            then asks (trace platform (on_submit log_channel wochentag zeit inv) w)
                 = [entry; sorry]
            else trace platform (on_submit log_channel wochentag zeit inv) w
                 = [Asked entry (Some e)]
        end)
    /\ registration_text (GuildMember sample_student) (py "Montag") (py "16 Uhr")
       = py "Neue Kurs-Registrierung von <@13> (13)" ++ [10%N]
         ++ py "Wochentag: Montag" ++ [10%N] ++ py "Zeit: 16 Uhr".
Proof.
  intros U inv text_channels log_channel wochentag zeit W platform w entry thanks sorry.
  split; [|split].
  - unfold register. destruct (guild (interaction inv)); [|apply trace_last_ask].
    unfold _get_kurs_logs_channel.
    set (f := fun ch : Channel =>
                match channel_kind ch with
                | TextChannel => bool_decide (str_casefold (channel_name ch) = py "kurs-logs")
                | _ => false
                end).
    assert (forall ch, f ch = true <-> is_kurs_logs ch) as Hf.
    { intros ch. unfold f, is_kurs_logs. destruct (channel_kind ch).
      - split; [done|]. by intros [? _].
      - rewrite bool_decide_eq_true. split; [done|]. by intros [_ ?].
      - split; [done|]. by intros [? _]. }
    assert (forall l, forallb (fun y => negb (f y)) l = true ->
                      Forall (fun ch => ~ is_kurs_logs ch) l) as Hnone.
    { intros l Hl. apply Forall_forall. intros ch Hch%list_elem_of_In.
      rewrite forallb_forall in Hl. specialize (Hl ch Hch).
      intros Hk%Hf. by rewrite Hk in Hl. }
    pose proof (find_first f text_channels) as Hfind.
    destruct (find f text_channels) as [found|].
    + destruct Hfind as (Hfound & before & after & -> & Hb).
      split; [apply trace_last_ask|]. split; [by apply Hf|].
      exists before, after. split; [done|]. by apply Hnone.
    + split; [apply trace_last_ask|]. by apply Hnone.
  - unfold trace, on_submit. fold entry thanks sorry. simpl.
    destruct (platform w entry) as [[x|e] w1]; simpl.
    + destruct (platform w1 thanks) as [[y|e] w2]; simpl; [done|].
      destruct (is_http_exception e); simpl; [|done].
      by destruct (platform w2 sorry) as [[z|e'] w3].
    + destruct (is_http_exception e); simpl; [|done].
      by destruct (platform w1 sorry) as [[z|e'] w3].
  - by vm_compute.
Qed.

End RelayFacts.
